(** * CS5368 codec driver: control plane

    A shallow embedding of [sound/soc/codecs/cs5368.c] (register tables,
    stream configuration, format negotiation, runtime power management)
    together with a model of the register store the driver sits on, and
    the properties the design document states about them. *)

From Stdlib Require Import ZArith Lia Bool List.
From stdpp Require Import base option gmap list strings.

Local Open Scope Z_scope.

(** ** Constants of the kernel headers *)

Module Linux.

(** Modelled from the spec: errno of a failed allocation
    ([errno-base.h], a kernel header the driver includes). *)
Definition ENOMEM : Z := 12.

(** Modelled from the spec: errno regmap answers for an address its
    access tables refuse (ReservedAddress); [errno-base.h]. *)
Definition EIO : Z := 5.

(** Modelled from the spec: errno of InvalidArgument and of an
    unsupported ratio, which the driver both returns as [-EINVAL];
    [errno-base.h]. *)
Definition EINVAL : Z := 22.

(** Modelled from the spec: the I2S format of [soc-dai.h]. *)
Definition SND_SOC_DAIFMT_I2S : Z := 1.

(** Modelled from the spec: the DSP_A format of [soc-dai.h]. *)
Definition SND_SOC_DAIFMT_DSP_A : Z := 4.

(** Modelled from the spec: the format field of a DAI format word
    ([soc-dai.h]). *)
Definition SND_SOC_DAIFMT_FORMAT_MASK : Z := 0x000f.

(** Modelled from the spec: the clock-role field of a DAI format word
    ([soc-dai.h]). *)
Definition SND_SOC_DAIFMT_CLOCK_PROVIDER_MASK : Z := 0xf000.

(** Modelled from the spec: the consumer clock role, the codec
    receiving bit and frame clock ([soc-dai.h]). *)
Definition SND_SOC_DAIFMT_BC_FC : Z := Z.shiftl 4 12.

(** Modelled from the spec: the "input" direction of [set_sysclk]
    ([soc.h]). *)
Definition SND_SOC_CLOCK_IN : Z := 0.

End Linux.
Import Linux.

(** ** C integer conversions (32-bit [int] and [unsigned int]) *)

Definition UINT_MOD : Z := 2 ^ 32.
Definition INT_MAX : Z := 2 ^ 31 - 1.

Definition to_unsigned (x : Z) : Z := x mod UINT_MOD.

Definition to_int (x : Z) : Z :=
  let u := x mod UINT_MOD in
  if u <=? INT_MAX then u else u - UINT_MOD.

(** Unsigned division after the usual arithmetic conversions; [None] is
    the division-by-zero trap. *)
Definition udiv (a b : Z) : option Z :=
  if to_unsigned b =? 0 then None
  else Some (to_unsigned a / to_unsigned b).

(** ** Register map of the device *)

Definition REG_REVI : Z := 0x00.
Definition REG_GCTL : Z := 0x01.
Definition REG_OVFL : Z := 0x02.
Definition REG_OVFM : Z := 0x03.
Definition REG_HPF : Z := 0x04.
Definition REG_RSVD1 : Z := 0x05.
Definition REG_PDN : Z := 0x06.
Definition REG_RSVD2 : Z := 0x07.
Definition REG_MUTE : Z := 0x08.
Definition REG_RSVD3 : Z := 0x09.
Definition REG_SDEN : Z := 0x0A.
Definition MAX_REG : Z := REG_SDEN.

Definition REG_GCTL_MDIV_MASK : Z := 0x30.

(** [struct reg_sequence] and [struct reg_default] entries are
    (register, value) pairs. *)
Definition cs5368_reg_init : list (Z * Z) :=
  [ (REG_GCTL, 0x8B);   (* CP-EN, TDM format, slave audio clocking *)
    (REG_OVFM, 0x00);   (* mask all overflows *)
    (REG_SDEN, 0x0A) ]. (* only enable TDM and _TDM pins *)

Definition cs5368_reg_defaults : list (Z * Z) :=
  [ (REG_REVI, 0x80);
    (REG_GCTL, 0x00);
    (REG_OVFL, 0xFF);
    (REG_OVFM, 0xFF);
    (REG_HPF, 0x00);
    (REG_PDN, 0x00);
    (REG_MUTE, 0x00);
    (REG_SDEN, 0x00) ].

(** [struct regmap_range]: an inclusive interval of addresses. *)
Definition regmap_reg_range (low high : Z) : Z * Z := (low, high).

Definition cs5368_rd_no_ranges : list (Z * Z) :=
  [ regmap_reg_range REG_RSVD1 REG_RSVD1;
    regmap_reg_range REG_RSVD2 REG_RSVD2;
    regmap_reg_range REG_RSVD3 REG_RSVD3 ].

Definition cs5368_wr_no_ranges : list (Z * Z) :=
  [ regmap_reg_range REG_REVI REG_REVI;
    regmap_reg_range REG_RSVD1 REG_RSVD1;
    regmap_reg_range REG_RSVD2 REG_RSVD2;
    regmap_reg_range REG_RSVD3 REG_RSVD3 ].

Definition cs5368_volatile_yes_ranges : list (Z * Z) :=
  [ regmap_reg_range REG_OVFL REG_OVFL ].

Record regmap_access_table := {
  yes_ranges : list (Z * Z);
  no_ranges : list (Z * Z)
}.

Definition cs5368_rd_table : regmap_access_table :=
  {| yes_ranges := []; no_ranges := cs5368_rd_no_ranges |}.

Definition cs5368_wr_table : regmap_access_table :=
  {| yes_ranges := []; no_ranges := cs5368_wr_no_ranges |}.

Definition cs5368_volatile_table : regmap_access_table :=
  {| yes_ranges := cs5368_volatile_yes_ranges; no_ranges := [] |}.

Record regmap_config := {
  reg_bits : Z;
  val_bits : Z;
  reg_defaults : list (Z * Z);
  max_register : Z;
  rd_table : regmap_access_table;
  wr_table : regmap_access_table;
  volatile_table : regmap_access_table;
  read_flag_mask : Z;
  write_flag_mask : Z
}.

Definition cs5368_regmap_config : regmap_config :=
  {| reg_bits := 8;
     val_bits := 8;
     reg_defaults := cs5368_reg_defaults;
     max_register := MAX_REG;
     rd_table := cs5368_rd_table;
     wr_table := cs5368_wr_table;
     volatile_table := cs5368_volatile_table;
     read_flag_mask := 0x80;    (* INCR bit, so batch reads work *)
     write_flag_mask := 0x80 |}. (* INCR bit, so batch writes work *)

(** ** Device instance and its surroundings *)

(** Modelled from the spec: what the driver asks of its collaborators
    (register store, reset line, supply rails, transport), kept in
    program order. *)
Inductive event :=
  | EvCacheOnly (enable : bool)
  | EvMarkDirty
  | EvResetGpio (value : bool)
  | EvBulkEnable (rc : Z)
  | EvBulkDisable (rc : Z)
  | EvBusRead (wire_addr : Z) (rc : Z)
  | EvBusWrite (wire_addr val : Z) (rc : Z).

(** Modelled from the spec: the collaborators.  Supply rails (enabled
    as a group or not at all), the reset line, the serial control bus
    with the device registers behind it, the return codes its next
    transfers will produce (none left: the transfer succeeds), and the
    record of calls made so far. *)
Record platform := {
  supplies_enabled : bool;
  reset_asserted : bool;
  hw_regs : gmap Z Z;
  bus_script : list Z;
  history : list event
}.

(** Modelled from the spec: the cache of the register store ([struct
    regmap] of the regmap core), "a shadow copy ... keyed by address,
    with a bypass flag"; [cache_only] is that flag. *)
Record regmap := {
  cache : gmap Z Z;
  cache_only : bool;
  cache_dirty : bool
}.

(** [struct cs5368_priv].  The [regulators], [reset_gpio] and [regmap]
    members are handles; what they denote is held in [platform] and
    [regmap] of the enclosing [device]. *)
Record cs5368_priv := {
  mclk_freq : Z;
  tdm : bool
}.

Record device := {
  priv : cs5368_priv;
  rmap : regmap;
  plat : platform
}.

Definition emit (e : event) (p : platform) : platform :=
  {| supplies_enabled := supplies_enabled p;
     reset_asserted := reset_asserted p;
     hw_regs := hw_regs p;
     bus_script := bus_script p;
     history := history p ++ [e] |}.

Definition set_supplies (b : bool) (p : platform) : platform :=
  {| supplies_enabled := b;
     reset_asserted := reset_asserted p;
     hw_regs := hw_regs p;
     bus_script := bus_script p;
     history := history p |}.

Definition set_reset (b : bool) (p : platform) : platform :=
  {| supplies_enabled := supplies_enabled p;
     reset_asserted := b;
     hw_regs := hw_regs p;
     bus_script := bus_script p;
     history := history p |}.

Definition set_hw_regs (h : gmap Z Z) (p : platform) : platform :=
  {| supplies_enabled := supplies_enabled p;
     reset_asserted := reset_asserted p;
     hw_regs := h;
     bus_script := bus_script p;
     history := history p |}.

Definition set_bus_script (l : list Z) (p : platform) : platform :=
  {| supplies_enabled := supplies_enabled p;
     reset_asserted := reset_asserted p;
     hw_regs := hw_regs p;
     bus_script := l;
     history := history p |}.

Definition set_cache (c : gmap Z Z) (m : regmap) : regmap :=
  {| cache := c; cache_only := cache_only m; cache_dirty := cache_dirty m |}.

Definition set_cache_only (b : bool) (m : regmap) : regmap :=
  {| cache := cache m; cache_only := b; cache_dirty := cache_dirty m |}.

Definition set_cache_dirty (b : bool) (m : regmap) : regmap :=
  {| cache := cache m; cache_only := cache_only m; cache_dirty := b |}.

Definition set_mclk_freq (f : Z) (v : cs5368_priv) : cs5368_priv :=
  {| mclk_freq := f; tdm := tdm v |}.

Definition set_tdm (b : bool) (v : cs5368_priv) : cs5368_priv :=
  {| mclk_freq := mclk_freq v; tdm := b |}.

(** ** Serial control bus *)

Module Bus.

(** Modelled from the spec: the transport collaborator (the I2C bus
    behind regmap) answers each transaction with a return code; here
    the next code of the script, 0 when the script has run out. *)
Definition next_rc (p : platform) : Z * platform :=
  match bus_script p with
  | [] => (0, p)
  | rc :: rest => (rc, set_bus_script rest p)
  end.

(** Modelled from the spec: a write transaction of the transport.
    "Each transaction addresses one register"; the address byte on the
    wire carries the auto-increment flag; a failed transaction leaves
    the device register as it was. *)
Definition i2c_write (flag reg val : Z) (p : platform) : Z * platform :=
  let '(rc, p1) := next_rc p in
  let p2 := emit (EvBusWrite (Z.lor reg flag) val rc) p1 in
  if rc =? 0 then (0, set_hw_regs (<[reg := val]> (hw_regs p2)) p2)
  else (rc, p2).

(** Modelled from the spec: a read transaction of the transport; a
    register the device never received a value for reads as 0. *)
Definition i2c_read (flag reg : Z) (p : platform) : Z * Z * platform :=
  let '(rc, p1) := next_rc p in
  let p2 := emit (EvBusRead (Z.lor reg flag) rc) p1 in
  if rc =? 0 then (0, default 0 (hw_regs p2 !! reg), p2)
  else (rc, 0, p2).

End Bus.

(** ** Bit fields *)

(** Replace the bits of [orig] under [mask] by those of [val]. *)
Definition masked_update (orig mask val : Z) : Z :=
  Z.lor (Z.land orig (Z.lnot mask)) (Z.land val mask).

(** ** Register store *)

Module RegisterStore.

(** Modelled from the spec: the errors of the register store,
    [Error::ReservedAddress] and [Error::Transport] (with the code the
    transport gave). *)
Inductive error :=
  | ReservedAddress
  | Transport (rc : Z).

(** Modelled from the spec: [value | Error] of the store's contract. *)
Inductive result (A : Type) :=
  | Ok (a : A)
  | Err (e : error).
Arguments Ok {A} a.
Arguments Err {A} e.

(** Modelled from the spec: the return code a C caller of regmap sees
    for the errors of the register store; a transport failure is
    "propagated verbatim". *)
Definition errno {A} (r : result A) : Z :=
  match r with
  | Ok _ => 0
  | Err ReservedAddress => - EIO
  | Err (Transport rc) => rc
  end.

Section WithConfig.

Variable cfg : regmap_config.

(** Modelled from the spec: the access checks of the register store
    (regmap core, not part of the driver file): "reserved-address
    rejection and volatile-address cache exclusion are enforced as
    static access tables".  Membership in a list of ranges. *)
Definition reg_in_ranges (reg : Z) (ranges : list (Z * Z)) : bool :=
  existsb (fun r => (fst r <=? reg) && (reg <=? snd r)) ranges.

(** Modelled from the spec: one static access table (regmap core).  It
    refuses the addresses of its no-ranges and, when it has yes-ranges,
    lets through only those. *)
Definition check_range_table (reg : Z) (t : regmap_access_table) : bool :=
  if reg_in_ranges reg (no_ranges t) then false
  else match yes_ranges t with
       | [] => true
       | _ => reg_in_ranges reg (yes_ranges t)
       end.

(** Modelled from the spec: "11 single-byte addresses, 0x00-0x0A". *)
Definition in_address_space (reg : Z) : bool :=
  (0 <=? reg) && (reg <=? max_register cfg).

(** Modelled from the spec: the read check of the register store, over
    the read table of the source. *)
Definition readable (reg : Z) : bool :=
  in_address_space reg && check_range_table reg (rd_table cfg).

(** Modelled from the spec: the write check of the register store, over
    the write table of the source. *)
Definition writeable (reg : Z) : bool :=
  in_address_space reg && check_range_table reg (wr_table cfg).

(** Modelled from the spec: the volatile check of the register store,
    over the volatile table of the source. *)
Definition volatile (reg : Z) : bool :=
  check_range_table reg (volatile_table cfg).

(** Modelled from the spec: the shadow at attach ("an empty/default
    shadow"), "a shadow copy of every non-reserved, non-volatile
    register, keyed by address", filled from the default table. *)
Definition default_cache : gmap Z Z :=
  list_to_map
    (filter (fun d => readable (fst d) && negb (volatile (fst d)) = true)
            (reg_defaults cfg)).

(** Modelled from the spec: the register store at attach, bypass not yet
    set. *)
Definition init : regmap :=
  {| cache := default_cache; cache_only := false; cache_dirty := false |}.

(** Modelled from the spec: [read] of the register store (regmap
    core).  Reserved addresses are refused before the transport; the
    volatile register is always read from the transport; with bypass
    set a read returns the shadow value and never touches the
    transport; otherwise the shadow answers when it holds the
    address and the transport is asked (and the shadow filled) when
    it does not. *)
Definition read (reg : Z) (m : regmap) (p : platform)
  : result Z * regmap * platform :=
  if negb (readable reg) then (Err ReservedAddress, m, p)
  else if volatile reg then
    let '(rc, v, p') := Bus.i2c_read (read_flag_mask cfg) reg p in
    if rc =? 0 then (Ok v, m, p') else (Err (Transport rc), m, p')
  else if cache_only m then (Ok (default 0 (cache m !! reg)), m, p)
  else match cache m !! reg with
       | Some v => (Ok v, m, p)
       | None =>
         let '(rc, v, p') := Bus.i2c_read (read_flag_mask cfg) reg p in
         if rc =? 0 then (Ok v, set_cache (<[reg := v]> (cache m)) m, p')
         else (Err (Transport rc), m, p')
       end.

(** Modelled from the spec: the shadow update of a write; the volatile
    register is "never cached". *)
Definition shadow_store (reg val : Z) (m : regmap) : regmap :=
  if volatile reg then m else set_cache (<[reg := val]> (cache m)) m.

(** Modelled from the spec: [write] of the register store (regmap
    core).  Addresses 0x00, 0x05, 0x07, 0x09 are refused before the
    transport; with bypass set a write updates only the shadow
    (which becomes dirty); otherwise it goes to the transport and
    the shadow is updated on success. *)
Definition write (reg val : Z) (m : regmap) (p : platform)
  : result unit * regmap * platform :=
  if negb (writeable reg) then (Err ReservedAddress, m, p)
  else if cache_only m then
    (Ok tt, set_cache_dirty true (shadow_store reg val m), p)
  else
    let '(rc, p') := Bus.i2c_write (write_flag_mask cfg) reg val p in
    if rc =? 0 then (Ok tt, shadow_store reg val m, p')
    else (Err (Transport rc), m, p').

(** Modelled from the spec: [write_masked], "read-modify-write
    restricted to mask bits" (regmap_update_bits of the regmap
    core). *)
Definition write_masked (reg mask val : Z) (m : regmap) (p : platform)
  : result unit * regmap * platform :=
  match read reg m p with
  | (Err e, m1, p1) => (Err e, m1, p1)
  | (Ok orig, m1, p1) =>
    let tmp := masked_update orig mask val in
    write reg tmp m1 p1
  end.

(** Modelled from the spec: [bulk_init], "applies each pair via
    write, stopping at first failure and surfacing it"
    (regmap_multi_reg_write of the regmap core). *)
Fixpoint bulk_init (sequence : list (Z * Z)) (m : regmap) (p : platform)
  : result unit * regmap * platform :=
  match sequence with
  | [] => (Ok tt, m, p)
  | (reg, val) :: rest =>
    match write reg val m p with
    | (Err e, m1, p1) => (Err e, m1, p1)
    | (Ok _, m1, p1) => bulk_init rest m1 p1
    end
  end.

(** Modelled from the spec: [set_bypass] (regcache_cache_only of the
    regmap core). *)
Definition set_bypass (b : bool) (m : regmap) (p : platform)
  : regmap * platform :=
  (set_cache_only b m, emit (EvCacheOnly b) p).

(** Modelled from the spec: the mark-dirty half of
    [mark_dirty_and_resync] (regcache_mark_dirty of the regmap core). *)
Definition mark_dirty (m : regmap) (p : platform) : regmap * platform :=
  (set_cache_dirty true m, emit EvMarkDirty p).

(** Modelled from the spec: the addresses a resync replays, writable and
    not volatile ("addresses 0x00, 0x05, 0x07, 0x09 are never
    transmitted by a write"). *)
Definition syncable (reg : Z) : bool :=
  writeable reg && negb (volatile reg).

(** Modelled from the spec: the resync half of
    [mark_dirty_and_resync] (regcache_sync of the regmap core),
    "replays the full shadow to hardware in ascending-address order,
    skipping reserved and volatile addresses; any single failed
    write aborts the resync and reports Error::Transport", with no
    rollback. *)
Fixpoint resync_from (regs : list Z) (m : regmap) (p : platform)
  : result unit * platform :=
  match regs with
  | [] => (Ok tt, p)
  | reg :: rest =>
    match (if syncable reg then cache m !! reg else None) with
    | None => resync_from rest m p
    | Some v =>
      let '(rc, p') := Bus.i2c_write (write_flag_mask cfg) reg v p in
      if rc =? 0 then resync_from rest m p'
      else (Err (Transport rc), p')
    end
  end.

(** Modelled from the spec: the address space in ascending order. *)
Definition addresses : list Z :=
  seqZ 0 (max_register cfg + 1).

(** Modelled from the spec: a resync over the whole address space; the
    shadow is clean once every write went through. *)
Definition resync (m : regmap) (p : platform)
  : result unit * regmap * platform :=
  match resync_from addresses m p with
  | (Ok _, p') => (Ok tt, set_cache_dirty false m, p')
  | (Err e, p') => (Err e, m, p')
  end.

(** Modelled from the spec: [mark_dirty_and_resync]. *)
Definition mark_dirty_and_resync (m : regmap) (p : platform)
  : result unit * regmap * platform :=
  let '(m1, p1) := mark_dirty m p in resync m1 p1.

End WithConfig.

End RegisterStore.

(** ** Kernel services as the driver calls them *)

Import RegisterStore.

Local Abbreviation cs5368 := cs5368_regmap_config.

Definition with_store (d : device) (mp : regmap * platform) : device :=
  {| priv := priv d; rmap := fst mp; plat := snd mp |}.

Definition with_plat (d : device) (p : platform) : device :=
  {| priv := priv d; rmap := rmap d; plat := p |}.

Definition with_priv (d : device) (v : cs5368_priv) : device :=
  {| priv := v; rmap := rmap d; plat := plat d |}.

(** Modelled from the spec: [regmap_update_bits] of the regmap core is
    the store's [write_masked]. *)
Definition regmap_update_bits (reg mask val : Z) (d : device) : Z * device :=
  let '(r, m, p) :=
    write_masked cs5368_regmap_config reg mask val (rmap d) (plat d) in
  (errno r, with_store d (m, p)).

(** Modelled from the spec: [regmap_multi_reg_write] of the regmap core
    is the store's [bulk_init]. *)
Definition regmap_multi_reg_write (regs : list (Z * Z)) (d : device)
  : Z * device :=
  let '(r, m, p) := bulk_init cs5368_regmap_config regs (rmap d) (plat d) in
  (errno r, with_store d (m, p)).

(** Modelled from the spec: [regcache_cache_only] of the regmap core is
    the store's [set_bypass]. *)
Definition regcache_cache_only (enable : bool) (d : device) : device :=
  with_store d (set_bypass enable (rmap d) (plat d)).

(** Modelled from the spec: [regcache_mark_dirty] of the regmap core. *)
Definition regcache_mark_dirty (d : device) : device :=
  with_store d (mark_dirty (rmap d) (plat d)).

(** Modelled from the spec: [regcache_sync] of the regmap core is the
    store's resync. *)
Definition regcache_sync (d : device) : Z * device :=
  let '(r, m, p) := resync cs5368_regmap_config (rmap d) (plat d) in
  (errno r, with_store d (m, p)).

(** Modelled from the spec: the reset line (GPIO core, a collaborator);
    a logical 1 asserts the reset. *)
Definition gpiod_set_value_cansleep (value : bool) (d : device) : device :=
  with_plat d (emit (EvResetGpio value) (set_reset value (plat d))).

(** Modelled from the spec: the supply rails (regulator core, a
    collaborator) are "enabled as a group; if any fails, disable those
    already enabled": a bulk call that fails leaves the rails as they
    were.  [rc] is what the regulator core answers to this call. *)
Definition regulator_bulk_enable (rc : Z) (d : device) : Z * device :=
  let p := emit (EvBulkEnable rc) (plat d) in
  (rc, with_plat d (if rc =? 0 then set_supplies true p else p)).

(** Modelled from the spec: the bulk disable of the supply rails
    (regulator core): all rails off, or on failure none. *)
Definition regulator_bulk_disable (rc : Z) (d : device) : Z * device :=
  let p := emit (EvBulkDisable rc) (plat d) in
  (rc, with_plat d (if rc =? 0 then set_supplies false p else p)).

(** ** The driver *)

(** *** Stream configuration: [cs5368_dai_hw_params] *)

Definition lrck_speed_of (rate : Z) : Z :=
  if rate <? 54000 then 256
  else if rate <? 108000 then 128
  else 64.

(** [int mclk_div = priv->mclk_freq / rate / lrck_speed;] with
    [mclk_freq] unsigned: both divisions are unsigned. *)
Definition mclk_div_of (mclk rate : Z) : option Z :=
  q ← udiv mclk rate;
  q' ← udiv q (lrck_speed_of rate);
  Some (to_int q').

Definition mdiv_of (mclk_div : Z) : option Z :=
  if mclk_div =? 4 then Some 3
  else if mclk_div =? 2 then Some 1
  else if mclk_div =? 1 then Some 0
  else None.

(** [params_rate] is the [unsigned int] the stream parameters carry.
    The result is [None] when the division traps, otherwise the return
    code and the device afterwards. *)
Definition cs5368_dai_hw_params (params_rate : Z) (d : device)
  : option (Z * device) :=
  let rate := to_int params_rate in
  mclk_div ← mclk_div_of (mclk_freq (priv d)) rate;
  match mdiv_of mclk_div with
  | None => Some (- EINVAL, d)
  | Some mdiv =>
    let '(rc, d') :=
      regmap_update_bits REG_GCTL REG_GCTL_MDIV_MASK (Z.shiftl mdiv 4) d in
    if negb (rc =? 0) then Some (rc, d') else Some (0, d')
  end.

(** Global control with the divider field replaced by [mdiv]. *)
Definition gctl_with_mdiv (old mdiv : Z) : Z :=
  masked_update old REG_GCTL_MDIV_MASK (Z.shiftl mdiv 4).

(** *** Format negotiation *)

Definition format_mode_of (fmt : Z) : Z :=
  Z.land fmt SND_SOC_DAIFMT_FORMAT_MASK.

Definition clock_mode_of (fmt : Z) : Z :=
  Z.land fmt SND_SOC_DAIFMT_CLOCK_PROVIDER_MASK.

Definition cs5368_dai_set_fmt (fmt : Z) (d : device) : Z * device :=
  let format_mode := format_mode_of fmt in
  let clock_mode := clock_mode_of fmt in
  if negb (format_mode =? SND_SOC_DAIFMT_I2S)
     && negb (format_mode =? SND_SOC_DAIFMT_DSP_A)
  then (- EINVAL, d)
  else if negb (clock_mode =? SND_SOC_DAIFMT_BC_FC)
  then (- EINVAL, d)
  else (0, d).

Definition cs5368_dai_set_tdm_slot (tx_mask rx_mask slots slot_width : Z)
  (d : device) : Z * device :=
  if negb (slots =? 8) && negb (slots =? 4) && negb (slots =? 2)
  then (- EINVAL, d)
  else if negb (slot_width =? 32)
  then (- EINVAL, d)
  else (0, with_priv d (set_tdm true (priv d))).

Definition cs5368_codec_set_sysclk (clk_id source freq dir : Z) (d : device)
  : Z * device :=
  if negb (dir =? SND_SOC_CLOCK_IN)
  then (- EINVAL, d)
  else (0, with_priv d (set_mclk_freq freq (priv d))).

(** *** Attach *)

(** What the kernel answers to the resource requests of the probe. *)
Record probe_env := {
  kzalloc_fails : bool;
  regmap_init_rc : Z;
  regulator_bulk_get_rc : Z;
  gpiod_get_rc : Z;
  pm_runtime_enable_rc : Z;
  register_component_rc : Z
}.

(** The device exists afterwards only when the probe returned 0; the
    reset line is requested driven high ([GPIOD_OUT_HIGH]). *)
Definition cs5368_i2c_probe (env : probe_env) (client : platform)
  : Z * option device :=
  if kzalloc_fails env then (- ENOMEM, None)
  else
    let priv0 := {| mclk_freq := 0; tdm := false |} in
    if negb (regmap_init_rc env =? 0) then (regmap_init_rc env, None)
    else
      let d0 := {| priv := priv0;
                   rmap := RegisterStore.init cs5368_regmap_config;
                   plat := client |} in
      let d1 := regcache_cache_only true d0 in
      let '(rc, d2) := regmap_multi_reg_write cs5368_reg_init d1 in
      if negb (rc =? 0) then (rc, None)
      else if negb (regulator_bulk_get_rc env =? 0)
      then (regulator_bulk_get_rc env, None)
      else if negb (gpiod_get_rc env =? 0) then (gpiod_get_rc env, None)
      else
        let d3 := with_plat d2 (set_reset true (plat d2)) in
        if negb (pm_runtime_enable_rc env =? 0)
        then (pm_runtime_enable_rc env, None)
        else if register_component_rc env =? 0 then (0, Some d3)
        else (register_component_rc env, None).

(** *** Runtime power management *)

(** [disable_rc] is the answer of the regulator core to the bulk
    disable. *)
Definition cs5368_pm_runtime_suspend (disable_rc : Z) (d : device)
  : Z * device :=
  let d1 := regcache_cache_only true d in
  let d2 := gpiod_set_value_cansleep true d1 in
  let '(rc, d3) := regulator_bulk_disable disable_rc d2 in
  if negb (rc =? 0) then (rc, d3)
  else (0, d3).

Definition cs5368_pm_runtime_resume (enable_rc : Z) (d : device)
  : Z * device :=
  let '(rc, d1) := regulator_bulk_enable enable_rc d in
  if negb (rc =? 0) then (rc, d1)
  else
    let d2 := gpiod_set_value_cansleep false d1 in
    let d3 := regcache_cache_only false d2 in
    let d4 := regcache_mark_dirty d3 in
    let '(rc', d5) := regcache_sync d4 in
    if negb (rc' =? 0) then (rc', d5)
    else (0, d5).

(** *** Power state of the design document *)

Inductive power_state := Unpowered | Resetting | Active.

Definition power_state_of (d : device) : power_state :=
  if negb (supplies_enabled (plat d)) then Unpowered
  else if reset_asserted (plat d) then Resetting
  else Active.

(** What neither a register access nor a negotiation call changes. *)
Definition power_view (m : regmap) (p : platform) : bool * bool * bool :=
  (cache_only m, supplies_enabled p, reset_asserted p).

(** Bypass is set exactly while the reset line is asserted, and the line
    is asserted whenever the rails are off. *)
Definition power_consistent (d : device) : Prop :=
  cache_only (rmap d) = reset_asserted (plat d) /\
  (supplies_enabled (plat d) = false -> reset_asserted (plat d) = true).

(** A shadow that still carries the initialisation sequence: overflow
    mask and pin enable as written at attach, global control as written
    at attach but for its divider field (bits 4-5). *)
Definition init_kept (c : gmap Z Z) : Prop :=
  c !! REG_OVFM = Some 0x00 /\
  c !! REG_SDEN = Some 0x0A /\
  exists g, c !! REG_GCTL = Some g /\
            forall i, i <> 4 -> i <> 5 -> Z.testbit g i = Z.testbit 0x8B i.

(** ** Calls from the host *)

Inductive call :=
  | HwParams (params_rate : Z)
  | SetFmt (fmt : Z)
  | SetTdmSlot (tx_mask rx_mask slots slot_width : Z)
  | SetSysclk (clk_id source freq dir : Z)
  | Suspend (disable_rc : Z)
  | Resume (enable_rc : Z).

Definition invoke (c : call) (d : device) : option (Z * device) :=
  match c with
  | HwParams params_rate => cs5368_dai_hw_params params_rate d
  | SetFmt fmt => Some (cs5368_dai_set_fmt fmt d)
  | SetTdmSlot tx_mask rx_mask slots slot_width =>
    Some (cs5368_dai_set_tdm_slot tx_mask rx_mask slots slot_width d)
  | SetSysclk clk_id source freq dir =>
    Some (cs5368_codec_set_sysclk clk_id source freq dir d)
  | Suspend disable_rc => Some (cs5368_pm_runtime_suspend disable_rc d)
  | Resume enable_rc => Some (cs5368_pm_runtime_resume enable_rc d)
  end.

(** The host serialises its calls; a run ends early only on a trap. *)
Fixpoint run (cs : list call) (d : device) : option device :=
  match cs with
  | [] => Some d
  | c :: rest =>
    match invoke c d with
    | None => None
    | Some (_, d') => run rest d'
    end
  end.

(** A call that latches the master clock: [set_sysclk] with the input
    direction. *)
Definition latches_master_clock (c : call) : bool :=
  match c with
  | SetSysclk _ _ _ dir => dir =? SND_SOC_CLOCK_IN
  | _ => false
  end.

Definition is_stream_config (c : call) : bool :=
  match c with
  | HwParams _ => true
  | _ => false
  end.

Definition attach_then (env : probe_env) (client : platform) (cs : list call)
  : option device :=
  match cs5368_i2c_probe env client with
  | (_, Some d0) => run cs d0
  | (_, None) => None
  end.

(** ** Sample runs *)

Definition bare_client : platform :=
  {| supplies_enabled := false;
     reset_asserted := false;
     hw_regs := ∅;
     bus_script := [];
     history := [] |}.

Definition kernel_ok : probe_env :=
  {| kzalloc_fails := false;
     regmap_init_rc := 0;
     regulator_bulk_get_rc := 0;
     gpiod_get_rc := 0;
     pm_runtime_enable_rc := 0;
     register_component_rc := 0 |}.

Definition attached : device :=
  {| priv := {| mclk_freq := 0; tdm := false |};
     rmap := set_cache_dirty true
               (set_cache (<[REG_SDEN := 0x0A]> (<[REG_OVFM := 0x00]>
                  (<[REG_GCTL := 0x8B]>
                     (default_cache cs5368_regmap_config))))
                  (set_cache_only true (RegisterStore.init cs5368_regmap_config)));
     plat := set_reset true (emit (EvCacheOnly true) bare_client) |}.

(** Attached, master clock latched at 24.576 MHz, still unpowered. *)
Definition clocked : device :=
  with_priv attached (set_mclk_freq 24576000 (priv attached)).

(** A bus on which the seventh transfer is not acknowledged. *)
Definition flaky_client : platform :=
  set_bus_script [0; 0; 0; 0; 0; 0; - EIO] bare_client.

Definition powered_on_flaky_bus : option device :=
  attach_then kernel_ok flaky_client
    [Resume 0; SetSysclk 0 0 24576000 SND_SOC_CLOCK_IN].

(** The device registers as the default table lists them. *)
Definition chip_at_reset : platform :=
  set_hw_regs (list_to_map cs5368_reg_defaults) bare_client.

Definition unclocked_calls : list call :=
  [ SetSysclk 0 0 24576000 1;   (* wrong direction: refused *)
    SetFmt (Z.lor SND_SOC_DAIFMT_I2S SND_SOC_DAIFMT_BC_FC);
    SetTdmSlot 0 0 8 32 ].

Definition power_cycle_calls : list call :=
  [ SetSysclk 0 0 24576000 SND_SOC_CLOCK_IN; SetTdmSlot 0 0 8 32 ].

(** ** The design document's divider formula *)

Module DesignDoc.

(** The clock negotiator as the design document words it:
    [oversample_ratio = 256 if sample_rate_hz < 54000 else 128 if
    sample_rate_hz < 108000 else 64], [raw_div = master_clock_hz /
    (sample_rate_hz * oversample_ratio)] by integer division, and
    [raw_div] 1, 2, 4 mapping to codes 0, 1, 3. *)
Definition oversample_ratio (sample_rate_hz : Z) : Z :=
  if sample_rate_hz <? 54000 then 256
  else if sample_rate_hz <? 108000 then 128
  else 64.

Definition raw_div (master_clock_hz sample_rate_hz : Z) : Z :=
  master_clock_hz / (sample_rate_hz * oversample_ratio sample_rate_hz).

Definition divider_code (raw : Z) : option Z :=
  if raw =? 1 then Some 0
  else if raw =? 2 then Some 1
  else if raw =? 4 then Some 3
  else None.

End DesignDoc.

(** ** Stream capabilities, controls and routing tables *)

(** [struct snd_soc_pcm_stream], the members the driver sets. *)
Record snd_soc_pcm_stream := {
  channels_max : Z;
  channels_min : Z;
  rate_max : Z;
  rate_min : Z;
  sig_bits : Z
}.

(** [soc_dai_cs5368.capture]. *)
Definition soc_dai_cs5368_capture : snd_soc_pcm_stream :=
  {| channels_max := 8;
     channels_min := 2;
     rate_max := 216000;
     rate_min := 2000;
     sig_bits := 24 |}.

(** [struct soc_mixer_control] as [SOC_SINGLE] and [SOC_DAPM_SINGLE]
    fill it: one field of [kc_max] at [kc_shift] in register [kc_reg]. *)
Record soc_mixer_control := {
  kc_name : string;
  kc_reg : Z;
  kc_shift : Z;
  kc_max : Z;
  kc_invert : Z
}.

Definition SOC_SINGLE (name : string) (reg shift max invert : Z)
  : soc_mixer_control :=
  {| kc_name := name; kc_reg := reg; kc_shift := shift; kc_max := max;
     kc_invert := invert |}.

Definition SOC_DAPM_SINGLE (name : string) (reg shift max invert : Z)
  : soc_mixer_control :=
  SOC_SINGLE name reg shift max invert.

Definition cs5368_snd_controls : list soc_mixer_control :=
  [ SOC_SINGLE "AIN1 High-Pass Filter Switch" 0x4 0 1 1;
    SOC_SINGLE "AIN2 High-Pass Filter Switch" 0x4 1 1 1;
    SOC_SINGLE "AIN3 High-Pass Filter Switch" 0x4 2 1 1;
    SOC_SINGLE "AIN4 High-Pass Filter Switch" 0x4 3 1 1;
    SOC_SINGLE "AIN5 High-Pass Filter Switch" 0x4 4 1 1;
    SOC_SINGLE "AIN6 High-Pass Filter Switch" 0x4 5 1 1;
    SOC_SINGLE "AIN7 High-Pass Filter Switch" 0x4 6 1 1;
    SOC_SINGLE "AIN8 High-Pass Filter Switch" 0x4 7 1 1 ].

Definition cs5368_snd_controls_mute_ain1 := SOC_DAPM_SINGLE "Switch" 0x8 0 1 1.
Definition cs5368_snd_controls_mute_ain2 := SOC_DAPM_SINGLE "Switch" 0x8 1 1 1.
Definition cs5368_snd_controls_mute_ain3 := SOC_DAPM_SINGLE "Switch" 0x8 2 1 1.
Definition cs5368_snd_controls_mute_ain4 := SOC_DAPM_SINGLE "Switch" 0x8 3 1 1.
Definition cs5368_snd_controls_mute_ain5 := SOC_DAPM_SINGLE "Switch" 0x8 4 1 1.
Definition cs5368_snd_controls_mute_ain6 := SOC_DAPM_SINGLE "Switch" 0x8 5 1 1.
Definition cs5368_snd_controls_mute_ain7 := SOC_DAPM_SINGLE "Switch" 0x8 6 1 1.
Definition cs5368_snd_controls_mute_ain8 := SOC_DAPM_SINGLE "Switch" 0x8 7 1 1.

(** The eight mute switches, in channel order. *)
Definition cs5368_mute_controls : list soc_mixer_control :=
  [ cs5368_snd_controls_mute_ain1; cs5368_snd_controls_mute_ain2;
    cs5368_snd_controls_mute_ain3; cs5368_snd_controls_mute_ain4;
    cs5368_snd_controls_mute_ain5; cs5368_snd_controls_mute_ain6;
    cs5368_snd_controls_mute_ain7; cs5368_snd_controls_mute_ain8 ].

(** [struct snd_soc_dapm_widget]: kind, name, and for a widget with a
    power bit its register, shift and inversion ([SND_SOC_NOPM] is
    [None]); a switch carries its control, an interface output its
    slot. *)
Inductive dapm_kind :=
  | DapmInput
  | DapmAdc
  | DapmSwitch (control : soc_mixer_control)
  | DapmAifOut (slot : Z).

Record snd_soc_dapm_widget := {
  w_kind : dapm_kind;
  w_name : string;
  w_power : option (Z * Z * Z)
}.

Definition SND_SOC_DAPM_INPUT (name : string) : snd_soc_dapm_widget :=
  {| w_kind := DapmInput; w_name := name; w_power := None |}.

Definition SND_SOC_DAPM_ADC (name : string) (reg shift invert : Z)
  : snd_soc_dapm_widget :=
  {| w_kind := DapmAdc; w_name := name; w_power := Some (reg, shift, invert) |}.

Definition SND_SOC_DAPM_SWITCH (name : string) (control : soc_mixer_control)
  : snd_soc_dapm_widget :=
  {| w_kind := DapmSwitch control; w_name := name; w_power := None |}.

Definition SND_SOC_DAPM_AIF_OUT (name : string) (slot : Z)
  : snd_soc_dapm_widget :=
  {| w_kind := DapmAifOut slot; w_name := name; w_power := None |}.

Definition cs5368_dapm_widgets : list snd_soc_dapm_widget :=
  [ SND_SOC_DAPM_INPUT "AIN1"; SND_SOC_DAPM_INPUT "AIN2";
    SND_SOC_DAPM_INPUT "AIN3"; SND_SOC_DAPM_INPUT "AIN4";
    SND_SOC_DAPM_INPUT "AIN5"; SND_SOC_DAPM_INPUT "AIN6";
    SND_SOC_DAPM_INPUT "AIN7"; SND_SOC_DAPM_INPUT "AIN8";
    SND_SOC_DAPM_ADC "AIN12" 0x6 0 1;
    SND_SOC_DAPM_ADC "AIN34" 0x6 1 1;
    SND_SOC_DAPM_ADC "AIN56" 0x6 2 1;
    SND_SOC_DAPM_ADC "AIN78" 0x6 3 1;
    SND_SOC_DAPM_SWITCH "AIN1 Capture" cs5368_snd_controls_mute_ain1;
    SND_SOC_DAPM_SWITCH "AIN2 Capture" cs5368_snd_controls_mute_ain2;
    SND_SOC_DAPM_SWITCH "AIN3 Capture" cs5368_snd_controls_mute_ain3;
    SND_SOC_DAPM_SWITCH "AIN4 Capture" cs5368_snd_controls_mute_ain4;
    SND_SOC_DAPM_SWITCH "AIN5 Capture" cs5368_snd_controls_mute_ain5;
    SND_SOC_DAPM_SWITCH "AIN6 Capture" cs5368_snd_controls_mute_ain6;
    SND_SOC_DAPM_SWITCH "AIN7 Capture" cs5368_snd_controls_mute_ain7;
    SND_SOC_DAPM_SWITCH "AIN8 Capture" cs5368_snd_controls_mute_ain8;
    SND_SOC_DAPM_AIF_OUT "TDM1" 0; SND_SOC_DAPM_AIF_OUT "TDM2" 1;
    SND_SOC_DAPM_AIF_OUT "TDM3" 2; SND_SOC_DAPM_AIF_OUT "TDM4" 3;
    SND_SOC_DAPM_AIF_OUT "TDM5" 4; SND_SOC_DAPM_AIF_OUT "TDM6" 5;
    SND_SOC_DAPM_AIF_OUT "TDM7" 6; SND_SOC_DAPM_AIF_OUT "TDM8" 7 ].

(** [struct snd_soc_dapm_route]: sink, control (if any), source. *)
Record snd_soc_dapm_route := {
  r_sink : string;
  r_control : option string;
  r_source : string
}.

Definition route (sink : string) (control : option string) (source : string)
  : snd_soc_dapm_route :=
  {| r_sink := sink; r_control := control; r_source := source |}.

Definition cs5368_dapm_routes : list snd_soc_dapm_route :=
  [ route "AIN12" None "AIN1"; route "AIN12" None "AIN2";
    route "AIN34" None "AIN3"; route "AIN34" None "AIN4";
    route "AIN56" None "AIN5"; route "AIN56" None "AIN6";
    route "AIN78" None "AIN7"; route "AIN78" None "AIN8";
    route "AIN1 Capture" (Some "Switch") "AIN12";
    route "AIN2 Capture" (Some "Switch") "AIN12";
    route "AIN3 Capture" (Some "Switch") "AIN34";
    route "AIN4 Capture" (Some "Switch") "AIN34";
    route "AIN5 Capture" (Some "Switch") "AIN56";
    route "AIN6 Capture" (Some "Switch") "AIN56";
    route "AIN7 Capture" (Some "Switch") "AIN78";
    route "AIN8 Capture" (Some "Switch") "AIN78";
    route "TDM1" None "AIN1 Capture"; route "TDM2" None "AIN2 Capture";
    route "TDM3" None "AIN3 Capture"; route "TDM4" None "AIN4 Capture";
    route "TDM5" None "AIN5 Capture"; route "TDM6" None "AIN6 Capture";
    route "TDM7" None "AIN7 Capture"; route "TDM8" None "AIN8 Capture" ].

(** ** What a run of calls amounts to *)

(** The frequency a run of calls leaves latched, starting from
    [start]: that of its last [set_sysclk] with the input direction. *)
Fixpoint last_latched (start : Z) (cs : list call) : Z :=
  match cs with
  | [] => start
  | c :: rest =>
    last_latched (match c with
                  | SetSysclk _ _ freq dir =>
                    if dir =? SND_SOC_CLOCK_IN then freq else start
                  | _ => start
                  end) rest
  end.

(** A [set_tdm_slot] call the driver accepts. *)
Definition accepts_tdm_slot (c : call) : bool :=
  match c with
  | SetTdmSlot _ _ slots slot_width =>
    ((slots =? 8) || (slots =? 4) || (slots =? 2)) && (slot_width =? 32)
  | _ => false
  end.

(** The first return code of a list that is not 0, 0 when there is
    none. *)
Fixpoint first_error (rcs : list Z) : Z :=
  match rcs with
  | [] => 0
  | rc :: rest => if rc =? 0 then first_error rest else rc
  end.

(** The answers the probe checks after the allocation, in the order it
    checks them. *)
Definition probe_rcs (env : probe_env) : list Z :=
  [ regmap_init_rc env; regulator_bulk_get_rc env; gpiod_get_rc env;
    pm_runtime_enable_rc env; register_component_rc env ].

(** The bus transfer a successful resync makes for an address, if any:
    a write of the shadowed value, the address byte carrying the
    auto-increment flag. *)
Definition replay_event (c : gmap Z Z) (reg : Z) : option event :=
  if syncable cs5368_regmap_config reg
  then (fun v => EvBusWrite (Z.lor reg (write_flag_mask cs5368_regmap_config))
                            v 0) <$> c !! reg
  else None.

(** A run that latches twice, is refused twice and power-cycles. *)
Definition relatching_calls : list call :=
  [ SetSysclk 0 0 12288000 SND_SOC_CLOCK_IN;
    SetTdmSlot 0 0 8 32;
    Suspend 0;
    SetSysclk 0 0 24576000 SND_SOC_CLOCK_IN;
    SetSysclk 0 0 49152000 1;
    SetTdmSlot 0 0 8 16;
    Resume 0 ].

(** The device a successful attach leaves on [chip_at_reset]. *)
Definition attached_chip : device :=
  with_plat attached (set_reset true (emit (EvCacheOnly true) chip_at_reset)).

(** ** Register fields of the controls *)

(** The bits of its register a control owns. *)
Definition kcontrol_mask (c : soc_mixer_control) : Z :=
  Z.shiftl (kc_max c) (kc_shift c).

(** The field of a control within a register value. *)
Definition kcontrol_field (c : soc_mixer_control) (regval : Z) : Z :=
  Z.land (Z.shiftr regval (kc_shift c)) (kc_max c).

(** Modelled from the spec: a control toggle, "single-bit fields in the
    Register Store" (the put handler of the ASoC core, not part of the
    driver file): a masked write of the field value at the control's
    shift. *)
Definition kcontrol_update (c : soc_mixer_control) (field : Z) (d : device)
  : Z * device :=
  regmap_update_bits (kc_reg c) (kcontrol_mask c)
    (Z.shiftl field (kc_shift c)) d.

(** The power bits of the converter pairs as controls of their own. *)
Definition dapm_power_control (w : snd_soc_dapm_widget)
  : option soc_mixer_control :=
  match w_power w with
  | Some (reg, shift, invert) => Some (SOC_SINGLE (w_name w) reg shift 1 invert)
  | None => None
  end.

(** Every register field the tables declare: high-pass switches, mute
    switches, converter power bits. *)
Definition cs5368_fields : list soc_mixer_control :=
  cs5368_snd_controls ++ cs5368_mute_controls
  ++ omap dapm_power_control cs5368_dapm_widgets.

(** ** Routing graph *)

Definition widget_names : list string := map w_name cs5368_dapm_widgets.

(** The widgets that feed a widget directly. *)
Definition sources_of (sink : string) : list string :=
  map r_source
    (filter (fun r => r_sink r = sink) cs5368_dapm_routes).

(** The widgets a widget reaches upstream in at most [n] hops. *)
Fixpoint upstream (n : nat) (w : string) : list string :=
  match n with
  | O => [w]
  | S n' => w :: concat (map (upstream n') (sources_of w))
  end.

(** The widget of a name, as the routes refer to it. *)
Definition find_widget (name : string) : option snd_soc_dapm_widget :=
  List.find (fun w => String.eqb (w_name w) name) cs5368_dapm_widgets.

Definition widget_kind_of (name : string) : option dapm_kind :=
  w_kind <$> find_widget name.

Definition widget_power_of (name : string) : option (Z * Z * Z) :=
  find_widget name ≫= w_power.

(** ** Stream configurations a run accepted *)

(** The divider codes of the stream configurations of a run that
    returned 0, in the order they came. *)
Fixpoint accepted_codes (cs : list call) (d : device) : list Z :=
  match cs with
  | [] => []
  | c :: rest =>
    match invoke c d with
    | None => []
    | Some (rc, d') =>
      match c with
      | HwParams params_rate =>
        if rc =? 0
        then match mclk_div_of (mclk_freq (priv d)) (to_int params_rate)
                   ≫= mdiv_of with
             | Some code => code :: accepted_codes rest d'
             | None => accepted_codes rest d'
             end
        else accepted_codes rest d'
      | _ => accepted_codes rest d'
      end
    end
  end.

Definition attach_accepted_codes (env : probe_env) (client : platform)
  (cs : list call) : list Z :=
  match cs5368_i2c_probe env client with
  | (_, Some d0) => accepted_codes cs d0
  | (_, None) => []
  end.

(** Global control as a resume replays it: the 0x8B of the
    initialisation sequence with the last accepted divider code, if
    any, in bits 4-5. *)
Definition replayed_gctl (codes : list Z) : Z :=
  match last codes with
  | None => 0x8B
  | Some code => Z.lor 0x8B (Z.shiftl code 4)
  end.

(** A run whose stream configurations are refused and accepted in
    turn. *)
Definition mixed_stream_calls : list call :=
  [ HwParams 48000;                  (* no clock latched: refused *)
    SetSysclk 0 0 24576000 SND_SOC_CLOCK_IN;
    HwParams 96000;                  (* divider 2, code 1 *)
    HwParams 24000;                  (* divider 4, code 3 *)
    HwParams 8000 ].                 (* divider 12: refused *)

(** The attached device after the mute switch of input 3 and the
    high-pass switch of input 5 were toggled. *)
Definition toggled_chip : device :=
  snd (kcontrol_update
         (SOC_SINGLE "AIN5 High-Pass Filter Switch" 0x4 4 1 1) 1
         (snd (kcontrol_update cs5368_snd_controls_mute_ain3 1 attached_chip))).

(** * Properties *)

(** ** Attach *)

Example probe_bare : cs5368_i2c_probe kernel_ok bare_client = (0, Some attached).
Proof. vm_compute. reflexivity. Qed.

(** ** Integer conversions *)

(** Conjunctions of closed facts, each settled by evaluation. *)
Ltac evaluate_all :=
  repeat match goal with
         | |- _ /\ _ => split
         end;
  vm_compute; reflexivity.

(** Case analysis over an explicit list of addresses. *)
Ltac each_member H :=
  repeat (apply elem_of_cons in H as [->|H]);
  [ .. | apply elem_of_nil in H; contradiction ].

Lemma to_unsigned_id (x : Z) : 0 <= x < UINT_MOD -> to_unsigned x = x.
Proof. intros H. unfold to_unsigned. apply Z.mod_small. exact H. Qed.

Lemma to_int_id (x : Z) : 0 <= x <= INT_MAX -> to_int x = x.
Proof.
  intros H. unfold to_int.
  assert (Hm : x mod UINT_MOD = x).
  { apply Z.mod_small. unfold UINT_MOD, INT_MAX in *. lia. }
  rewrite Hm. destruct (Z.leb_spec x INT_MAX); lia.
Qed.

Lemma lrck_speed_of_cases (rate : Z) :
  lrck_speed_of rate = 256 \/ lrck_speed_of rate = 128 \/ lrck_speed_of rate = 64.
Proof.
  unfold lrck_speed_of.
  destruct (rate <? 54000); [ now left |].
  destruct (rate <? 108000); [ right; now left | right; now right ].
Qed.

Lemma lrck_speed_is_oversample_ratio (rate : Z) :
  lrck_speed_of rate = DesignDoc.oversample_ratio rate.
Proof. reflexivity. Qed.

(** The two truncating unsigned divisions of the code amount to one
    division by the product, and nothing wraps. *)
Lemma mclk_div_of_raw_div (mclk rate : Z) :
  0 <= mclk < UINT_MOD ->
  0 < rate <= INT_MAX ->
  mclk_div_of mclk rate = Some (DesignDoc.raw_div mclk rate).
Proof.
  intros Hm Hr.
  assert (Hru : to_unsigned rate = rate).
  { apply to_unsigned_id. unfold UINT_MOD, INT_MAX in *. lia. }
  assert (Hmu : to_unsigned mclk = mclk) by now apply to_unsigned_id.
  pose proof (lrck_speed_of_cases rate) as Hl.
  assert (Hlpos : 64 <= lrck_speed_of rate <= 256) by lia.
  assert (Hlu : to_unsigned (lrck_speed_of rate) = lrck_speed_of rate).
  { apply to_unsigned_id. unfold UINT_MOD. lia. }
  assert (Hq : 0 <= mclk / rate <= mclk).
  { split; [ apply Z.div_pos; lia |].
    apply Z.div_le_upper_bound; [ lia |]. nia. }
  assert (Hqu : to_unsigned (mclk / rate) = mclk / rate).
  { apply to_unsigned_id. lia. }
  unfold mclk_div_of, udiv. rewrite Hru, Hmu.
  destruct (Z.eqb_spec rate 0) as [?|_]; [ lia |]. cbn [mbind option_bind].
  rewrite Hlu, Hqu.
  destruct (Z.eqb_spec (lrck_speed_of rate) 0) as [?|_]; [ lia |].
  cbn [mbind option_bind]. f_equal.
  unfold DesignDoc.raw_div.
  change (DesignDoc.oversample_ratio rate) with (lrck_speed_of rate).
  rewrite Z.div_div by lia.
  apply to_int_id. split; [ apply Z.div_pos; nia |].
  apply Z.div_le_upper_bound; [ nia |].
  unfold UINT_MOD, INT_MAX in *. nia.
Qed.

Lemma mdiv_of_divider_code (raw : Z) : mdiv_of raw = DesignDoc.divider_code raw.
Proof.
  unfold mdiv_of, DesignDoc.divider_code.
  destruct (Z.eqb_spec raw 4), (Z.eqb_spec raw 2), (Z.eqb_spec raw 1);
    subst; try reflexivity; try lia.
Qed.

(** A rate beyond [INT_MAX] reads as a negative [int]: the code then
    takes the 256 branch, but the divider is 0 either way. *)
Lemma mclk_div_of_beyond_int (mclk rate : Z) :
  0 <= mclk < UINT_MOD ->
  INT_MAX < rate < UINT_MOD ->
  mclk_div_of mclk (to_int rate) = Some 0 /\ DesignDoc.raw_div mclk rate = 0.
Proof.
  intros Hm Hr. unfold UINT_MOD, INT_MAX in *.
  assert (Hi : to_int rate = rate - 2 ^ 32).
  { unfold to_int, UINT_MOD, INT_MAX. rewrite Z.mod_small by lia.
    destruct (Z.leb_spec rate (2 ^ 31 - 1)); lia. }
  assert (Hu : to_unsigned (rate - 2 ^ 32) = rate).
  { unfold to_unsigned, UINT_MOD.
    replace (rate - 2 ^ 32) with (rate + (-1) * 2 ^ 32) by ring.
    rewrite Z.mod_add by lia. apply Z.mod_small. lia. }
  assert (Hl : lrck_speed_of (rate - 2 ^ 32) = 256).
  { unfold lrck_speed_of. destruct (Z.ltb_spec (rate - 2 ^ 32) 54000); lia. }
  assert (Hq : 0 <= mclk / rate < 2).
  { split; [ apply Z.div_pos; lia | apply Z.div_lt_upper_bound; lia ]. }
  split.
  - rewrite Hi. unfold mclk_div_of, udiv. rewrite Hu, Hl.
    rewrite (to_unsigned_id mclk) by (unfold UINT_MOD; lia).
    destruct (Z.eqb_spec rate 0) as [?|_]; [ lia |]. cbn [mbind option_bind].
    rewrite (to_unsigned_id (mclk / rate)) by (unfold UINT_MOD; lia).
    change (to_unsigned 256) with 256. cbn [Z.eqb mbind option_bind].
    rewrite (Z.div_small (mclk / rate) 256) by lia. reflexivity.
  - unfold DesignDoc.raw_div, DesignDoc.oversample_ratio.
    destruct (Z.ltb_spec rate 54000); [ lia |].
    destruct (Z.ltb_spec rate 108000); [ lia |].
    apply Z.div_small. lia.
Qed.

(** For every rate the stream parameters can carry, the divider the
    code computes is the design document's [raw_div]. *)
Lemma mclk_div_of_params_rate (mclk rate : Z) :
  0 <= mclk < UINT_MOD ->
  0 < rate < UINT_MOD ->
  mclk_div_of mclk (to_int rate) = Some (DesignDoc.raw_div mclk rate).
Proof.
  intros Hm Hr. destruct (Z.le_gt_cases rate INT_MAX) as [Hle|Hgt].
  - rewrite (to_int_id rate) by lia. apply mclk_div_of_raw_div; lia.
  - destruct (mclk_div_of_beyond_int mclk rate Hm) as [H1 H2]; [ lia |].
    now rewrite H1, H2.
Qed.

(** ** Register store: basic facts *)

Section StoreFacts.

Variable cfg : regmap_config.

Lemma read_reserved (reg : Z) (m : regmap) (p : platform) :
  readable cfg reg = false ->
  read cfg reg m p = (Err ReservedAddress, m, p).
Proof. intros H. unfold read. now rewrite H. Qed.

Lemma write_refused (reg val : Z) (m : regmap) (p : platform) :
  writeable cfg reg = false ->
  write cfg reg val m p = (Err ReservedAddress, m, p).
Proof. intros H. unfold write. now rewrite H. Qed.

Lemma read_cached (reg v : Z) (m : regmap) (p : platform) :
  readable cfg reg = true ->
  volatile cfg reg = false ->
  cache m !! reg = Some v ->
  read cfg reg m p = (Ok v, m, p).
Proof.
  intros Hr Hv Hc. unfold read. rewrite Hr, Hv, Hc. cbn.
  now destruct (cache_only m).
Qed.

Lemma read_bypass (reg : Z) (m : regmap) (p : platform) :
  readable cfg reg = true ->
  volatile cfg reg = false ->
  cache_only m = true ->
  read cfg reg m p = (Ok (default 0 (cache m !! reg)), m, p).
Proof. intros Hr Hv Hc. unfold read. now rewrite Hr, Hv, Hc. Qed.

Lemma write_bypass (reg val : Z) (m : regmap) (p : platform) :
  writeable cfg reg = true ->
  cache_only m = true ->
  write cfg reg val m p
  = (Ok tt, set_cache_dirty true (shadow_store cfg reg val m), p).
Proof. intros Hw Hc. unfold write. now rewrite Hw, Hc. Qed.

Lemma write_through (reg val : Z) (m : regmap) (p : platform) :
  writeable cfg reg = true ->
  cache_only m = false ->
  write cfg reg val m p
  = (let '(rc, p') := Bus.i2c_write (write_flag_mask cfg) reg val p in
     if rc =? 0 then (Ok tt, shadow_store cfg reg val m, p')
     else (Err (Transport rc), m, p')).
Proof. intros Hw Hc. unfold write. now rewrite Hw, Hc. Qed.

Lemma shadow_store_lookup (reg val : Z) (m : regmap) :
  volatile cfg reg = false ->
  cache (shadow_store cfg reg val m) !! reg = Some val.
Proof.
  intros Hv. unfold shadow_store. rewrite Hv. cbn. apply lookup_insert_eq.
Qed.

Lemma shadow_store_cache_only (reg val : Z) (m : regmap) :
  cache_only (shadow_store cfg reg val m) = cache_only m.
Proof. unfold shadow_store. now destruct (volatile cfg reg). Qed.

End StoreFacts.

(** The bus: a transfer that succeeds stores the value; one that fails
    leaves the device registers alone; either way it is recorded. *)
Lemma bus_write_spec (flag reg val : Z) (p : platform) :
  let rc := fst (Bus.next_rc p) in
  Bus.i2c_write flag reg val p
  = (rc,
     let p2 := emit (EvBusWrite (Z.lor reg flag) val rc) (snd (Bus.next_rc p)) in
     if rc =? 0 then set_hw_regs (<[reg := val]> (hw_regs p2)) p2 else p2).
Proof.
  unfold Bus.i2c_write. destruct (Bus.next_rc p) as [rc p1]. cbn [fst snd].
  destruct (Z.eqb_spec rc 0) as [->|]; reflexivity.
Qed.

Lemma bus_write_ok_hw (flag reg val : Z) (p p' : platform) :
  Bus.i2c_write flag reg val p = (0, p') ->
  hw_regs p' !! reg = Some val.
Proof.
  rewrite bus_write_spec. cbn zeta. intros H. inversion H as [[H0 H1]].
  rewrite H0. cbn. apply lookup_insert_eq.
Qed.

(** ** Bit fields *)

Lemma masked_update_inside (orig mask val : Z) :
  Z.land (masked_update orig mask val) mask = Z.land val mask.
Proof.
  unfold masked_update. apply Z.bits_inj'. intros i Hi.
  rewrite !Z.land_spec, Z.lor_spec, !Z.land_spec, Z.lnot_spec by exact Hi.
  destruct (Z.testbit orig i), (Z.testbit mask i), (Z.testbit val i);
    reflexivity.
Qed.

Lemma masked_update_outside (orig mask val i : Z) :
  Z.testbit mask i = false ->
  Z.testbit (masked_update orig mask val) i = Z.testbit orig i.
Proof.
  intros Hm. destruct (Z.lt_ge_cases i 0) as [Hneg|Hi].
  - now rewrite !Z.testbit_neg_r.
  - unfold masked_update.
    rewrite Z.lor_spec, !Z.land_spec, Z.lnot_spec, Hm by exact Hi.
    destruct (Z.testbit orig i), (Z.testbit val i); reflexivity.
Qed.

Lemma mdiv_mask_bits (i : Z) :
  i <> 4 -> i <> 5 -> Z.testbit REG_GCTL_MDIV_MASK i = false.
Proof.
  intros H4 H5. destruct (Z.lt_ge_cases i 0) as [Hneg|Hi].
  - now apply Z.testbit_neg_r.
  - destruct (Z.lt_ge_cases i 6) as [Hlt|Hge].
    + assert (Hin : i ∈ seqZ 0 4) by (apply elem_of_seqZ; lia).
      vm_compute seqZ in Hin. each_member Hin; reflexivity.
    + apply Z.bits_above_log2; [ unfold REG_GCTL_MDIV_MASK; lia |].
      change (Z.log2 REG_GCTL_MDIV_MASK) with 5. lia.
Qed.

(** ** Stream configuration *)

(** The masked write of the divider field, spelled out: with bypass set
    it lands in the shadow only; otherwise one bus write decides. *)
Lemma update_mdiv_unfold (old mdiv : Z) (d : device) :
  cache (rmap d) !! REG_GCTL = Some old ->
  regmap_update_bits REG_GCTL REG_GCTL_MDIV_MASK (Z.shiftl mdiv 4) d
  = let new := gctl_with_mdiv old mdiv in
    let stored := set_cache (<[REG_GCTL := new]> (cache (rmap d))) (rmap d) in
    if cache_only (rmap d)
    then (0, with_store d (set_cache_dirty true stored, plat d))
    else
      let '(rc, p') := Bus.i2c_write 0x80 REG_GCTL new (plat d) in
      if rc =? 0 then (0, with_store d (stored, p'))
      else (rc, with_store d (rmap d, p')).
Proof.
  intros Hc. unfold regmap_update_bits, write_masked.
  rewrite (read_cached cs5368_regmap_config REG_GCTL old) by (reflexivity || exact Hc).
  fold (gctl_with_mdiv old mdiv).
  destruct (cache_only (rmap d)) eqn:Hco.
  - rewrite write_bypass by (reflexivity || exact Hco). reflexivity.
  - rewrite write_through by (reflexivity || exact Hco).
    change (write_flag_mask cs5368_regmap_config) with 0x80.
    destruct (Bus.i2c_write 0x80 REG_GCTL (gctl_with_mdiv old mdiv) (plat d))
      as [rc p'].
    destruct (Z.eqb_spec rc 0) as [->|Hne]; reflexivity.
Qed.

Lemma gctl_with_mdiv_field (old mdiv : Z) :
  mdiv = 0 \/ mdiv = 1 \/ mdiv = 3 ->
  Z.land (gctl_with_mdiv old mdiv) REG_GCTL_MDIV_MASK = Z.shiftl mdiv 4.
Proof.
  intros H. unfold gctl_with_mdiv. rewrite masked_update_inside.
  destruct H as [->|[->| ->]]; reflexivity.
Qed.

Lemma gctl_with_mdiv_rest (old mdiv i : Z) :
  i <> 4 -> i <> 5 ->
  Z.testbit (gctl_with_mdiv old mdiv) i = Z.testbit old i.
Proof.
  intros H4 H5. unfold gctl_with_mdiv.
  apply masked_update_outside. now apply mdiv_mask_bits.
Qed.

Lemma divider_code_values (raw code : Z) :
  DesignDoc.divider_code raw = Some code ->
  (raw = 1 /\ code = 0) \/ (raw = 2 /\ code = 1) \/ (raw = 4 /\ code = 3).
Proof.
  unfold DesignDoc.divider_code.
  destruct (Z.eqb_spec raw 1); [ intros [= <-]; lia |].
  destruct (Z.eqb_spec raw 2); [ intros [= <-]; lia |].
  destruct (Z.eqb_spec raw 4); [ intros [= <-]; lia |].
  discriminate.
Qed.

(** What [cs5368_dai_hw_params] does once the rate is a positive [int]
    and the divider is accepted. *)
Lemma hw_params_accepted (rate old code : Z) (d : device) :
  0 <= mclk_freq (priv d) < UINT_MOD ->
  0 < rate <= INT_MAX ->
  cache (rmap d) !! REG_GCTL = Some old ->
  DesignDoc.divider_code (DesignDoc.raw_div (mclk_freq (priv d)) rate)
  = Some code ->
  cs5368_dai_hw_params rate d
  = Some (regmap_update_bits REG_GCTL REG_GCTL_MDIV_MASK (Z.shiftl code 4) d).
Proof.
  intros Hm Hr Hc Hcode. unfold cs5368_dai_hw_params.
  rewrite (to_int_id rate) by lia.
  rewrite mclk_div_of_raw_div by assumption. cbn [mbind option_bind].
  rewrite mdiv_of_divider_code, Hcode.
  destruct (regmap_update_bits REG_GCTL REG_GCTL_MDIV_MASK (Z.shiftl code 4) d)
    as [rc d'].
  destruct (Z.eqb_spec rc 0) as [->|Hne]; reflexivity.
Qed.

Lemma hw_params_rejected (rate : Z) (d : device) :
  0 <= mclk_freq (priv d) < UINT_MOD ->
  0 < rate < UINT_MOD ->
  DesignDoc.divider_code (DesignDoc.raw_div (mclk_freq (priv d)) rate) = None ->
  cs5368_dai_hw_params rate d = Some (- EINVAL, d).
Proof.
  intros Hm Hr Hcode. unfold cs5368_dai_hw_params.
  rewrite mclk_div_of_params_rate by assumption. cbn [mbind option_bind].
  now rewrite mdiv_of_divider_code, Hcode.
Qed.

(** C1 (as amended).  For every latched master clock and every positive
    sample rate (of the code's [int rate]) the code's oversampling
    ratio and its two truncating divisions are the design document's
    [oversample_ratio] and [raw_div]; when [raw_div] is 1, 2 or 4 the call returns what the
    masked write of divider code 0, 1 or 3 into bits 4-5 of the
    global-control register returns: it succeeds exactly when bypass is
    set or the bus transfer succeeds, and then bits 4-5 of the register
    hold the code, every other bit is as before, and outside bypass the
    device register holds the same byte; when the bus transfer fails its
    error is returned and the shadow is as before. *)
Theorem hw_params_divider_write (rate old : Z) (d : device) :
  0 <= mclk_freq (priv d) < UINT_MOD ->
  0 < rate <= INT_MAX ->
  cache (rmap d) !! REG_GCTL = Some old ->
  let raw := DesignDoc.raw_div (mclk_freq (priv d)) rate in
  lrck_speed_of (to_int rate) = DesignDoc.oversample_ratio rate /\
  mclk_div_of (mclk_freq (priv d)) (to_int rate) = Some raw /\
  forall code, DesignDoc.divider_code raw = Some code ->
    exists rc d',
      cs5368_dai_hw_params rate d = Some (rc, d') /\
      priv d' = priv d /\
      (rc = 0 <->
       cache_only (rmap d) = true \/ fst (Bus.next_rc (plat d)) = 0) /\
      (rc = 0 ->
       exists new,
         cache (rmap d') !! REG_GCTL = Some new /\
         Z.land new REG_GCTL_MDIV_MASK = Z.shiftl code 4 /\
         (forall i, i <> 4 -> i <> 5 -> Z.testbit new i = Z.testbit old i) /\
         (cache_only (rmap d) = false ->
          hw_regs (plat d') !! REG_GCTL = Some new)) /\
      (rc <> 0 -> rc = fst (Bus.next_rc (plat d)) /\ rmap d' = rmap d).
Proof.
  intros Hm Hr Hc raw.
  rewrite (to_int_id rate) by lia.
  split; [ reflexivity |].
  split; [ now apply mclk_div_of_raw_div |].
  intros code Hcode.
  assert (Hvals : code = 0 \/ code = 1 \/ code = 3).
  { destruct (divider_code_values _ _ Hcode) as [[_ ?]|[[_ ?]|[_ ?]]]; lia. }
  rewrite (hw_params_accepted rate old code d Hm Hr Hc Hcode).
  rewrite (update_mdiv_unfold old code d Hc). cbn zeta.
  destruct (cache_only (rmap d)) eqn:Hco.
  - eexists _, _. split; [ reflexivity |]. split; [ reflexivity |].
    split; [ split; auto |]. split; [| congruence ].
    intros _. exists (gctl_with_mdiv old code).
    split; [ cbn; apply lookup_insert_eq |].
    split; [ now apply gctl_with_mdiv_field |].
    split; [ intros; now apply gctl_with_mdiv_rest | discriminate ].
  - rewrite bus_write_spec. cbn zeta.
    destruct (Bus.next_rc (plat d)) as [rc p1] eqn:Hn. cbn [fst snd].
    destruct (Z.eqb_spec rc 0) as [->|Hne].
    + eexists _, _. split; [ reflexivity |]. split; [ reflexivity |].
      split; [ split; auto |]. split; [| congruence ].
      intros _. exists (gctl_with_mdiv old code).
      split; [ cbn; apply lookup_insert_eq |].
      split; [ now apply gctl_with_mdiv_field |].
      split; [ intros; now apply gctl_with_mdiv_rest |].
      intros _. cbn. apply lookup_insert_eq.
    + eexists _, _. split; [ reflexivity |]. split; [ reflexivity |].
      split; [ split; [ congruence | intros [?|?]; congruence ] |].
      split; [ congruence |]. intros _. split; reflexivity.
Qed.

Lemma hw_params_divider_write_witness :
  exists rc d',
    cs5368_dai_hw_params 48000 clocked = Some (rc, d') /\
    rc = 0 /\
    exists new,
      cache (rmap d') !! REG_GCTL = Some new /\
      Z.land new REG_GCTL_MDIV_MASK = Z.shiftl 1 4.
Proof.
  assert (Hm : 0 <= mclk_freq (priv clocked) < UINT_MOD) by (vm_compute; easy).
  assert (Hr : 0 < 48000 <= INT_MAX) by (vm_compute; easy).
  assert (Hc : cache (rmap clocked) !! REG_GCTL = Some 0x8B) by reflexivity.
  destruct (hw_params_divider_write 48000 0x8B clocked Hm Hr Hc)
    as (_ & _ & H).
  destruct (H 1 eq_refl) as (rc & d' & Hrun & _ & Hok & Hnew & _).
  assert (Hrc : rc = 0) by (apply Hok; left; reflexivity).
  exists rc, d'. split; [ exact Hrun |]. split; [ exact Hrc |].
  destruct (Hnew Hrc) as (new & Hl & Hf & _).
  exists new. split; assumption.
Defined.

(** C1, counterexample.  On a powered device whose bus fails the next
    transfer, with 24.576 MHz latched and 48 kHz requested, [raw_div]
    is 2 and yet the call does not succeed: it returns the bus error. *)
Lemma hw_params_bus_fault :
  exists d,
    powered_on_flaky_bus = Some d /\
    power_state_of d = Active /\
    cache_only (rmap d) = false /\
    DesignDoc.raw_div (mclk_freq (priv d)) 48000 = 2 /\
    fst <$> cs5368_dai_hw_params 48000 d = Some (- EIO).
Proof.
  eexists. split; [ vm_compute; reflexivity |].
  evaluate_all.
Qed.

(** C2 (as amended).  With 24.576 MHz latched, the rates 32000, 44100,
    48000, 96000, 192000 get oversampling ratios 256, 256, 256, 128, 64
    and dividers 3, 2, 2, 2, 2: 32 kHz is refused with [-EINVAL] and no
    register write, and each of the other four takes divider code 1,
    the call succeeding exactly when bypass is set or the bus transfer
    succeeds, with the code then in bits 4-5 of global control. *)
Theorem divider_table_24576000 (old : Z) (d : device) :
  mclk_freq (priv d) = 24576000 ->
  cache (rmap d) !! REG_GCTL = Some old ->
  map lrck_speed_of [32000; 44100; 48000; 96000; 192000]
  = [256; 256; 256; 128; 64] /\
  map (mclk_div_of 24576000) [32000; 44100; 48000; 96000; 192000]
  = [Some 3; Some 2; Some 2; Some 2; Some 2] /\
  cs5368_dai_hw_params 32000 d = Some (- EINVAL, d) /\
  forall rate, In rate [44100; 48000; 96000; 192000] ->
    mclk_div_of 24576000 rate ≫= mdiv_of = Some 1 /\
    exists rc d',
      cs5368_dai_hw_params rate d = Some (rc, d') /\
      (rc = 0 <->
       cache_only (rmap d) = true \/ fst (Bus.next_rc (plat d)) = 0) /\
      (rc = 0 ->
       exists new,
         cache (rmap d') !! REG_GCTL = Some new /\
         Z.land new REG_GCTL_MDIV_MASK = Z.shiftl 1 4).
Proof.
  intros Hm Hc.
  split; [ reflexivity |]. split; [ reflexivity |].
  split.
  { apply hw_params_rejected; rewrite ?Hm; vm_compute; easy. }
  intros rate Hin.
  assert (Hcode : DesignDoc.divider_code (DesignDoc.raw_div 24576000 rate)
                  = Some 1 /\ 0 < rate <= INT_MAX).
  { apply list_elem_of_In in Hin. each_member Hin; vm_compute; easy. }
  destruct Hcode as [Hcode Hr].
  split.
  { apply list_elem_of_In in Hin. each_member Hin; reflexivity. }
  rewrite (hw_params_accepted rate old 1 d); rewrite ?Hm;
    [| vm_compute; easy | exact Hr | exact Hc | exact Hcode ].
  rewrite (update_mdiv_unfold old 1 d Hc). cbn zeta.
  destruct (cache_only (rmap d)) eqn:Hco.
  - eexists _, _. split; [ reflexivity |]. split; [ split; auto |].
    intros _. exists (gctl_with_mdiv old 1).
    split; [ cbn; apply lookup_insert_eq |].
    apply gctl_with_mdiv_field. lia.
  - rewrite bus_write_spec. cbn zeta.
    destruct (Bus.next_rc (plat d)) as [rc p1]. cbn [fst snd].
    destruct (Z.eqb_spec rc 0) as [->|Hne].
    + eexists _, _. split; [ reflexivity |]. split; [ split; auto |].
      intros _. exists (gctl_with_mdiv old 1).
      split; [ cbn; apply lookup_insert_eq |].
      apply gctl_with_mdiv_field. lia.
    + eexists _, _. split; [ reflexivity |].
      split; [ split; [ congruence | intros [?|?]; congruence ] | congruence ].
Qed.

Lemma divider_table_24576000_witness :
  cs5368_dai_hw_params 32000 clocked = Some (- EINVAL, clocked) /\
  exists d', cs5368_dai_hw_params 96000 clocked = Some (0, d').
Proof.
  assert (Hm : mclk_freq (priv clocked) = 24576000) by reflexivity.
  assert (Hc : cache (rmap clocked) !! REG_GCTL = Some 0x8B) by reflexivity.
  destruct (divider_table_24576000 0x8B clocked Hm Hc) as (_ & _ & H32 & H).
  split; [ exact H32 |].
  destruct (H 96000) as (_ & rc & d' & Hrun & Hok & _).
  { cbn. right. right. left. reflexivity. }
  exists d'. rewrite Hrun.
  assert (Hrc : rc = 0) by (apply Hok; left; reflexivity).
  now rewrite Hrc.
Defined.

(** C2, counterexample.  With 24.576 MHz latched the divider codes are
    not 0, 0, 0, 1, 3: at 48 kHz the code is 1, at 192 kHz it is 1, and
    at 32 kHz the divider is 3 and the call fails, although no bus is
    involved (bypass is set). *)
Lemma divider_codes_24576000_differ :
  mclk_div_of 24576000 48000 ≫= mdiv_of = Some 1 /\
  mclk_div_of 24576000 192000 ≫= mdiv_of = Some 1 /\
  mclk_div_of 24576000 32000 = Some 3 /\
  cache_only (rmap clocked) = true /\
  cs5368_dai_hw_params 32000 clocked = Some (- EINVAL, clocked).
Proof. evaluate_all. Qed.

(** C3.  For every latched master clock and every positive sample
    rate (any value the [unsigned int] of the stream parameters can
    carry) whose [raw_div] is none of 1, 2, 4 (0 and 3 included), the
    call returns [-EINVAL], the error of an unsupported ratio, and the
    device is exactly as before: shadow, bypass flag, device registers,
    pending bus state and call record are untouched. *)
Theorem hw_params_unsupported_ratio (rate : Z) (d : device) :
  0 <= mclk_freq (priv d) < UINT_MOD ->
  0 < rate < UINT_MOD ->
  DesignDoc.raw_div (mclk_freq (priv d)) rate <> 1 ->
  DesignDoc.raw_div (mclk_freq (priv d)) rate <> 2 ->
  DesignDoc.raw_div (mclk_freq (priv d)) rate <> 4 ->
  cs5368_dai_hw_params rate d = Some (- EINVAL, d).
Proof.
  intros Hm Hr H1 H2 H4. apply hw_params_rejected; try assumption.
  unfold DesignDoc.divider_code.
  destruct (Z.eqb_spec (DesignDoc.raw_div (mclk_freq (priv d)) rate) 1);
    [ contradiction |].
  destruct (Z.eqb_spec (DesignDoc.raw_div (mclk_freq (priv d)) rate) 2);
    [ contradiction |].
  destruct (Z.eqb_spec (DesignDoc.raw_div (mclk_freq (priv d)) rate) 4);
    [ contradiction | reflexivity ].
Qed.

Lemma hw_params_unsupported_ratio_witness :
  DesignDoc.raw_div (mclk_freq (priv clocked)) 32000 = 3 /\
  cs5368_dai_hw_params 32000 clocked = Some (- EINVAL, clocked).
Proof.
  split; [ reflexivity |].
  apply (hw_params_unsupported_ratio 32000 clocked); vm_compute; easy.
Defined.

(** ** The latched master clock *)

Lemma regmap_update_bits_priv (reg mask val : Z) (d : device) :
  priv (snd (regmap_update_bits reg mask val d)) = priv d.
Proof.
  unfold regmap_update_bits.
  now destruct (write_masked _ reg mask val (rmap d) (plat d)) as [[r m] p].
Qed.

Lemma regcache_sync_priv (d : device) : priv (snd (regcache_sync d)) = priv d.
Proof.
  unfold regcache_sync.
  now destruct (resync _ (rmap d) (plat d)) as [[r m] p].
Qed.

Lemma hw_params_priv (rate rc : Z) (d d' : device) :
  cs5368_dai_hw_params rate d = Some (rc, d') -> priv d' = priv d.
Proof.
  unfold cs5368_dai_hw_params.
  destruct (mclk_div_of _ _) as [mclk_div|]; [| discriminate ].
  cbn [mbind option_bind].
  destruct (mdiv_of mclk_div) as [mdiv|]; [| now intros [= _ <-] ].
  pose proof (regmap_update_bits_priv REG_GCTL REG_GCTL_MDIV_MASK
                (Z.shiftl mdiv 4) d) as Hp.
  destruct (regmap_update_bits _ _ _ d) as [rc0 d0]. cbn [snd] in Hp.
  destruct (negb (rc0 =? 0)); now intros [= _ <-].
Qed.

Lemma suspend_priv (disable_rc : Z) (d : device) :
  priv (snd (cs5368_pm_runtime_suspend disable_rc d)) = priv d.
Proof.
  unfold cs5368_pm_runtime_suspend, regulator_bulk_disable.
  now destruct (negb (disable_rc =? 0)).
Qed.

Lemma resume_priv (enable_rc : Z) (d : device) :
  priv (snd (cs5368_pm_runtime_resume enable_rc d)) = priv d.
Proof.
  unfold cs5368_pm_runtime_resume, regulator_bulk_enable.
  destruct (negb (enable_rc =? 0)); [ reflexivity |].
  match goal with
  | |- context [regcache_sync ?x] =>
    pose proof (regcache_sync_priv x) as Hp;
    destruct (regcache_sync x) as [rc' d5]
  end.
  cbn [snd] in Hp. now destruct (negb (rc' =? 0)).
Qed.

Lemma invoke_keeps_master_clock (c : call) (rc : Z) (d d' : device) :
  latches_master_clock c = false ->
  invoke c d = Some (rc, d') ->
  mclk_freq (priv d') = mclk_freq (priv d).
Proof.
  destruct c as [rate|fmt|tx rx slots width|clk_id source freq dir|drc|erc];
    cbn [invoke latches_master_clock]; intros Hl H.
  - now rewrite (hw_params_priv _ _ _ _ H).
  - unfold cs5368_dai_set_fmt in H.
    repeat match type of H with
           | context [if ?b then _ else _] => destruct b
           end; now injection H as _ <-.
  - unfold cs5368_dai_set_tdm_slot in H.
    repeat match type of H with
           | context [if ?b then _ else _] => destruct b
           end; now injection H as _ <-.
  - unfold cs5368_codec_set_sysclk in H. rewrite Hl in H.
    now injection H as _ <-.
  - injection H as H. rewrite <- (suspend_priv drc d), H. reflexivity.
  - injection H as H. rewrite <- (resume_priv erc d), H. reflexivity.
Qed.

Lemma run_keeps_master_clock (cs : list call) (d d' : device) :
  forallb (fun c => negb (latches_master_clock c)) cs = true ->
  run cs d = Some d' ->
  mclk_freq (priv d') = mclk_freq (priv d).
Proof.
  revert d. induction cs as [|c cs IH]; intros d Hall Hrun.
  - now injection Hrun as <-.
  - cbn [forallb] in Hall. apply andb_true_iff in Hall as [Hc Hcs].
    apply negb_true_iff in Hc. cbn [run] in Hrun.
    destruct (invoke c d) as [[rc d1]|] eqn:Hi; [| discriminate ].
    rewrite (IH d1 Hcs Hrun).
    exact (invoke_keeps_master_clock c rc d d1 Hc Hi).
Qed.

Lemma probe_priv (env : probe_env) (client : platform) (rc : Z) (d : device) :
  cs5368_i2c_probe env client = (rc, Some d) ->
  rc = 0 /\ priv d = {| mclk_freq := 0; tdm := false |}.
Proof.
  unfold cs5368_i2c_probe.
  destruct (kzalloc_fails env); [ discriminate |].
  destruct (negb (regmap_init_rc env =? 0)); [ discriminate |].
  match goal with
  | |- context [regmap_multi_reg_write ?s ?x] =>
    pose proof (eq_refl (regmap_multi_reg_write s x)) as Hw;
    unfold regmap_multi_reg_write at 2 in Hw;
    destruct (regmap_multi_reg_write s x) as [rc2 d2]
  end.
  destruct (bulk_init _ _ _ _) as [[r m] p] in Hw.
  injection Hw as _ ->.
  destruct (negb (rc2 =? 0)); [ discriminate |].
  destruct (negb (regulator_bulk_get_rc env =? 0)); [ discriminate |].
  destruct (negb (gpiod_get_rc env =? 0)); [ discriminate |].
  destruct (negb (pm_runtime_enable_rc env =? 0)); [ discriminate |].
  destruct (register_component_rc env =? 0); [| discriminate ].
  intros [= <- <-]. split; reflexivity.
Qed.

(** C10.  After an attach and any calls none of which latched a master
    clock, the latched frequency is still 0; then for every positive
    sample rate the divider comes out as 0 and the stream configuration
    returns [-EINVAL] with the device, its registers included, exactly
    as before. *)
Theorem hw_params_without_master_clock
  (env : probe_env) (client : platform) (cs : list call) (rate : Z) (d : device) :
  attach_then env client cs = Some d ->
  forallb (fun c => negb (latches_master_clock c)) cs = true ->
  0 < rate < UINT_MOD ->
  mclk_freq (priv d) = 0 /\
  mclk_div_of (mclk_freq (priv d)) (to_int rate) = Some 0 /\
  cs5368_dai_hw_params rate d = Some (- EINVAL, d).
Proof.
  intros Hrun Hall Hr. unfold attach_then in Hrun.
  destruct (cs5368_i2c_probe env client) as [rc0 [d0|]] eqn:Hp;
    [| discriminate ].
  apply probe_priv in Hp as [_ Hp0].
  assert (Hm : mclk_freq (priv d) = 0).
  { rewrite (run_keeps_master_clock cs d0 d Hall Hrun). now rewrite Hp0. }
  assert (Hraw : DesignDoc.raw_div 0 rate = 0) by apply Zdiv_0_l.
  assert (H0 : 0 <= 0 < UINT_MOD) by (unfold UINT_MOD; lia).
  split; [ exact Hm |]. rewrite Hm. split.
  - rewrite mclk_div_of_params_rate by assumption. now rewrite Hraw.
  - apply hw_params_rejected; rewrite ?Hm; [ exact H0 | exact Hr |].
    now rewrite Hraw.
Qed.

Lemma hw_params_without_master_clock_witness :
  exists d,
    attach_then kernel_ok bare_client unclocked_calls = Some d /\
    cs5368_dai_hw_params 48000 d = Some (- EINVAL, d).
Proof.
  eexists. split; [ vm_compute; reflexivity |].
  apply (hw_params_without_master_clock
           kernel_ok bare_client unclocked_calls 48000);
    [ vm_compute; reflexivity | reflexivity | vm_compute; easy ].
Defined.

(** ** Format negotiation *)

(** C8.  [set_fmt] returns [-EINVAL] for every format other than I2S
    and DSP_A and for every clock role other than the consumer role,
    returns 0 for I2S or DSP_A with the consumer role, and in every
    case leaves the whole device (instance fields, shadow, bus) as it
    was. *)
Theorem set_fmt_validates (fmt : Z) (d : device) :
  snd (cs5368_dai_set_fmt fmt d) = d /\
  (format_mode_of fmt <> SND_SOC_DAIFMT_I2S ->
   format_mode_of fmt <> SND_SOC_DAIFMT_DSP_A ->
   fst (cs5368_dai_set_fmt fmt d) = - EINVAL) /\
  (clock_mode_of fmt <> SND_SOC_DAIFMT_BC_FC ->
   fst (cs5368_dai_set_fmt fmt d) = - EINVAL) /\
  (format_mode_of fmt = SND_SOC_DAIFMT_I2S \/
   format_mode_of fmt = SND_SOC_DAIFMT_DSP_A ->
   clock_mode_of fmt = SND_SOC_DAIFMT_BC_FC ->
   fst (cs5368_dai_set_fmt fmt d) = 0).
Proof.
  unfold cs5368_dai_set_fmt.
  destruct (Z.eqb_spec (format_mode_of fmt) SND_SOC_DAIFMT_I2S) as [Hi|Hi],
           (Z.eqb_spec (format_mode_of fmt) SND_SOC_DAIFMT_DSP_A) as [Ha|Ha],
           (Z.eqb_spec (clock_mode_of fmt) SND_SOC_DAIFMT_BC_FC) as [Hc|Hc];
    cbn [negb andb fst snd];
    repeat split; try reflexivity; try tauto; try congruence.
Qed.

Lemma set_fmt_validates_witness :
  cs5368_dai_set_fmt (Z.lor SND_SOC_DAIFMT_DSP_A SND_SOC_DAIFMT_BC_FC) attached
  = (0, attached) /\
  fst (cs5368_dai_set_fmt (Z.lor SND_SOC_DAIFMT_I2S (Z.shiftl 1 12)) attached)
  = - EINVAL.
Proof.
  split.
  - destruct (set_fmt_validates
                (Z.lor SND_SOC_DAIFMT_DSP_A SND_SOC_DAIFMT_BC_FC) attached)
      as (Hs & _ & _ & Hok).
    rewrite (surjective_pairing (cs5368_dai_set_fmt _ attached)).
    rewrite Hs, Hok; [ reflexivity | right; reflexivity | reflexivity ].
  - destruct (set_fmt_validates
                (Z.lor SND_SOC_DAIFMT_I2S (Z.shiftl 1 12)) attached)
      as (_ & _ & Hclk & _).
    apply Hclk. vm_compute. discriminate.
Defined.

(** C9.  [set_tdm_slot] returns [-EINVAL] whenever the slot count is not
    2, 4 or 8 or the slot width is not 32, and then the device, [tdm]
    included, is as before; with a slot count of 2, 4 or 8 and width 32
    it returns 0 and sets [tdm], touching neither the register store
    nor the bus nor the latched clock; and the outcome does not depend
    on the two masks. *)
Theorem set_tdm_slot_validates (tx_mask rx_mask slots slot_width : Z)
  (d : device) :
  ((slots <> 2 /\ slots <> 4 /\ slots <> 8) \/ slot_width <> 32 ->
   cs5368_dai_set_tdm_slot tx_mask rx_mask slots slot_width d
   = (- EINVAL, d)) /\
  (slots = 2 \/ slots = 4 \/ slots = 8 ->
   slot_width = 32 ->
   exists d',
     cs5368_dai_set_tdm_slot tx_mask rx_mask slots slot_width d = (0, d') /\
     tdm (priv d') = true /\
     mclk_freq (priv d') = mclk_freq (priv d) /\
     rmap d' = rmap d /\
     plat d' = plat d) /\
  (forall tx_mask' rx_mask',
     cs5368_dai_set_tdm_slot tx_mask' rx_mask' slots slot_width d
     = cs5368_dai_set_tdm_slot tx_mask rx_mask slots slot_width d).
Proof.
  unfold cs5368_dai_set_tdm_slot.
  destruct (Z.eqb_spec slots 8), (Z.eqb_spec slots 4), (Z.eqb_spec slots 2),
           (Z.eqb_spec slot_width 32);
    cbn [negb andb]; (split; [| split ]);
    try reflexivity;
    try (intros; eexists; repeat split; reflexivity);
    try (intros; lia).
Qed.

Lemma set_tdm_slot_validates_witness :
  cs5368_dai_set_tdm_slot 0xff 0 8 16 attached = (- EINVAL, attached) /\
  exists d',
    cs5368_dai_set_tdm_slot 0xff 0 4 32 attached = (0, d') /\
    tdm (priv d') = true.
Proof.
  destruct (set_tdm_slot_validates 0xff 0 8 16 attached) as (Hbad & _ & _).
  destruct (set_tdm_slot_validates 0xff 0 4 32 attached) as (_ & Hok & _).
  split.
  - apply Hbad. right. discriminate.
  - destruct Hok as (d' & Hrun & Htdm & _);
      [ right; left; reflexivity | reflexivity |].
    exists d'. split; assumption.
Defined.

(** ** Power sequencing *)

(** C7.  A suspend asks, in this order and nothing else: bypass on,
    reset line asserted, supplies off.  It returns what the bulk disable
    returned, so a failure is propagated; whether or not the disable
    failed, bypass is set and reset is asserted afterwards, and the
    rails are off exactly when the disable succeeded. *)
Theorem suspend_sequence (disable_rc : Z) (d : device) :
  let rc := fst (cs5368_pm_runtime_suspend disable_rc d) in
  let d' := snd (cs5368_pm_runtime_suspend disable_rc d) in
  history (plat d')
  = history (plat d)
      ++ [EvCacheOnly true; EvResetGpio true; EvBulkDisable disable_rc] /\
  rc = disable_rc /\
  cache_only (rmap d') = true /\
  reset_asserted (plat d') = true /\
  supplies_enabled (plat d')
  = (if disable_rc =? 0 then false else supplies_enabled (plat d)) /\
  cache (rmap d') = cache (rmap d) /\
  hw_regs (plat d') = hw_regs (plat d) /\
  bus_script (plat d') = bus_script (plat d) /\
  priv d' = priv d.
Proof.
  unfold cs5368_pm_runtime_suspend, regulator_bulk_disable.
  destruct (Z.eqb_spec disable_rc 0) as [->|Hne];
    cbn -[app]; rewrite <- ?app_assoc; repeat split; reflexivity.
Qed.

Lemma suspend_sequence_witness :
  fst (cs5368_pm_runtime_suspend (- EIO) attached) = - EIO /\
  cache_only (rmap (snd (cs5368_pm_runtime_suspend (- EIO) attached))) = true /\
  reset_asserted (plat (snd (cs5368_pm_runtime_suspend (- EIO) attached)))
  = true.
Proof.
  destruct (suspend_sequence (- EIO) attached) as (_ & Hrc & Hco & Hrst & _).
  split; [ exact Hrc |]. split; [ exact Hco | exact Hrst ].
Defined.

(** ** Register store: access tables of the device *)

Lemma writeable_addresses (reg : Z) :
  writeable cs5368 reg = true <->
  reg ∈ [REG_GCTL; REG_OVFL; REG_OVFM; REG_HPF; REG_PDN; REG_MUTE; REG_SDEN].
Proof.
  split.
  - intros H. unfold writeable in H. apply andb_true_iff in H as [Hs Ht].
    unfold in_address_space in Hs. apply andb_true_iff in Hs as [Hlo Hhi].
    apply Z.leb_le in Hlo, Hhi. change (max_register cs5368) with 10 in Hhi.
    assert (Hin : reg ∈ seqZ 0 11) by (apply elem_of_seqZ; lia).
    vm_compute seqZ in Hin.
    each_member Hin; try discriminate Ht;
      apply list_elem_of_In; vm_compute; tauto.
  - intros Hin. each_member Hin; reflexivity.
Qed.

Lemma volatile_addresses (reg : Z) :
  volatile cs5368 reg = true <-> reg = REG_OVFL.
Proof.
  unfold volatile, check_range_table, reg_in_ranges. cbn.
  unfold REG_OVFL. rewrite orb_false_r, andb_true_iff, !Z.leb_le. lia.
Qed.

Lemma writeable_readable (reg : Z) :
  writeable cs5368 reg = true -> readable cs5368 reg = true.
Proof.
  intros H. apply writeable_addresses in H. each_member H; reflexivity.
Qed.

(** C6.  Whatever the bypass flag, the shadow and the bus: a read or a
    write of a reserved address (0x05, 0x07, 0x09) fails with
    ReservedAddress, a write of the revision register 0x00 is refused
    likewise, and in each case the store and the transport are exactly
    as before: nothing was transmitted. *)
Theorem reserved_access_refused (reg val : Z) (m : regmap) (p : platform) :
  reg = REG_RSVD1 \/ reg = REG_RSVD2 \/ reg = REG_RSVD3 ->
  read cs5368 reg m p = (Err ReservedAddress, m, p) /\
  write cs5368 reg val m p = (Err ReservedAddress, m, p) /\
  write cs5368 REG_REVI val m p = (Err ReservedAddress, m, p).
Proof.
  intros Hreg. split; [| split ].
  - apply read_reserved. destruct Hreg as [->|[->| ->]]; reflexivity.
  - apply write_refused. destruct Hreg as [->|[->| ->]]; reflexivity.
  - apply write_refused. reflexivity.
Qed.

Lemma reserved_access_refused_witness :
  read cs5368 0x07 (rmap attached) (plat attached)
  = (Err ReservedAddress, rmap attached, plat attached) /\
  write cs5368 0x00 0x81 (rmap attached) (plat attached)
  = (Err ReservedAddress, rmap attached, plat attached).
Proof.
  destruct (reserved_access_refused 0x07 0x81 (rmap attached) (plat attached))
    as (Hr & _ & Hw0).
  - right. left. reflexivity.
  - split; [ exact Hr | exact Hw0 ].
Defined.

(** C5.  With bypass set (the device Unpowered or Resetting), a write
    to any non-reserved writable address succeeds without a transport
    transaction (the platform, call record included, is as before) and
    leaves bypass set; and on the writable registers, 0x01, 0x03, 0x04,
    0x06, 0x08 and 0x0A (the revision and the volatile overflow-status
    register are read-only for the design), a read that follows returns
    the value just written, again without a transport transaction. *)
Theorem bypass_write_then_read (reg val : Z) (m : regmap) (p : platform) :
  writeable cs5368 reg = true ->
  cache_only m = true ->
  exists m',
    write cs5368 reg val m p = (Ok tt, m', p) /\
    cache_only m' = true /\
    (volatile cs5368 reg = false ->
     read cs5368 reg m' p = (Ok val, m', p)).
Proof.
  intros Hw Hco.
  exists (set_cache_dirty true (shadow_store cs5368 reg val m)).
  split; [ now apply write_bypass |].
  split; [ cbn; now rewrite shadow_store_cache_only |].
  intros Hv. apply read_cached.
  - now apply writeable_readable.
  - exact Hv.
  - cbn. now apply shadow_store_lookup.
Qed.

Lemma bypass_write_then_read_witness :
  exists m',
    write cs5368 REG_MUTE 0x0F (rmap attached) (plat attached)
    = (Ok tt, m', plat attached) /\
    read cs5368 REG_MUTE m' (plat attached) = (Ok 0x0F, m', plat attached).
Proof.
  destruct (bypass_write_then_read REG_MUTE 0x0F (rmap attached) (plat attached))
    as (m' & Hw & _ & Hr); [ reflexivity | reflexivity |].
  exists m'. split; [ exact Hw | apply Hr; reflexivity ].
Defined.

(** The registers of the claim: writable by the table and cached. *)
Lemma cached_writable_addresses (reg : Z) :
  writeable cs5368 reg = true /\ volatile cs5368 reg = false <->
  reg ∈ [REG_GCTL; REG_OVFM; REG_HPF; REG_PDN; REG_MUTE; REG_SDEN].
Proof.
  split.
  - intros [Hw Hv]. apply writeable_addresses in Hw.
    each_member Hw; try discriminate Hv;
      apply list_elem_of_In; vm_compute; tauto.
  - intros Hin. each_member Hin; split; reflexivity.
Qed.

(** ** Resync *)

Lemma bus_write_hw_other (flag reg val reg' rc : Z) (p p' : platform) :
  reg' <> reg ->
  Bus.i2c_write flag reg val p = (rc, p') ->
  hw_regs p' !! reg' = hw_regs p !! reg'.
Proof.
  intros Hne. rewrite bus_write_spec. cbn zeta. intros [= _ <-].
  destruct (Bus.next_rc p) as [rc0 p1] eqn:Hn. cbn [fst snd].
  assert (Hp1 : hw_regs p1 = hw_regs p).
  { unfold Bus.next_rc in Hn. destruct (bus_script p); now injection Hn as _ <-. }
  destruct (rc0 =? 0); cbn; rewrite ?lookup_insert_ne by congruence;
    now rewrite Hp1.
Qed.

Lemma bus_write_hw_same (flag reg val rc : Z) (p p' : platform) :
  hw_regs p !! reg = Some val ->
  Bus.i2c_write flag reg val p = (rc, p') ->
  hw_regs p' !! reg = Some val.
Proof.
  intros Hv. rewrite bus_write_spec. cbn zeta. intros [= _ <-].
  destruct (Bus.next_rc p) as [rc0 p1] eqn:Hn. cbn [fst snd].
  assert (Hp1 : hw_regs p1 = hw_regs p).
  { unfold Bus.next_rc in Hn. destruct (bus_script p); now injection Hn as _ <-. }
  destruct (rc0 =? 0); cbn; [ apply lookup_insert_eq | now rewrite Hp1 ].
Qed.

Section Resync.

Variable cfg : regmap_config.

(** A device register that already agrees with the shadow still does
    after any part of a resync. *)
Lemma resync_from_keeps (regs : list Z) (m : regmap) (reg v : Z) :
  cache m !! reg = Some v ->
  forall p r p',
    hw_regs p !! reg = Some v ->
    resync_from cfg regs m p = (r, p') ->
    hw_regs p' !! reg = Some v.
Proof.
  intros Hc. induction regs as [|a regs IH]; intros p r p' Hh Hrun.
  - now injection Hrun as _ <-.
  - cbn [resync_from] in Hrun.
    destruct (if syncable cfg a then cache m !! a else None) as [w|] eqn:Hw;
      [| now apply (IH p r p') ].
    destruct (Bus.i2c_write (write_flag_mask cfg) a w p) as [rc p1] eqn:Hb.
    assert (Hh1 : hw_regs p1 !! reg = Some v).
    { destruct (Z.eq_dec reg a) as [->|Hne].
      - destruct (syncable cfg a); [| discriminate ].
        rewrite Hc in Hw. injection Hw as <-.
        now apply (bus_write_hw_same _ _ _ _ _ _ Hh Hb).
      - now rewrite (bus_write_hw_other _ _ _ _ _ _ _ Hne Hb). }
    destruct (rc =? 0); [ now apply (IH p1 r p') |].
    now injection Hrun as _ <-.
Qed.

(** A resync that succeeds has written every shadowed, syncable
    address it walked over. *)
Lemma resync_from_syncs (regs : list Z) (m : regmap) (reg v : Z) :
  reg ∈ regs ->
  syncable cfg reg = true ->
  cache m !! reg = Some v ->
  forall p p',
    resync_from cfg regs m p = (Ok tt, p') ->
    hw_regs p' !! reg = Some v.
Proof.
  intros Hin Hs Hc. induction regs as [|a regs IH]; intros p p' Hrun.
  - now apply elem_of_nil in Hin.
  - cbn [resync_from] in Hrun.
    apply elem_of_cons in Hin as [<-|Hin].
    + rewrite Hs, Hc in Hrun.
      destruct (Bus.i2c_write (write_flag_mask cfg) reg v p) as [rc p1] eqn:Hb.
      destruct (Z.eqb_spec rc 0) as [->|Hne]; [| discriminate ].
      apply bus_write_ok_hw in Hb.
      exact (resync_from_keeps regs m reg v Hc p1 _ p' Hb Hrun).
    + destruct (if syncable cfg a then cache m !! a else None) as [w|];
        [| now apply (IH Hin p p') ].
      destruct (Bus.i2c_write (write_flag_mask cfg) a w p) as [rc p1].
      destruct (rc =? 0); [ now apply (IH Hin p1 p') | discriminate ].
Qed.

Lemma resync_from_error (regs : list Z) (m : regmap) :
  forall p e p',
    resync_from cfg regs m p = (Err e, p') ->
    exists rc, e = Transport rc /\ rc <> 0.
Proof.
  induction regs as [|a regs IH]; intros p e p' Hrun; [ discriminate |].
  cbn [resync_from] in Hrun.
  destruct (if syncable cfg a then cache m !! a else None) as [w|];
    [| now apply (IH p e p') ].
  destruct (Bus.i2c_write (write_flag_mask cfg) a w p) as [rc p1].
  destruct (Z.eqb_spec rc 0) as [->|Hne]; [ now apply (IH p1 e p') |].
  injection Hrun as <- _. now exists rc.
Qed.

Lemma resync_cache (m : regmap) (p : platform) :
  cache (snd (fst (resync cfg m p))) = cache m.
Proof.
  unfold resync. now destruct (resync_from cfg _ m p) as [[[]|e] p'].
Qed.

End Resync.

Lemma syncable_in_addresses (reg : Z) :
  syncable cs5368 reg = true -> reg ∈ addresses cs5368.
Proof.
  intros H. unfold syncable in H. apply andb_true_iff in H as [H _].
  unfold writeable in H. apply andb_true_iff in H as [H _].
  unfold in_address_space in H. apply andb_true_iff in H as [Hlo Hhi].
  apply Z.leb_le in Hlo, Hhi. unfold addresses. apply elem_of_seqZ. lia.
Qed.

(** The bus has no hand in the rails or the reset line. *)
Lemma bus_write_power (flag reg val : Z) (p : platform) :
  supplies_enabled (snd (Bus.i2c_write flag reg val p)) = supplies_enabled p /\
  reset_asserted (snd (Bus.i2c_write flag reg val p)) = reset_asserted p.
Proof.
  rewrite bus_write_spec. cbn zeta. unfold Bus.next_rc.
  destruct (bus_script p) as [|rc rest]; cbn [fst snd];
    [| destruct (rc =? 0) ]; split; reflexivity.
Qed.

Lemma resync_from_supplies (cfg : regmap_config) (regs : list Z) (m : regmap)
  (p : platform) :
  supplies_enabled (snd (resync_from cfg regs m p)) = supplies_enabled p /\
  reset_asserted (snd (resync_from cfg regs m p)) = reset_asserted p.
Proof.
  revert p. induction regs as [|a regs IH]; intros p; [ split; reflexivity |].
  cbn [resync_from].
  destruct (if syncable cfg a then cache m !! a else None) as [w|];
    [| apply IH ].
  pose proof (bus_write_power (write_flag_mask cfg) a w p) as Hb.
  destruct (Bus.i2c_write (write_flag_mask cfg) a w p) as [rc p1].
  cbn [snd] in Hb. destruct (rc =? 0); [| exact Hb ].
  destruct (IH p1) as [H1 H2]. destruct Hb as [H3 H4].
  split; congruence.
Qed.

(** ** Runtime power management keeps the shadow *)

Lemma regcache_sync_cache (d : device) :
  cache (rmap (snd (regcache_sync d))) = cache (rmap d).
Proof.
  unfold regcache_sync. pose proof (resync_cache cs5368 (rmap d) (plat d)) as H.
  now destruct (resync cs5368 (rmap d) (plat d)) as [[r m] p].
Qed.

Lemma suspend_cache (disable_rc : Z) (d : device) :
  cache (rmap (snd (cs5368_pm_runtime_suspend disable_rc d))) = cache (rmap d).
Proof.
  unfold cs5368_pm_runtime_suspend, regulator_bulk_disable.
  now destruct (negb (disable_rc =? 0)).
Qed.

Lemma resume_cache (enable_rc : Z) (d : device) :
  cache (rmap (snd (cs5368_pm_runtime_resume enable_rc d))) = cache (rmap d).
Proof.
  unfold cs5368_pm_runtime_resume, regulator_bulk_enable.
  destruct (negb (enable_rc =? 0)); [ reflexivity |].
  match goal with
  | |- context [regcache_sync ?x] =>
    pose proof (regcache_sync_cache x) as Hp;
    destruct (regcache_sync x) as [rc' d5]
  end.
  cbn [snd] in Hp. now destruct (negb (rc' =? 0)).
Qed.

(** A resume that returns 0 has put every shadowed, syncable register
    on the device. *)
Lemma resume_ok_syncs (enable_rc reg v : Z) (d d1 : device) :
  cs5368_pm_runtime_resume enable_rc d = (0, d1) ->
  syncable cs5368 reg = true ->
  cache (rmap d) !! reg = Some v ->
  hw_regs (plat d1) !! reg = Some v.
Proof.
  intros Hrun Hs Hc. unfold cs5368_pm_runtime_resume, regulator_bulk_enable in Hrun.
  destruct (Z.eqb_spec enable_rc 0) as [->|Hne]; cbn [negb] in Hrun;
    [| injection Hrun as H0 _; contradiction ].
  unfold regcache_sync, resync in Hrun.
  match type of Hrun with
  | context [resync_from ?c ?l ?m ?p] =>
    destruct (resync_from c l m p) as [[[]|e] p'] eqn:Hsync
  end.
  - cbn in Hrun. injection Hrun as <-. cbn.
    apply (resync_from_syncs _ _ _ reg v (syncable_in_addresses reg Hs) Hs)
      in Hsync; [ exact Hsync | exact Hc ].
  - apply resync_from_error in Hsync as (rc & -> & Hrc).
    cbn [errno] in Hrun.
    destruct (Z.eqb_spec rc 0); [ contradiction |].
    cbn [negb] in Hrun. injection Hrun as H0 _. contradiction.
Qed.

Lemma invoke_keeps_cache (c : call) (rc : Z) (d d' : device) :
  is_stream_config c = false ->
  invoke c d = Some (rc, d') ->
  cache (rmap d') = cache (rmap d).
Proof.
  destruct c as [rate|fmt|tx rx slots width|clk_id source freq dir|drc|erc];
    cbn [invoke is_stream_config]; intros Hl H; [ discriminate | | | | | ].
  - unfold cs5368_dai_set_fmt in H.
    repeat match type of H with
           | context [if ?b then _ else _] => destruct b
           end; now injection H as _ <-.
  - unfold cs5368_dai_set_tdm_slot in H.
    repeat match type of H with
           | context [if ?b then _ else _] => destruct b
           end; now injection H as _ <-.
  - unfold cs5368_codec_set_sysclk in H.
    destruct (negb (dir =? SND_SOC_CLOCK_IN)); now injection H as _ <-.
  - injection H as H. rewrite <- (suspend_cache drc d), H. reflexivity.
  - injection H as H. rewrite <- (resume_cache erc d), H. reflexivity.
Qed.

Lemma run_keeps_cache (cs : list call) (d d' : device) :
  forallb (fun c => negb (is_stream_config c)) cs = true ->
  run cs d = Some d' ->
  cache (rmap d') = cache (rmap d).
Proof.
  revert d. induction cs as [|c cs IH]; intros d Hall Hrun.
  - now injection Hrun as <-.
  - cbn [forallb] in Hall. apply andb_true_iff in Hall as [Hc Hcs].
    apply negb_true_iff in Hc. cbn [run] in Hrun.
    destruct (invoke c d) as [[rc d1]|] eqn:Hi; [| discriminate ].
    rewrite (IH d1 Hcs Hrun).
    exact (invoke_keeps_cache c rc d d1 Hc Hi).
Qed.

(** The attach leaves the register store the same whatever the client:
    the initialisation sequence lands in the shadow, nothing is
    transmitted, and the reset line is held asserted. *)
Lemma probe_store (env : probe_env) (client : platform) (rc : Z) (d : device) :
  cs5368_i2c_probe env client = (rc, Some d) ->
  rmap d = rmap attached /\
  plat d = set_reset true (emit (EvCacheOnly true) client).
Proof.
  unfold cs5368_i2c_probe.
  destruct (kzalloc_fails env); [ discriminate |].
  destruct (negb (regmap_init_rc env =? 0)); [ discriminate |].
  change (regmap_multi_reg_write cs5368_reg_init
            (regcache_cache_only true
               {| priv := {| mclk_freq := 0; tdm := false |};
                  rmap := RegisterStore.init cs5368;
                  plat := client |}))
    with (0, {| priv := {| mclk_freq := 0; tdm := false |};
                rmap := rmap attached;
                plat := emit (EvCacheOnly true) client |}).
  cbn [negb Z.eqb].
  destruct (negb (regulator_bulk_get_rc env =? 0)); [ discriminate |].
  destruct (negb (gpiod_get_rc env =? 0)); [ discriminate |].
  destruct (negb (pm_runtime_enable_rc env =? 0)); [ discriminate |].
  destruct (register_component_rc env =? 0); [| discriminate ].
  intros [= _ <-]. split; reflexivity.
Qed.

(** ** The initialisation sequence under stream configuration *)

Lemma hw_params_init_kept (rate rc : Z) (d d' : device) :
  cs5368_dai_hw_params rate d = Some (rc, d') ->
  init_kept (cache (rmap d)) -> init_kept (cache (rmap d')).
Proof.
  intros Hrun (Hovfm & Hsden & g & Hg & Hbits).
  unfold cs5368_dai_hw_params in Hrun.
  destruct (mclk_div_of _ _) as [mclk_div|]; [| discriminate ].
  cbn [mbind option_bind] in Hrun.
  destruct (mdiv_of mclk_div) as [mdiv|];
    [| injection Hrun as _ <-; now repeat split; try exists g ].
  rewrite (update_mdiv_unfold g mdiv d Hg) in Hrun. cbn zeta in Hrun.
  assert (Hnew : init_kept (<[REG_GCTL := gctl_with_mdiv g mdiv]>
                              (cache (rmap d)))).
  { split; [ now rewrite lookup_insert_ne |].
    split; [ now rewrite lookup_insert_ne |].
    exists (gctl_with_mdiv g mdiv). split; [ apply lookup_insert_eq |].
    intros i H4 H5. rewrite gctl_with_mdiv_rest by assumption.
    now apply Hbits. }
  assert (Hold : init_kept (cache (rmap d))).
  { split; [ exact Hovfm |]. split; [ exact Hsden |]. now exists g. }
  destruct (cache_only (rmap d)).
  - cbn in Hrun. injection Hrun as _ <-. exact Hnew.
  - destruct (Bus.i2c_write 0x80 REG_GCTL (gctl_with_mdiv g mdiv) (plat d))
      as [rc1 p1].
    destruct (rc1 =? 0); cbn [negb Z.eqb] in Hrun.
    + injection Hrun as _ <-. exact Hnew.
    + destruct (negb (rc1 =? 0)); injection Hrun as _ <-; exact Hold.
Qed.

Lemma invoke_init_kept (c : call) (rc : Z) (d d' : device) :
  invoke c d = Some (rc, d') ->
  init_kept (cache (rmap d)) -> init_kept (cache (rmap d')).
Proof.
  intros Hi Hk. destruct (is_stream_config c) eqn:Hc;
    [| now rewrite (invoke_keeps_cache c rc d d' Hc Hi) ].
  destruct c; try discriminate Hc. cbn [invoke] in Hi.
  exact (hw_params_init_kept _ _ _ _ Hi Hk).
Qed.

(** Whatever the host called since the attach, stream configurations
    included, a resume that succeeds leaves on the device the overflow
    mask and the pin enable of the initialisation sequence, and global
    control as initialised but for the divider field. *)
Lemma resume_replays_init
  (env : probe_env) (client : platform) (cs : list call) (d d1 : device)
  (enable_rc : Z) :
  attach_then env client cs = Some d ->
  cs5368_pm_runtime_resume enable_rc d = (0, d1) ->
  init_kept (hw_regs (plat d1)).
Proof.
  intros Hreach Hres. unfold attach_then in Hreach.
  destruct (cs5368_i2c_probe env client) as [rc0 [d0|]] eqn:Hp;
    [| discriminate ].
  apply probe_store in Hp as [Hm0 _].
  assert (H0 : init_kept (cache (rmap d0))).
  { rewrite Hm0. split; [ reflexivity |]. split; [ reflexivity |].
    exists 0x8B. split; reflexivity. }
  assert (Hd : init_kept (cache (rmap d))).
  { clear Hm0. revert d0 H0 Hreach.
    induction cs as [|c cs IH]; intros d0 H0 Hrun.
    - now injection Hrun as <-.
    - cbn [run] in Hrun.
      destruct (invoke c d0) as [[rc d1']|] eqn:Hi; [| discriminate ].
      exact (IH d1' (invoke_init_kept c rc d0 d1' Hi H0) Hrun). }
  destruct Hd as (Hovfm & Hsden & g & Hg & Hbits).
  split; [ exact (resume_ok_syncs enable_rc REG_OVFM _ d d1 Hres eq_refl Hovfm) |].
  split; [ exact (resume_ok_syncs enable_rc REG_SDEN _ d d1 Hres eq_refl Hsden) |].
  exists g. split; [| exact Hbits ].
  exact (resume_ok_syncs enable_rc REG_GCTL _ d d1 Hres eq_refl Hg).
Qed.

(** The replay of the first resume after an attach, as the bus sees it:
    ascending addresses, revision, reserved and volatile ones left out,
    each address byte carrying the auto-increment flag. *)
Example first_resume_history :
  (fun d => history (plat (snd (cs5368_pm_runtime_resume 0 d))))
    <$> attach_then kernel_ok chip_at_reset []
  = Some [ EvCacheOnly true;
           EvBulkEnable 0; EvResetGpio false; EvCacheOnly false; EvMarkDirty;
           EvBusWrite 0x81 0x8B 0; EvBusWrite 0x83 0x00 0;
           EvBusWrite 0x84 0x00 0; EvBusWrite 0x86 0x00 0;
           EvBusWrite 0x88 0x00 0; EvBusWrite 0x8A 0x0A 0 ].
Proof. vm_compute. reflexivity. Qed.

(** ** Bypass and the power state *)

Lemma bus_read_power (flag reg : Z) (p : platform) :
  supplies_enabled (snd (Bus.i2c_read flag reg p)) = supplies_enabled p /\
  reset_asserted (snd (Bus.i2c_read flag reg p)) = reset_asserted p.
Proof.
  unfold Bus.i2c_read, Bus.next_rc.
  destruct (bus_script p) as [|rc rest]; cbn [fst snd];
    [| destruct (rc =? 0) ]; split; reflexivity.
Qed.

Section PowerFrame.

Variable cfg : regmap_config.

Lemma read_power_view (reg : Z) (m : regmap) (p : platform) :
  power_view (snd (fst (read cfg reg m p))) (snd (read cfg reg m p))
  = power_view m p.
Proof.
  unfold read, power_view.
  destruct (negb (readable cfg reg)); [ reflexivity |].
  pose proof (bus_read_power (read_flag_mask cfg) reg p) as [H1 H2].
  destruct (volatile cfg reg).
  - destruct (Bus.i2c_read (read_flag_mask cfg) reg p) as [[rc v] p'].
    cbn [snd] in H1, H2. destruct (rc =? 0); cbn [fst snd]; congruence.
  - destruct (cache_only m) eqn:Hco; [ cbn [fst snd]; congruence |].
    destruct (cache m !! reg); [ cbn [fst snd]; congruence |].
    destruct (Bus.i2c_read (read_flag_mask cfg) reg p) as [[rc v] p'].
    cbn [snd] in H1, H2. destruct (rc =? 0); cbn; congruence.
Qed.

Lemma write_power_view (reg val : Z) (m : regmap) (p : platform) :
  power_view (snd (fst (write cfg reg val m p))) (snd (write cfg reg val m p))
  = power_view m p.
Proof.
  unfold write, power_view.
  destruct (negb (writeable cfg reg)); [ reflexivity |].
  destruct (cache_only m) eqn:Hco.
  - cbn. now rewrite shadow_store_cache_only, Hco.
  - pose proof (bus_write_power (write_flag_mask cfg) reg val p) as [H1 H2].
    destruct (Bus.i2c_write (write_flag_mask cfg) reg val p) as [rc p'].
    cbn [snd] in H1, H2. destruct (rc =? 0); cbn [fst snd];
      rewrite ?shadow_store_cache_only; congruence.
Qed.

Lemma write_masked_power_view (reg mask val : Z) (m : regmap) (p : platform) :
  power_view (snd (fst (write_masked cfg reg mask val m p)))
             (snd (write_masked cfg reg mask val m p))
  = power_view m p.
Proof.
  unfold write_masked.
  pose proof (read_power_view reg m p) as Hr.
  destruct (read cfg reg m p) as [[[orig|e] m1] p1]; cbn [fst snd] in Hr;
    [| exact Hr ].
  now rewrite write_power_view.
Qed.

End PowerFrame.

Lemma power_consistent_view (d d' : device) :
  power_view (rmap d') (plat d') = power_view (rmap d) (plat d) ->
  power_consistent d -> power_consistent d'.
Proof.
  unfold power_view, power_consistent. intros [= -> -> ->]. tauto.
Qed.

Lemma hw_params_power_view (rate rc : Z) (d d' : device) :
  cs5368_dai_hw_params rate d = Some (rc, d') ->
  power_view (rmap d') (plat d') = power_view (rmap d) (plat d).
Proof.
  unfold cs5368_dai_hw_params.
  destruct (mclk_div_of _ _) as [mclk_div|]; [| discriminate ].
  cbn [mbind option_bind].
  destruct (mdiv_of mclk_div) as [mdiv|]; [| now intros [= _ <-] ].
  unfold regmap_update_bits.
  pose proof (write_masked_power_view cs5368 REG_GCTL REG_GCTL_MDIV_MASK
                (Z.shiftl mdiv 4) (rmap d) (plat d)) as Hv.
  destruct (write_masked cs5368 _ _ _ _ _) as [[r m] p]. cbn [fst snd] in Hv.
  destruct (negb (errno r =? 0)); now intros [= _ <-].
Qed.

Lemma resume_power_consistent (enable_rc : Z) (d : device) :
  power_consistent d ->
  power_consistent (snd (cs5368_pm_runtime_resume enable_rc d)).
Proof.
  intros Hd. unfold cs5368_pm_runtime_resume, regulator_bulk_enable.
  destruct (enable_rc =? 0); cbn [negb]; [| exact Hd ].
  unfold regcache_sync, resync.
  match goal with
  | |- context [resync_from ?c ?l ?m ?p] =>
    pose proof (resync_from_supplies c l m p) as [H1 H2];
    destruct (resync_from c l m p) as [[[]|e] p']
  end; cbn [snd] in H1, H2.
  all: match goal with
       | |- context [negb ?b] => destruct (negb b)
       end; unfold power_consistent; cbn [snd rmap plat with_store fst];
    rewrite H1, H2; cbn; split; congruence.
Qed.

Lemma invoke_power_consistent (c : call) (rc : Z) (d d' : device) :
  invoke c d = Some (rc, d') ->
  power_consistent d -> power_consistent d'.
Proof.
  destruct c as [rate|fmt|tx rx slots width|clk_id source freq dir|drc|erc];
    cbn [invoke]; intros H.
  - apply power_consistent_view. exact (hw_params_power_view _ _ _ _ H).
  - unfold cs5368_dai_set_fmt in H.
    repeat match type of H with
           | context [if ?b then _ else _] => destruct b
           end; now injection H as _ <-.
  - unfold cs5368_dai_set_tdm_slot in H.
    repeat match type of H with
           | context [if ?b then _ else _] => destruct b
           end; now injection H as _ <-.
  - unfold cs5368_codec_set_sysclk in H.
    destruct (negb (dir =? SND_SOC_CLOCK_IN)); now injection H as _ <-.
  - intros _. injection H as H. apply (f_equal snd) in H. cbn [snd] in H.
    subst d'. unfold cs5368_pm_runtime_suspend, regulator_bulk_disable.
    destruct (drc =? 0); cbn; split; reflexivity.
  - intros Hd. injection H as H. apply (f_equal snd) in H. cbn [snd] in H.
    subst d'. now apply resume_power_consistent.
Qed.

(** On every device the host can reach, bypass is set unless the device
    is Active. *)
Lemma bypass_unless_active
  (env : probe_env) (client : platform) (cs : list call) (d : device) :
  attach_then env client cs = Some d ->
  power_state_of d <> Active ->
  cache_only (rmap d) = true.
Proof.
  intros Hreach. unfold attach_then in Hreach.
  destruct (cs5368_i2c_probe env client) as [rc0 [d0|]] eqn:Hp;
    [| discriminate ].
  apply probe_store in Hp as [Hm0 Hp0].
  assert (H0 : power_consistent d0).
  { unfold power_consistent. rewrite Hm0, Hp0. split; reflexivity. }
  assert (Hd : power_consistent d).
  { clear Hm0 Hp0. revert d0 H0 Hreach.
    induction cs as [|c cs IH]; intros d0 H0 Hrun.
    - now injection Hrun as <-.
    - cbn [run] in Hrun.
      destruct (invoke c d0) as [[rc d1]|] eqn:Hi; [| discriminate ].
      exact (IH d1 (invoke_power_consistent c rc d0 d1 Hi H0) Hrun). }
  destruct Hd as [Hco Hoff]. unfold power_state_of.
  destruct (supplies_enabled (plat d)); cbn [negb].
  - destruct (reset_asserted (plat d)); [ intros _; exact Hco | congruence ].
  - intros _. rewrite Hco. now apply Hoff.
Qed.

(** ** The shadow never loses an address *)

Section ShadowGrows.

Variable cfg : regmap_config.

Lemma read_keeps_cached (k reg : Z) (m : regmap) (p : platform) :
is_Some (cache m !! k) ->
is_Some (cache (snd (fst (read cfg reg m p))) !! k).
Proof.
intros Hk. unfold read.
destruct (negb (readable cfg reg)); [ exact Hk |].
destruct (volatile cfg reg).
- destruct (Bus.i2c_read (read_flag_mask cfg) reg p) as [[rc v] p'].
  now destruct (rc =? 0).
- destruct (cache_only m); [ exact Hk |].
  destruct (cache m !! reg); [ exact Hk |].
  destruct (Bus.i2c_read (read_flag_mask cfg) reg p) as [[rc v] p'].
  destruct (rc =? 0); [| exact Hk ].
  cbn. apply lookup_insert_is_Some'. now right.
Qed.

Lemma shadow_store_keeps_cached (k reg val : Z) (m : regmap) :
is_Some (cache m !! k) ->
is_Some (cache (shadow_store cfg reg val m) !! k).
Proof.
intros Hk. unfold shadow_store. destruct (volatile cfg reg); [ exact Hk |].
cbn. apply lookup_insert_is_Some'. now right.
Qed.

Lemma write_keeps_cached (k reg val : Z) (m : regmap) (p : platform) :
is_Some (cache m !! k) ->
is_Some (cache (snd (fst (write cfg reg val m p))) !! k).
Proof.
intros Hk. unfold write.
destruct (negb (writeable cfg reg)); [ exact Hk |].
destruct (cache_only m); [ cbn; now apply shadow_store_keeps_cached |].
destruct (Bus.i2c_write (write_flag_mask cfg) reg val p) as [rc p'].
destruct (rc =? 0); [ cbn; now apply shadow_store_keeps_cached | exact Hk ].
Qed.

Lemma write_masked_keeps_cached (k reg mask val : Z) (m : regmap)
(p : platform) :
is_Some (cache m !! k) ->
is_Some (cache (snd (fst (write_masked cfg reg mask val m p))) !! k).
Proof.
intros Hk. unfold write_masked.
pose proof (read_keeps_cached k reg m p Hk) as Hr.
destruct (read cfg reg m p) as [[[orig|e] m1] p1]; cbn [fst snd] in Hr;
  [| exact Hr ].
now apply write_keeps_cached.
Qed.

End ShadowGrows.

Lemma invoke_keeps_cached (k : Z) (c : call) (rc : Z) (d d' : device) :
  invoke c d = Some (rc, d') ->
  is_Some (cache (rmap d) !! k) ->
  is_Some (cache (rmap d') !! k).
Proof.
  intros Hi Hk. destruct (is_stream_config c) eqn:Hc;
    [| now rewrite (invoke_keeps_cache c rc d d' Hc Hi) ].
  destruct c; try discriminate Hc. cbn [invoke] in Hi.
  unfold cs5368_dai_hw_params in Hi.
  destruct (mclk_div_of _ _) as [mclk_div|]; [| discriminate ].
  cbn [mbind option_bind] in Hi.
  destruct (mdiv_of mclk_div) as [mdiv|]; [| now injection Hi as _ <- ].
  unfold regmap_update_bits in Hi.
  pose proof (write_masked_keeps_cached cs5368 k REG_GCTL REG_GCTL_MDIV_MASK
                (Z.shiftl mdiv 4) (rmap d) (plat d) Hk) as Hw.
  destruct (write_masked cs5368 _ _ _ _ _) as [[r m] p]. cbn [fst snd] in Hw.
  destruct (negb (errno r =? 0)); now injection Hi as _ <-.
Qed.

(** On every device the host can reach the shadow holds global control,
    so the masked write of the divider never has to ask the bus for the
    old value. *)
Lemma global_control_cached
  (env : probe_env) (client : platform) (cs : list call) (d : device) :
  attach_then env client cs = Some d ->
  is_Some (cache (rmap d) !! REG_GCTL).
Proof.
  intros Hreach. unfold attach_then in Hreach.
  destruct (cs5368_i2c_probe env client) as [rc0 [d0|]] eqn:Hp;
    [| discriminate ].
  apply probe_store in Hp as [Hm0 _].
  assert (H0 : is_Some (cache (rmap d0) !! REG_GCTL)).
  { rewrite Hm0. now exists 0x8B. }
  clear Hm0. revert d0 H0 Hreach.
  induction cs as [|c cs IH]; intros d0 H0 Hrun.
  - now injection Hrun as <-.
  - cbn [run] in Hrun.
    destruct (invoke c d0) as [[rc d1]|] eqn:Hi; [| discriminate ].
    exact (IH d1 (invoke_keeps_cached REG_GCTL c rc d0 d1 Hi H0) Hrun).
Qed.

(** ** Sample evaluations *)

(** A zero rate traps in the first division. *)
Example hw_params_zero_rate : cs5368_dai_hw_params 0 clocked = None.
Proof. reflexivity. Qed.

(** 12.288 MHz at 48 kHz: divider 1, code 0, global control stays 0x8B. *)
Example hw_params_12288000_48000 :
  (fun r => (fst r, cache (rmap (snd r)) !! REG_GCTL))
    <$> cs5368_dai_hw_params 48000
          (with_priv attached (set_mclk_freq 12288000 (priv attached)))
  = Some (0, Some 0x8B).
Proof. vm_compute. reflexivity. Qed.

(** 24.576 MHz at 96 kHz: divider 2, code 1, global control 0x9B. *)
Example hw_params_24576000_96000 :
  (fun r => (fst r, cache (rmap (snd r)) !! REG_GCTL))
    <$> cs5368_dai_hw_params 96000 clocked
  = Some (0, Some 0x9B).
Proof. vm_compute. reflexivity. Qed.

(** 49.152 MHz at 192 kHz: divider 4, code 3, global control 0xBB. *)
Example hw_params_49152000_192000 :
  (fun r => (fst r, cache (rmap (snd r)) !! REG_GCTL))
    <$> cs5368_dai_hw_params 192000
          (with_priv attached (set_mclk_freq 49152000 (priv attached)))
  = Some (0, Some 0xBB).
Proof. vm_compute. reflexivity. Qed.

(** A resync that fails half way leaves the device partly written. *)
Example resync_abort :
  (fun d => let r := cs5368_pm_runtime_resume 0 d in
            (fst r, hw_regs (plat (snd r)) !! REG_GCTL,
             hw_regs (plat (snd r)) !! REG_SDEN))
    <$> attach_then kernel_ok (set_bus_script [0; - EIO] chip_at_reset) []
  = Some (- EIO, Some 0x8B, Some 0x00).
Proof. vm_compute. reflexivity. Qed.

(** * Further properties of the driver *)

(** ** Stream configuration: traps and accepted clocks *)

Lemma to_unsigned_to_int (x : Z) : to_unsigned (to_int x) = to_unsigned x.
Proof.
  unfold to_unsigned, to_int.
  pose proof (Z.mod_pos_bound x UINT_MOD eq_refl) as Hu.
  destruct (Z.leb_spec (x mod UINT_MOD) INT_MAX).
  - apply Z.mod_mod. discriminate.
  - replace (x mod UINT_MOD - UINT_MOD)
      with (x mod UINT_MOD + (-1) * UINT_MOD) by ring.
    rewrite Z.mod_add by discriminate. apply Z.mod_mod. discriminate.
Qed.

Lemma lrck_speed_unsigned (rate : Z) :
  to_unsigned (lrck_speed_of rate) = lrck_speed_of rate /\
  64 <= lrck_speed_of rate <= 256.
Proof.
  destruct (lrck_speed_of_cases rate) as [->|[->| ->]]; split;
    try reflexivity; lia.
Qed.

(** X1.  The stream configuration traps (division by zero) exactly when
    the rate of the stream parameters is zero as an [unsigned int]; the
    division by the oversampling ratio never traps. *)
Theorem hw_params_traps_iff (params_rate : Z) (d : device) :
  cs5368_dai_hw_params params_rate d = None <->
  params_rate mod UINT_MOD = 0.
Proof.
  unfold cs5368_dai_hw_params, mclk_div_of, udiv.
  rewrite to_unsigned_to_int. fold (to_unsigned params_rate).
  destruct (Z.eqb_spec (to_unsigned params_rate) 0) as [H0|H0].
  - cbn [mbind option_bind]. tauto.
  - cbn [mbind option_bind].
    destruct (lrck_speed_unsigned (to_int params_rate)) as [-> Hl].
    destruct (Z.eqb_spec (lrck_speed_of (to_int params_rate)) 0);
      [ lia |].
    cbn [mbind option_bind].
    destruct (mdiv_of _) as [mdiv|]; [| split; [ discriminate | tauto ] ].
    destruct (regmap_update_bits _ _ _ d) as [rc d'].
    destruct (negb (rc =? 0)); split; (discriminate || tauto).
Qed.

Lemma div_eq_iff (a n k : Z) :
  0 < n -> (a / n = k <-> k * n <= a < (k + 1) * n).
Proof.
  intros Hn. pose proof (Z.div_mod a n) as Hd.
  pose proof (Z.mod_pos_bound a n Hn) as Hm. split.
  - intros <-. nia.
  - intros Hk. symmetry. apply (Z.div_unique a n k (a - n * k)); lia.
Qed.

(** A clock the code accepts for a rate lies within one to five times
    the rate times its oversampling ratio. *)
Lemma accepted_clock_range (mclk rate : Z) :
  0 <= mclk < UINT_MOD ->
  0 < rate <= INT_MAX ->
  mclk_div_of mclk (to_int rate) ≫= mdiv_of <> None ->
  rate * lrck_speed_of rate <= mclk < 5 * (rate * lrck_speed_of rate).
Proof.
  intros Hm Hr. rewrite (to_int_id rate) by lia.
  rewrite mclk_div_of_raw_div by assumption. cbn [mbind option_bind].
  unfold DesignDoc.raw_div.
  change (DesignDoc.oversample_ratio rate) with (lrck_speed_of rate).
  set (n := rate * lrck_speed_of rate).
  assert (Hn : 0 < n).
  { destruct (lrck_speed_unsigned rate) as [_ Hl]. subst n. nia. }
  unfold mdiv_of.
  destruct (Z.eqb_spec (mclk / n) 4) as [E|_];
    [ apply (div_eq_iff mclk n 4 Hn) in E; lia |].
  destruct (Z.eqb_spec (mclk / n) 2) as [E|_];
    [ apply (div_eq_iff mclk n 2 Hn) in E; lia |].
  destruct (Z.eqb_spec (mclk / n) 1) as [E|_];
    [ apply (div_eq_iff mclk n 1 Hn) in E; lia | congruence ].
Qed.

(** X2.  Which master clocks a rate accepts: with [n = rate *
    lrck_speed], the truncating division takes every clock in [n, 2n)
    as divider 1 (code 0), every clock in [2n, 3n) as divider 2 (code
    1) and every clock in [4n, 5n) as divider 4 (code 3), exact
    multiple or not, and refuses all others. *)
Theorem divider_acceptance_intervals (mclk rate : Z) :
  0 <= mclk < UINT_MOD ->
  0 < rate <= INT_MAX ->
  let n := rate * lrck_speed_of rate in
  let code := mclk_div_of mclk (to_int rate) ≫= mdiv_of in
  (code = Some 0 <-> n <= mclk < 2 * n) /\
  (code = Some 1 <-> 2 * n <= mclk < 3 * n) /\
  (code = Some 3 <-> 4 * n <= mclk < 5 * n) /\
  (code = None <-> mclk < n \/ 3 * n <= mclk < 4 * n \/ 5 * n <= mclk).
Proof.
  intros Hm Hr n code. subst code.
  rewrite (to_int_id rate) by lia.
  rewrite mclk_div_of_raw_div by assumption. cbn [mbind option_bind].
  unfold DesignDoc.raw_div.
  change (DesignDoc.oversample_ratio rate) with (lrck_speed_of rate).
  fold n.
  assert (Hn : 0 < n).
  { destruct (lrck_speed_unsigned rate) as [_ Hl]. subst n. nia. }
  pose proof (div_eq_iff mclk n 1 Hn) as H1.
  pose proof (div_eq_iff mclk n 2 Hn) as H2.
  pose proof (div_eq_iff mclk n 4 Hn) as H4.
  pose proof (Z.div_pos mclk n) as Hq.
  unfold mdiv_of.
  destruct (Z.eqb_spec (mclk / n) 4) as [E4|E4];
    [| destruct (Z.eqb_spec (mclk / n) 2) as [E2|E2];
       [| destruct (Z.eqb_spec (mclk / n) 1) as [E1|E1] ] ].
  - repeat split; intros; try discriminate; lia.
  - repeat split; intros; try discriminate; lia.
  - repeat split; intros; try discriminate; lia.
  - assert (H3 : mclk / n = 3 <-> 3 * n <= mclk < 4 * n)
      by (rewrite (div_eq_iff mclk n 3 Hn); lia).
    assert (H0 : mclk / n = 0 <-> mclk < n).
    { rewrite (div_eq_iff mclk n 0 Hn). lia. }
    assert (H5 : 5 <= mclk / n <-> 5 * n <= mclk).
    { split; intros H.
      - pose proof (Z.mul_div_le mclk n Hn). nia.
      - apply Z.div_le_lower_bound; lia. }
    repeat split; intros; try discriminate; try lia.
Qed.

Lemma divider_acceptance_intervals_witness :
  mclk_div_of 24576000 (to_int 44100) ≫= mdiv_of = Some 1 /\
  2 * (44100 * 256) <= 24576000 < 3 * (44100 * 256).
Proof.
  assert (Hm : 0 <= 24576000 < UINT_MOD) by (vm_compute; easy).
  assert (Hr : 0 < 44100 <= INT_MAX) by (vm_compute; easy).
  destruct (divider_acceptance_intervals 24576000 44100 Hm Hr)
    as (_ & H2 & _).
  assert (Hin : 2 * (44100 * lrck_speed_of 44100) <= 24576000
                < 3 * (44100 * lrck_speed_of 44100)) by (vm_compute; easy).
  split; [ apply H2; exact Hin | exact Hin ].
Defined.

(** X3.  On every rate the capture stream advertises (2000 to 216000)
    the stream configuration never traps, and a master clock it accepts
    lies between 512 kHz and 69.12 MHz. *)
Theorem advertised_rates_configure (rate : Z) (d : device) :
  rate_min soc_dai_cs5368_capture <= rate <= rate_max soc_dai_cs5368_capture ->
  0 <= mclk_freq (priv d) < UINT_MOD ->
  (exists rc d', cs5368_dai_hw_params rate d = Some (rc, d')) /\
  (mclk_div_of (mclk_freq (priv d)) (to_int rate) ≫= mdiv_of <> None ->
   512000 <= mclk_freq (priv d) < 69120000).
Proof.
  cbn [rate_min rate_max soc_dai_cs5368_capture]. intros Hr Hm.
  assert (Hr' : 0 < rate <= INT_MAX) by (unfold INT_MAX; lia).
  split.
  - unfold cs5368_dai_hw_params.
    rewrite mclk_div_of_params_rate by (unfold UINT_MOD, INT_MAX in *; lia).
    cbn [mbind option_bind].
    destruct (mdiv_of _) as [mdiv|]; [| now eexists _, _ ].
    destruct (regmap_update_bits _ _ _ d) as [rc d'].
    destruct (negb (rc =? 0)); now eexists _, _.
  - intros Hacc.
    pose proof (accepted_clock_range (mclk_freq (priv d)) rate Hm Hr' Hacc)
      as Hin.
    unfold lrck_speed_of in Hin.
    destruct (Z.ltb_spec rate 54000); [ lia |].
    destruct (Z.ltb_spec rate 108000); lia.
Qed.

Lemma advertised_rates_configure_witness :
  exists rc d', cs5368_dai_hw_params 2000 clocked = Some (rc, d').
Proof.
  apply (advertised_rates_configure 2000 clocked); vm_compute; easy.
Defined.

(** ** Stream configuration: composition and footprint *)

Lemma masked_update_twice (orig mask v1 v2 : Z) :
  masked_update (masked_update orig mask v1) mask v2
  = masked_update orig mask v2.
Proof.
  unfold masked_update. apply Z.bits_inj'. intros i Hi.
  rewrite !Z.lor_spec, !Z.land_spec, Z.lor_spec, !Z.land_spec, !Z.lnot_spec
    by exact Hi.
  destruct (Z.testbit orig i), (Z.testbit mask i), (Z.testbit v1 i),
           (Z.testbit v2 i); reflexivity.
Qed.

(** With bypass set an accepted configuration only rewrites the shadow
    of global control. *)
Lemma hw_params_bypass_accepted (rate old code : Z) (d : device) :
  0 <= mclk_freq (priv d) < UINT_MOD ->
  0 < rate <= INT_MAX ->
  cache (rmap d) !! REG_GCTL = Some old ->
  cache_only (rmap d) = true ->
  DesignDoc.divider_code (DesignDoc.raw_div (mclk_freq (priv d)) rate)
  = Some code ->
  cs5368_dai_hw_params rate d
  = Some (0, with_store d
               (set_cache_dirty true
                  (set_cache (<[REG_GCTL := gctl_with_mdiv old code]>
                                (cache (rmap d))) (rmap d)),
                plat d)).
Proof.
  intros Hm Hr Hc Hco Hcode.
  rewrite (hw_params_accepted rate old code d Hm Hr Hc Hcode).
  rewrite (update_mdiv_unfold old code d Hc). cbn zeta. now rewrite Hco.
Qed.

Lemma accepted_rate_is_int (mclk rate code : Z) :
  0 <= mclk < UINT_MOD ->
  0 < rate < UINT_MOD ->
  DesignDoc.divider_code (DesignDoc.raw_div mclk rate) = Some code ->
  0 < rate <= INT_MAX.
Proof.
  intros Hm Hr Hcode. destruct (Z.le_gt_cases rate INT_MAX) as [Hle|Hgt];
    [ lia |].
  destruct (mclk_div_of_beyond_int mclk rate Hm) as [_ Hraw]; [ lia |].
  rewrite Hraw in Hcode. discriminate.
Qed.

(** X4.  With bypass set, the divider field holds the last accepted
    stream configuration only: configuring a rate and then an accepted
    rate leaves the device exactly as configuring the second alone
    (so configuring the same rate twice is the same as once). *)
Theorem last_stream_config_wins (r1 r2 old code : Z) (d : device) :
  0 <= mclk_freq (priv d) < UINT_MOD ->
  0 < r1 < UINT_MOD ->
  0 < r2 <= INT_MAX ->
  cache (rmap d) !! REG_GCTL = Some old ->
  cache_only (rmap d) = true ->
  DesignDoc.divider_code (DesignDoc.raw_div (mclk_freq (priv d)) r2)
  = Some code ->
  run [HwParams r1; HwParams r2] d = run [HwParams r2] d.
Proof.
  intros Hm Hr1 Hr2 Hc Hco Hcode. cbn [run invoke].
  destruct (DesignDoc.divider_code
              (DesignDoc.raw_div (mclk_freq (priv d)) r1)) as [c1|] eqn:H1.
  - pose proof (accepted_rate_is_int _ _ _ Hm Hr1 H1) as Hr1'.
    rewrite (hw_params_bypass_accepted r1 old c1 d Hm Hr1' Hc Hco H1).
    rewrite (hw_params_bypass_accepted r2 old code d Hm Hr2 Hc Hco Hcode).
    rewrite (hw_params_bypass_accepted r2 (gctl_with_mdiv old c1) code);
      try assumption; [| cbn; apply lookup_insert_eq ].
    unfold with_store, set_cache_dirty, set_cache. cbn.
    rewrite insert_insert_eq. unfold gctl_with_mdiv.
    now rewrite masked_update_twice.
  - now rewrite (hw_params_rejected r1 d Hm Hr1 H1).
Qed.

Lemma last_stream_config_wins_witness :
  run [HwParams 32000; HwParams 96000] clocked = run [HwParams 96000] clocked /\
  run [HwParams 48000; HwParams 96000] clocked = run [HwParams 96000] clocked.
Proof.
  split.
  - apply (last_stream_config_wins 32000 96000 0x8B 1 clocked);
      vm_compute; easy.
  - apply (last_stream_config_wins 48000 96000 0x8B 1 clocked);
      vm_compute; easy.
Defined.

(** X5.  The footprint of a stream configuration: it leaves the
    instance fields, the bypass flag, the rails and the reset line
    alone and changes no register but global control, in the shadow or
    on the device.  A refused rate returns [-EINVAL] and leaves the
    whole device, call record included, as it was; an accepted rate
    with bypass set returns 0 and leaves the platform as it was; an
    accepted rate with bypass clear adds exactly one transfer to the
    call record, the write to address 0x81 (global control with the
    auto-increment flag) of global control with the new divider code,
    and returns what the bus answered. *)
Theorem hw_params_footprint (rate old rc : Z) (d d' : device) :
  cache (rmap d) !! REG_GCTL = Some old ->
  cs5368_dai_hw_params rate d = Some (rc, d') ->
  priv d' = priv d /\
  power_view (rmap d') (plat d') = power_view (rmap d) (plat d) /\
  (forall reg, reg <> REG_GCTL ->
     cache (rmap d') !! reg = cache (rmap d) !! reg /\
     hw_regs (plat d') !! reg = hw_regs (plat d) !! reg) /\
  match mclk_div_of (mclk_freq (priv d)) (to_int rate) ≫= mdiv_of with
  | None => rc = - EINVAL /\ d' = d
  | Some code =>
    if cache_only (rmap d)
    then rc = 0 /\ plat d' = plat d
    else history (plat d')
         = history (plat d) ++ [EvBusWrite 0x81 (gctl_with_mdiv old code) rc]
  end.
Proof.
  intros Hc Hrun.
  split; [ exact (hw_params_priv _ _ _ _ Hrun) |].
  split; [ exact (hw_params_power_view _ _ _ _ Hrun) |].
  unfold cs5368_dai_hw_params in Hrun.
  destruct (mclk_div_of _ _) as [mclk_div|]; [| discriminate ].
  cbn [mbind option_bind] in Hrun |- *.
  destruct (mdiv_of mclk_div) as [mdiv|];
    [| injection Hrun as <- <-; split; [ now split | now split ] ].
  rewrite (update_mdiv_unfold old mdiv d Hc) in Hrun. cbn zeta in Hrun.
  destruct (cache_only (rmap d)).
  - cbn in Hrun. injection Hrun as <- <-. cbn. split; [| now split ].
    intros reg Hne. now rewrite lookup_insert_ne by congruence.
  - rewrite bus_write_spec in Hrun. cbn zeta in Hrun.
    assert (Hnext : hw_regs (snd (Bus.next_rc (plat d))) = hw_regs (plat d) /\
                    history (snd (Bus.next_rc (plat d))) = history (plat d)).
    { unfold Bus.next_rc. destruct (bus_script (plat d)); split; reflexivity. }
    destruct Hnext as [Hh Hl].
    destruct (Bus.next_rc (plat d)) as [brc p1]. cbn [fst snd] in *.
    destruct (Z.eqb_spec brc 0) as [->|Hne]; cbn [negb Z.eqb] in Hrun.
    + injection Hrun as <- <-. cbn. split.
      * intros reg Hreg. rewrite !lookup_insert_ne by congruence.
        now rewrite Hh.
      * now rewrite Hl.
    + destruct (Z.eqb_spec brc 0); [ contradiction |]. cbn [negb] in Hrun.
      injection Hrun as <- <-. cbn. split.
      * intros reg Hreg. now rewrite Hh.
      * now rewrite Hl.
Qed.

Lemma hw_params_footprint_witness :
  exists d d',
    powered_on_flaky_bus = Some d /\
    cs5368_dai_hw_params 48000 d = Some (- EIO, d') /\
    priv d' = priv d /\
    cache (rmap d') !! REG_MUTE = cache (rmap d) !! REG_MUTE /\
    history (plat d')
    = history (plat d) ++ [EvBusWrite 0x81 (gctl_with_mdiv 0x8B 1) (- EIO)].
Proof.
  eexists _, _. split; [ vm_compute; reflexivity |].
  split; [ vm_compute; reflexivity |].
  match goal with
  | |- priv ?d' = priv ?d /\ _ =>
    destruct (hw_params_footprint 48000 0x8B (- EIO) d d')
      as (Hp & _ & Hregs & Hhist);
      [ vm_compute; reflexivity | vm_compute; reflexivity |]
  end.
  split; [ exact Hp |]. split; [ apply Hregs; discriminate |].
  exact Hhist.
Defined.

(** X6.  A stream configuration made while the device is down is not
    lost: with bypass set an accepted configuration transmits nothing,
    and the next resume that succeeds puts global control with the new
    divider code on the device. *)
Theorem deferred_stream_config_replayed (rate old code : Z) (d : device) :
  0 <= mclk_freq (priv d) < UINT_MOD ->
  0 < rate <= INT_MAX ->
  cache (rmap d) !! REG_GCTL = Some old ->
  cache_only (rmap d) = true ->
  DesignDoc.divider_code (DesignDoc.raw_div (mclk_freq (priv d)) rate)
  = Some code ->
  exists d1,
    cs5368_dai_hw_params rate d = Some (0, d1) /\
    plat d1 = plat d /\
    forall enable_rc d2,
      cs5368_pm_runtime_resume enable_rc d1 = (0, d2) ->
      exists new,
        hw_regs (plat d2) !! REG_GCTL = Some new /\
        Z.land new REG_GCTL_MDIV_MASK = Z.shiftl code 4 /\
        forall i, i <> 4 -> i <> 5 -> Z.testbit new i = Z.testbit old i.
Proof.
  intros Hm Hr Hc Hco Hcode.
  eexists. split;
    [ exact (hw_params_bypass_accepted rate old code d Hm Hr Hc Hco Hcode) |].
  split; [ reflexivity |].
  intros enable_rc d2 Hres. exists (gctl_with_mdiv old code).
  split.
  - apply (resume_ok_syncs enable_rc REG_GCTL _ _ d2 Hres eq_refl).
    cbn. apply lookup_insert_eq.
  - split.
    + apply gctl_with_mdiv_field.
      destruct (divider_code_values _ _ Hcode) as [[_ ?]|[[_ ?]|[_ ?]]]; lia.
    + intros i H4 H5. now apply gctl_with_mdiv_rest.
Qed.

Lemma deferred_stream_config_replayed_witness :
  exists d1,
    cs5368_dai_hw_params 96000 clocked = Some (0, d1) /\
    plat d1 = plat clocked.
Proof.
  assert (Hm : 0 <= mclk_freq (priv clocked) < UINT_MOD) by (vm_compute; easy).
  assert (Hr : 0 < 96000 <= INT_MAX) by (vm_compute; easy).
  assert (Hc : cache (rmap clocked) !! REG_GCTL = Some 0x8B) by reflexivity.
  assert (Hco : cache_only (rmap clocked) = true) by reflexivity.
  assert (Hcode : DesignDoc.divider_code
                    (DesignDoc.raw_div (mclk_freq (priv clocked)) 96000)
                  = Some 1) by reflexivity.
  destruct (deferred_stream_config_replayed 96000 0x8B 1 clocked
              Hm Hr Hc Hco Hcode) as (d1 & Hrun & Hplat & _).
  exists d1. split; assumption.
Defined.

(** ** Instance fields over a run of calls *)

(** What one call does to [struct cs5368_priv]. *)
Lemma invoke_priv (c : call) (rc : Z) (d d' : device) :
  invoke c d = Some (rc, d') ->
  mclk_freq (priv d') = last_latched (mclk_freq (priv d)) [c] /\
  tdm (priv d') = tdm (priv d) || accepts_tdm_slot c.
Proof.
  destruct c as [rate|fmt|tx rx slots width|clk_id source freq dir|drc|erc];
    cbn [invoke last_latched accepts_tdm_slot]; intros H.
  - rewrite (hw_params_priv _ _ _ _ H). now rewrite orb_false_r.
  - unfold cs5368_dai_set_fmt in H. rewrite orb_false_r.
    repeat match type of H with
           | context [if ?b then _ else _] => destruct b
           end; now injection H as _ <-.
  - unfold cs5368_dai_set_tdm_slot in H.
    destruct (slots =? 8), (slots =? 4), (slots =? 2), (width =? 32);
      cbn [negb andb orb] in *; injection H as _ <-; cbn;
      rewrite ?orb_true_r, ?orb_false_r; split; reflexivity.
  - unfold cs5368_codec_set_sysclk in H. rewrite orb_false_r.
    destruct (dir =? SND_SOC_CLOCK_IN); cbn [negb] in H;
      now injection H as _ <-.
  - injection H as H. rewrite <- (suspend_priv drc d), H.
    now rewrite orb_false_r.
  - injection H as H. rewrite <- (resume_priv erc d), H.
    now rewrite orb_false_r.
Qed.

Lemma run_priv (cs : list call) (d d' : device) :
  run cs d = Some d' ->
  mclk_freq (priv d') = last_latched (mclk_freq (priv d)) cs /\
  tdm (priv d') = tdm (priv d) || existsb accepts_tdm_slot cs.
Proof.
  revert d. induction cs as [|c cs IH]; intros d Hrun.
  - injection Hrun as <-. cbn. now rewrite orb_false_r.
  - cbn [run] in Hrun.
    destruct (invoke c d) as [[rc d1]|] eqn:Hi; [| discriminate ].
    destruct (invoke_priv c rc d d1 Hi) as [Hm Ht].
    destruct (IH d1 Hrun) as [Hm' Ht'].
    split.
    + rewrite Hm', Hm. reflexivity.
    + rewrite Ht', Ht. cbn [existsb]. now rewrite orb_assoc.
Qed.

(** X7.  The two instance fields depend on the negotiation calls alone:
    on a device reached from an attach, the latched master clock is the
    frequency of the last [set_sysclk] with the input direction (0 when
    there was none; a later call replaces an earlier latch), and [tdm]
    is set exactly when some [set_tdm_slot] with 2, 4 or 8 slots of
    width 32 has come; stream configurations, suspends and resumes,
    refused calls and failures never change either. *)
Theorem instance_fields_from_calls
  (env : probe_env) (client : platform) (cs : list call) (d : device) :
  attach_then env client cs = Some d ->
  mclk_freq (priv d) = last_latched 0 cs /\
  tdm (priv d) = existsb accepts_tdm_slot cs.
Proof.
  intros Hreach. unfold attach_then in Hreach.
  destruct (cs5368_i2c_probe env client) as [rc0 [d0|]] eqn:Hp;
    [| discriminate ].
  apply probe_priv in Hp as [_ Hp0].
  destruct (run_priv cs d0 d Hreach) as [Hm Ht].
  rewrite Hp0 in Hm, Ht. split; assumption.
Qed.

Lemma instance_fields_from_calls_witness :
  exists d,
    attach_then kernel_ok chip_at_reset relatching_calls = Some d /\
    mclk_freq (priv d) = 24576000 /\
    tdm (priv d) = true.
Proof.
  eexists. split; [ vm_compute; reflexivity |].
  apply (instance_fields_from_calls kernel_ok chip_at_reset relatching_calls).
  vm_compute. reflexivity.
Defined.

(** ** Attach: failures and what a success leaves *)

(** With bypass set first, writing the initialisation sequence cannot
    fail and reaches no bus. *)
Lemma probe_init_write (client : platform) :
  regmap_multi_reg_write cs5368_reg_init
    (regcache_cache_only true
       {| priv := {| mclk_freq := 0; tdm := false |};
          rmap := RegisterStore.init cs5368;
          plat := client |})
  = (0, {| priv := {| mclk_freq := 0; tdm := false |};
           rmap := rmap attached;
           plat := emit (EvCacheOnly true) client |}).
Proof. reflexivity. Qed.

(** X8.  The probe fails with [-ENOMEM] when the allocation fails, and
    otherwise with the first answer that is not 0 among regmap
    creation, regulator lookup, reset line request, runtime PM enable
    and component registration, in that order; writing the
    initialisation sequence never fails it; and a device is left
    exactly when it returns 0. *)
Theorem probe_error_precedence (env : probe_env) (client : platform) :
  fst (cs5368_i2c_probe env client)
  = (if kzalloc_fails env then - ENOMEM else first_error (probe_rcs env)) /\
  (is_Some (snd (cs5368_i2c_probe env client)) <->
   fst (cs5368_i2c_probe env client) = 0).
Proof.
  unfold cs5368_i2c_probe, probe_rcs.
  destruct (kzalloc_fails env).
  { cbn. split; [ reflexivity |]. split; [ intros [? [=]] | discriminate ]. }
  cbn [first_error].
  destruct (Z.eqb_spec (regmap_init_rc env) 0) as [E1|E1]; cbn [negb].
  2:{ cbn. split; [ reflexivity |].
      split; [ intros [? [=]] | contradiction ]. }
  rewrite probe_init_write. cbn [negb Z.eqb].
  destruct (Z.eqb_spec (regulator_bulk_get_rc env) 0) as [E2|E2]; cbn [negb].
  2:{ cbn. split; [ reflexivity |].
      split; [ intros [? [=]] | contradiction ]. }
  destruct (Z.eqb_spec (gpiod_get_rc env) 0) as [E3|E3]; cbn [negb].
  2:{ cbn. split; [ reflexivity |].
      split; [ intros [? [=]] | contradiction ]. }
  destruct (Z.eqb_spec (pm_runtime_enable_rc env) 0) as [E4|E4]; cbn [negb].
  2:{ cbn. split; [ reflexivity |].
      split; [ intros [? [=]] | contradiction ]. }
  destruct (Z.eqb_spec (register_component_rc env) 0) as [E5|E5].
  - cbn. split; [ reflexivity |]. split; [ reflexivity | eauto ].
  - cbn. split; [ reflexivity |].
    split; [ intros [? [=]] | contradiction ].
Qed.

(** X9.  A probe that succeeds has transmitted nothing: the device
    registers and the pending bus answers are the client's, the only
    recorded request is bypass on.  It leaves the reset line asserted,
    bypass set, no master clock latched, [tdm] clear, and a shadow that
    is the default table without the volatile register, overridden by
    the initialisation sequence. *)
Theorem probe_success_state
  (env : probe_env) (client : platform) (rc : Z) (d : device) :
  cs5368_i2c_probe env client = (rc, Some d) ->
  rc = 0 /\
  priv d = {| mclk_freq := 0; tdm := false |} /\
  cache_only (rmap d) = true /\
  cache (rmap d)
  = list_to_map cs5368_reg_init ∪ default_cache cs5368_regmap_config /\
  cache (rmap d) !! REG_OVFL = None /\
  hw_regs (plat d) = hw_regs client /\
  bus_script (plat d) = bus_script client /\
  history (plat d) = history client ++ [EvCacheOnly true] /\
  reset_asserted (plat d) = true /\
  supplies_enabled (plat d) = supplies_enabled client.
Proof.
  intros Hp. destruct (probe_priv env client rc d Hp) as [Hrc Hpriv].
  destruct (probe_store env client rc d Hp) as [Hm Hplat].
  rewrite Hm, Hplat.
  split; [ exact Hrc |]. split; [ exact Hpriv |].
  split; [ reflexivity |].
  split; [ vm_compute; reflexivity |].
  repeat (split; [ reflexivity |]). reflexivity.
Qed.

Lemma probe_success_state_witness :
  exists d,
    cs5368_i2c_probe kernel_ok chip_at_reset = (0, Some d) /\
    hw_regs (plat d) = hw_regs chip_at_reset /\
    cache (rmap d) !! REG_GCTL = Some 0x8B.
Proof.
  eexists. split; [ vm_compute; reflexivity |].
  match goal with
  | |- hw_regs (plat ?d) = _ /\ _ =>
    destruct (probe_success_state kernel_ok chip_at_reset 0 d)
      as (_ & _ & _ & Hc & _ & Hh & _); [ vm_compute; reflexivity |]
  end.
  split; [ exact Hh |]. rewrite Hc. reflexivity.
Defined.

(** ** Resume: the replay and its failures *)

Lemma bus_write_history (flag reg val rc : Z) (p p' : platform) :
  Bus.i2c_write flag reg val p = (rc, p') ->
  history p' = history p ++ [EvBusWrite (Z.lor reg flag) val rc].
Proof.
  rewrite bus_write_spec. cbn zeta. intros [= <- <-].
  assert (Hh : history (snd (Bus.next_rc p)) = history p).
  { unfold Bus.next_rc. now destruct (bus_script p). }
  destruct (fst (Bus.next_rc p) =? 0); cbn; now rewrite Hh.
Qed.

(** A resync that succeeds has made exactly the transfers of
    [replay_event], in the order of the addresses it walked. *)
Lemma resync_from_history (regs : list Z) (m : regmap) :
  forall p p',
    resync_from cs5368 regs m p = (Ok tt, p') ->
    history p' = history p ++ omap (replay_event (cache m)) regs.
Proof.
  induction regs as [|a regs IH]; intros p p' Hrun.
  - injection Hrun as <-. cbn. now rewrite app_nil_r.
  - cbn [resync_from] in Hrun. cbn [omap list_omap]. unfold replay_event at 1.
    destruct (syncable cs5368 a); [| now apply IH ].
    destruct (cache m !! a) as [v|]; cbn [fmap option_fmap option_map];
      [| now apply IH ].
    destruct (Bus.i2c_write (write_flag_mask cs5368) a v p) as [rc p1] eqn:Hb.
    destruct (Z.eqb_spec rc 0) as [->|Hne]; [| discriminate ].
    rewrite (IH p1 p' Hrun), (bus_write_history _ _ _ _ _ _ Hb).
    now rewrite <- app_assoc.
Qed.

(** A resync that fails stops at the transfer that failed. *)
Lemma resync_from_failure (regs : list Z) (m : regmap) :
  forall p e p',
    resync_from cs5368 regs m p = (Err e, p') ->
    exists rc reg v,
      e = Transport rc /\ rc <> 0 /\
      syncable cs5368 reg = true /\ cache m !! reg = Some v /\
      last (history p') = Some (EvBusWrite (Z.lor reg 0x80) v rc).
Proof.
  induction regs as [|a regs IH]; intros p e p' Hrun; [ discriminate |].
  cbn [resync_from] in Hrun.
  destruct (syncable cs5368 a) eqn:Hs; [| now apply (IH p e p') ].
  destruct (cache m !! a) as [v|] eqn:Hv; [| now apply (IH p e p') ].
  destruct (Bus.i2c_write (write_flag_mask cs5368) a v p) as [rc p1] eqn:Hb.
  destruct (Z.eqb_spec rc 0) as [->|Hne]; [ now apply (IH p1 e p') |].
  injection Hrun as <- <-. exists rc, a, v.
  repeat (split; [ assumption || reflexivity |]).
  rewrite (bus_write_history _ _ _ _ _ _ Hb). apply last_snoc.
Qed.

(** X10.  A resume that succeeds has asked, in this order and nothing
    else: supplies on, reset released, bypass off, shadow marked dirty,
    and then one bus write per shadowed register in ascending address
    order, leaving out the revision, the reserved and the volatile
    addresses; afterwards the device is Active and the shadow clean. *)
Theorem resume_sequence (enable_rc : Z) (d d1 : device) :
  cs5368_pm_runtime_resume enable_rc d = (0, d1) ->
  history (plat d1)
  = history (plat d)
      ++ [EvBulkEnable 0; EvResetGpio false; EvCacheOnly false; EvMarkDirty]
      ++ omap (replay_event (cache (rmap d))) (seqZ 0 11) /\
  power_state_of d1 = Active /\
  cache_only (rmap d1) = false /\
  cache_dirty (rmap d1) = false.
Proof.
  intros Hrun. unfold cs5368_pm_runtime_resume, regulator_bulk_enable in Hrun.
  destruct (Z.eqb_spec enable_rc 0) as [->|Hne]; cbn [negb] in Hrun;
    [| injection Hrun as H0 _; contradiction ].
  unfold regcache_sync, resync in Hrun.
  match type of Hrun with
  | context [resync_from ?c ?l ?m ?p] =>
    pose proof (resync_from_supplies c l m p) as Hsup;
    destruct (resync_from c l m p) as [[[]|e] p'] eqn:Hsync
  end.
  - cbn in Hrun. injection Hrun as <-. cbn [snd] in Hsup.
    destruct Hsup as [Hs1 Hs2].
    apply resync_from_history in Hsync.
    split; [| split; [| split; reflexivity ] ].
    + cbn [plat with_store snd]. rewrite Hsync. cbn -[app seqZ omap].
      now rewrite <- !app_assoc.
    + unfold power_state_of. cbn [plat with_store snd].
      now rewrite Hs1, Hs2.
  - apply resync_from_error in Hsync as (rc & -> & Hrc).
    cbn [errno] in Hrun. destruct (Z.eqb_spec rc 0); [ contradiction |].
    cbn [negb] in Hrun. injection Hrun as H0 _. contradiction.
Qed.

Lemma resume_sequence_witness :
  exists d1,
    cs5368_pm_runtime_resume 0 attached_chip = (0, d1) /\
    history (plat d1)
    = [ EvCacheOnly true;
        EvBulkEnable 0; EvResetGpio false; EvCacheOnly false; EvMarkDirty;
        EvBusWrite 0x81 0x8B 0; EvBusWrite 0x83 0x00 0;
        EvBusWrite 0x84 0x00 0; EvBusWrite 0x86 0x00 0;
        EvBusWrite 0x88 0x00 0; EvBusWrite 0x8A 0x0A 0 ].
Proof.
  eexists. split; [ vm_compute; reflexivity |].
  match goal with
  | |- history (plat ?d1) = _ =>
    destruct (resume_sequence 0 attached_chip d1) as [Hh _];
      [ vm_compute; reflexivity |]
  end.
  rewrite Hh. vm_compute. reflexivity.
Defined.

(** X11.  A resume that fails does not undo what it did.  When the
    supplies could not be enabled it returns their error having done
    nothing else: reset line, bypass, shadow and bus are untouched.
    When the replay fails it returns the error of the bus write that
    failed and stops there, with the rails on, the reset released,
    bypass off and the shadow, unchanged, still marked dirty. *)
Theorem resume_failure_modes (enable_rc rc : Z) (d d' : device) :
  cs5368_pm_runtime_resume enable_rc d = (rc, d') ->
  rc <> 0 ->
  priv d' = priv d /\
  cache (rmap d') = cache (rmap d) /\
  ((enable_rc <> 0 /\ rc = enable_rc /\
    d' = with_plat d (emit (EvBulkEnable enable_rc) (plat d)))
   \/
   (enable_rc = 0 /\
    supplies_enabled (plat d') = true /\
    reset_asserted (plat d') = false /\
    cache_only (rmap d') = false /\
    cache_dirty (rmap d') = true /\
    exists reg v,
      syncable cs5368 reg = true /\
      cache (rmap d) !! reg = Some v /\
      last (history (plat d')) = Some (EvBusWrite (Z.lor reg 0x80) v rc))).
Proof.
  intros Hrun Hrc.
  split; [ rewrite <- (resume_priv enable_rc d), Hrun; reflexivity |].
  split; [ rewrite <- (resume_cache enable_rc d), Hrun; reflexivity |].
  unfold cs5368_pm_runtime_resume, regulator_bulk_enable in Hrun.
  destruct (Z.eqb_spec enable_rc 0) as [->|Hne]; cbn [negb] in Hrun.
  2:{ left. injection Hrun as <- <-. now repeat split. }
  right. split; [ reflexivity |].
  unfold regcache_sync, resync in Hrun.
  match type of Hrun with
  | context [resync_from ?c ?l ?m ?p] =>
    pose proof (resync_from_supplies c l m p) as Hsup;
    destruct (resync_from c l m p) as [[[]|e] p'] eqn:Hsync
  end.
  - cbn in Hrun. injection Hrun as H0 _. congruence.
  - cbn [snd] in Hsup. destruct Hsup as [Hs1 Hs2].
    apply resync_from_failure in Hsync
      as (brc & reg & v & -> & Hbrc & Hs & Hv & Hlast).
    cbn [errno] in Hrun. destruct (Z.eqb_spec brc 0); [ contradiction |].
    cbn [negb] in Hrun. injection Hrun as <- <-.
    cbn [plat rmap with_store fst snd].
    repeat (split; [ assumption || reflexivity |]).
    exists reg, v. repeat split; assumption.
Qed.

Lemma resume_failure_modes_witness :
  exists d',
    cs5368_pm_runtime_resume 0
      (with_plat attached_chip (set_bus_script [0; - EIO] (plat attached_chip)))
    = (- EIO, d') /\
    supplies_enabled (plat d') = true /\
    hw_regs (plat d') !! REG_GCTL = Some 0x8B /\
    hw_regs (plat d') !! REG_SDEN = Some 0x00.
Proof.
  eexists. split; [ vm_compute; reflexivity |].
  match goal with
  | |- supplies_enabled (plat ?d') = true /\ _ =>
    destruct (resume_failure_modes 0 (- EIO)
                (with_plat attached_chip
                   (set_bus_script [0; - EIO] (plat attached_chip))) d')
      as (_ & _ & [(H0 & _)|(_ & Hs & _)]);
      [ vm_compute; reflexivity | discriminate | contradiction |]
  end.
  split; [ exact Hs |]. split; vm_compute; reflexivity.
Defined.

(** ** Power state of reachable devices *)

Lemma run_power_consistent (cs : list call) (d d' : device) :
  run cs d = Some d' -> power_consistent d -> power_consistent d'.
Proof.
  revert d. induction cs as [|c cs IH]; intros d Hrun Hd.
  - now injection Hrun as <-.
  - cbn [run] in Hrun.
    destruct (invoke c d) as [[rc d1]|] eqn:Hi; [| discriminate ].
    exact (IH d1 Hrun (invoke_power_consistent c rc d d1 Hi Hd)).
Qed.

(** X12.  On every device the host can reach from an attach, whatever
    calls came and whichever failed, the bypass flag mirrors the reset
    line and the device is Active exactly when bypass is off: register
    writes reach the bus only on a device that is powered and out of
    reset. *)
Theorem active_iff_bypass_off
  (env : probe_env) (client : platform) (cs : list call) (d : device) :
  attach_then env client cs = Some d ->
  cache_only (rmap d) = reset_asserted (plat d) /\
  (power_state_of d = Active <-> cache_only (rmap d) = false).
Proof.
  intros Hreach. unfold attach_then in Hreach.
  destruct (cs5368_i2c_probe env client) as [rc0 [d0|]] eqn:Hp;
    [| discriminate ].
  apply probe_store in Hp as [Hm0 Hp0].
  assert (H0 : power_consistent d0).
  { unfold power_consistent. rewrite Hm0, Hp0. split; reflexivity. }
  destruct (run_power_consistent cs d0 d Hreach H0) as [Hco Hoff].
  split; [ exact Hco |]. unfold power_state_of. rewrite Hco.
  destruct (supplies_enabled (plat d)), (reset_asserted (plat d));
    cbn [negb]; split; intros H; try discriminate; try reflexivity.
  specialize (Hoff eq_refl). discriminate.
Qed.

Lemma active_iff_bypass_off_witness :
  exists d,
    attach_then kernel_ok chip_at_reset relatching_calls = Some d /\
    power_state_of d = Active /\
    cache_only (rmap d) = false.
Proof.
  eexists. split; [ vm_compute; reflexivity |].
  match goal with
  | |- power_state_of ?d = Active /\ _ =>
    destruct (active_iff_bypass_off kernel_ok chip_at_reset relatching_calls d)
      as [_ Hiff]; [ vm_compute; reflexivity |]
  end.
  split; [ apply Hiff; vm_compute; reflexivity | vm_compute; reflexivity ].
Defined.

(** ** Register fields of the controls *)

Lemma fields_wellformed (c : soc_mixer_control) :
  c ∈ cs5368_fields ->
  syncable cs5368 (kc_reg c) = true /\
  writeable cs5368 (kc_reg c) = true /\
  volatile cs5368 (kc_reg c) = false /\
  kc_max c = 1 /\ 0 <= kc_shift c < 8 /\ kc_invert c = 1.
Proof.
  intros Hin. apply list_elem_of_In in Hin.
  assert (Hall : forallb
            (fun c => syncable cs5368 (kc_reg c)
                      && writeable cs5368 (kc_reg c)
                      && negb (volatile cs5368 (kc_reg c))
                      && (kc_max c =? 1)
                      && (0 <=? kc_shift c) && (kc_shift c <? 8)
                      && (kc_invert c =? 1)) cs5368_fields = true)
    by (vm_compute; reflexivity).
  rewrite forallb_forall in Hall. specialize (Hall c Hin).
  do 6 (apply andb_true_iff in Hall as [Hall ?]).
  repeat split; try assumption;
    try (now apply negb_true_iff); try (now apply Z.eqb_eq);
    try (now apply Z.leb_le); now apply Z.ltb_lt.
Qed.

(** X13.  The register fields the tables declare (eight high-pass
    switches in 0x04, eight mute switches in 0x08, four converter power
    bits in 0x06) are single inverted bits of writable, cached
    registers, no two of them the same bit, and together they are all
    of 0x04 and 0x08 and the low four bits of 0x06. *)
Theorem control_fields_partition :
  (forall c, c ∈ cs5368_fields ->
     syncable cs5368 (kc_reg c) = true /\
     kc_max c = 1 /\ 0 <= kc_shift c < 8 /\ kc_invert c = 1) /\
  NoDup (map (fun c => (kc_reg c, kc_shift c)) cs5368_fields) /\
  foldr Z.lor 0 (map kcontrol_mask cs5368_snd_controls) = 0xFF /\
  foldr Z.lor 0 (map kcontrol_mask cs5368_mute_controls) = 0xFF /\
  foldr Z.lor 0 (map kcontrol_mask
                   (omap dapm_power_control cs5368_dapm_widgets)) = 0x0F /\
  map kc_reg cs5368_snd_controls = replicate 8 REG_HPF /\
  map kc_reg cs5368_mute_controls = replicate 8 REG_MUTE /\
  map kc_reg (omap dapm_power_control cs5368_dapm_widgets)
  = replicate 4 REG_PDN.
Proof.
  split.
  { intros c Hin. destruct (fields_wellformed c Hin) as (? & _ & _ & ?).
    now split. }
  split.
  { apply (bool_decide_unpack _). vm_compute. reflexivity. }
  repeat split; reflexivity.
Qed.

Lemma land_shiftr_bit (x s : Z) :
  0 <= s -> Z.land (Z.shiftr x s) 1 = Z.b2z (Z.testbit x s).
Proof.
  intros Hs. change 1 with (Z.ones 1) at 1.
  rewrite Z.land_ones by lia. change (2 ^ 1) with 2.
  rewrite <- Z.bit0_mod, Z.shiftr_spec by lia. reflexivity.
Qed.

Lemma bit_mask_testbit (s i : Z) :
  0 <= s -> Z.testbit (Z.shiftl 1 s) i = (i =? s).
Proof.
  intros Hs. destruct (Z.lt_ge_cases i 0) as [Hneg|Hi].
  - rewrite Z.testbit_neg_r by lia. destruct (Z.eqb_spec i s); [ lia | easy ].
  - rewrite Z.shiftl_spec by lia.
    destruct (Z.eqb_spec i s) as [->|Hne].
    + now rewrite Z.sub_diag.
    + destruct (Z.lt_ge_cases (i - s) 0) as [Hlt|Hge].
      * now apply Z.testbit_neg_r.
      * apply Z.bits_above_log2; [ lia |]. cbn. lia.
Qed.

(** The masked write of a cached, writable register with bypass set:
    the shadow takes the new value and nothing is transmitted. *)
Lemma update_bits_bypass (reg mask val old : Z) (d : device) :
  writeable cs5368 reg = true ->
  volatile cs5368 reg = false ->
  cache (rmap d) !! reg = Some old ->
  cache_only (rmap d) = true ->
  regmap_update_bits reg mask val d
  = (0, with_store d
          (set_cache_dirty true
             (set_cache (<[reg := masked_update old mask val]>
                           (cache (rmap d))) (rmap d)),
           plat d)).
Proof.
  intros Hw Hv Hc Hco. unfold regmap_update_bits, write_masked.
  rewrite (read_cached cs5368 reg old)
    by (try apply writeable_readable; assumption).
  rewrite write_bypass by assumption.
  unfold shadow_store. now rewrite Hv.
Qed.

(** X14.  Toggling one declared field with bypass set transmits
    nothing, sets that field in the shadow, and leaves every other bit
    of the register, hence every other declared field, and every other
    register as they were: the switches are independent. *)
Theorem control_update_independent
  (c : soc_mixer_control) (field old : Z) (d : device) :
  c ∈ cs5368_fields ->
  field = 0 \/ field = 1 ->
  cache (rmap d) !! kc_reg c = Some old ->
  cache_only (rmap d) = true ->
  exists d' new,
    kcontrol_update c field d = (0, d') /\
    plat d' = plat d /\ priv d' = priv d /\
    cache (rmap d') !! kc_reg c = Some new /\
    kcontrol_field c new = field /\
    (forall i, i <> kc_shift c -> Z.testbit new i = Z.testbit old i) /\
    (forall c', c' ∈ cs5368_fields -> kc_shift c' <> kc_shift c ->
                kcontrol_field c' new = kcontrol_field c' old) /\
    (forall reg, reg <> kc_reg c ->
                 cache (rmap d') !! reg = cache (rmap d) !! reg).
Proof.
  intros Hin Hf Hc Hco.
  destruct (fields_wellformed c Hin) as (_ & Hw & Hv & Hmax & Hs & _).
  unfold kcontrol_update.
  rewrite (update_bits_bypass _ _ _ old d Hw Hv Hc Hco).
  eexists _, _. split; [ reflexivity |].
  split; [ reflexivity |]. split; [ reflexivity |].
  split; [ cbn; apply lookup_insert_eq |].
  assert (Hout : forall i, i <> kc_shift c ->
            Z.testbit (masked_update old (kcontrol_mask c)
                         (Z.shiftl field (kc_shift c))) i
            = Z.testbit old i).
  { intros i Hi. apply masked_update_outside. unfold kcontrol_mask.
    rewrite Hmax, bit_mask_testbit by lia.
    destruct (Z.eqb_spec i (kc_shift c)); [ contradiction | reflexivity ]. }
  split.
  { unfold kcontrol_field. rewrite Hmax, land_shiftr_bit by lia.
    unfold masked_update, kcontrol_mask.
    rewrite Z.lor_spec, !Z.land_spec, Z.lnot_spec by lia.
    rewrite Hmax, bit_mask_testbit, Z.eqb_refl by lia.
    rewrite Z.shiftl_spec, Z.sub_diag by lia.
    rewrite andb_false_r, andb_true_r, orb_false_l.
    destruct Hf as [->| ->]; reflexivity. }
  split; [ exact Hout |].
  split.
  { intros c' Hin' Hne.
    destruct (fields_wellformed c' Hin') as (_ & _ & _ & Hmax' & Hs' & _).
    unfold kcontrol_field. rewrite Hmax', !land_shiftr_bit by lia.
    now rewrite Hout. }
  intros reg Hne. cbn. now rewrite lookup_insert_ne by congruence.
Qed.

Lemma control_update_independent_witness :
  exists d' new,
    kcontrol_update cs5368_snd_controls_mute_ain3 1 attached = (0, d') /\
    cache (rmap d') !! REG_MUTE = Some new /\
    kcontrol_field cs5368_snd_controls_mute_ain3 new = 1 /\
    kcontrol_field cs5368_snd_controls_mute_ain4 new = 0.
Proof.
  assert (Hin : cs5368_snd_controls_mute_ain3 ∈ cs5368_fields).
  { apply list_elem_of_In. vm_compute. tauto. }
  assert (Hin' : cs5368_snd_controls_mute_ain4 ∈ cs5368_fields).
  { apply list_elem_of_In. vm_compute. tauto. }
  destruct (control_update_independent cs5368_snd_controls_mute_ain3 1 0x00
              attached Hin (or_intror eq_refl) eq_refl eq_refl)
    as (d' & new & Hrun & _ & _ & Hnew & Hfield & _ & Hothers & _).
  exists d', new. split; [ exact Hrun |]. split; [ exact Hnew |].
  split; [ exact Hfield |].
  rewrite (Hothers _ Hin'); [ reflexivity | discriminate ].
Defined.

(** ** The register tables agree with each other *)

Lemma readable_addresses (reg : Z) :
  readable cs5368 reg = true <-> reg ∈ map fst cs5368_reg_defaults.
Proof.
  split.
  - intros H. unfold readable in H. apply andb_true_iff in H as [Hs Ht].
    unfold in_address_space in Hs. apply andb_true_iff in Hs as [Hlo Hhi].
    apply Z.leb_le in Hlo, Hhi. change (max_register cs5368) with 10 in Hhi.
    assert (Hin : reg ∈ seqZ 0 11) by (apply elem_of_seqZ; lia).
    vm_compute seqZ in Hin.
    each_member Hin; try discriminate Ht;
      apply list_elem_of_In; vm_compute; tauto.
  - intros Hin. vm_compute in Hin. each_member Hin; reflexivity.
Qed.

(** X15.  The tables fit together: the default table has exactly one
    entry for each readable address, so the shadow built from it
    answers every cached read; every writable address is readable and
    is not the revision register; the initialisation sequence writes
    each of its registers once, all of them writable and cached, so it
    cannot fail with bypass set and is replayed in full by a resync;
    and every value of the two tables is a byte. *)
Theorem register_tables_consistent :
  (forall reg, readable cs5368 reg = true <->
               reg ∈ map fst cs5368_reg_defaults) /\
  NoDup (map fst cs5368_reg_defaults) /\
  (forall reg, writeable cs5368 reg = true ->
               readable cs5368 reg = true /\ reg <> REG_REVI) /\
  (forall reg, volatile cs5368 reg = true -> readable cs5368 reg = true) /\
  NoDup (map fst cs5368_reg_init) /\
  Forall (fun rv => syncable cs5368 (fst rv) = true) cs5368_reg_init /\
  Forall (fun rv => 0 <= snd rv < 2 ^ val_bits cs5368)
         (cs5368_reg_init ++ cs5368_reg_defaults).
Proof.
  split; [ exact readable_addresses |].
  split; [ apply (bool_decide_unpack _); vm_compute; reflexivity |].
  split.
  { intros reg Hw. split; [ now apply writeable_readable |].
    intros ->. discriminate Hw. }
  split.
  { intros reg Hv. apply volatile_addresses in Hv as ->. reflexivity. }
  split; [ apply (bool_decide_unpack _); vm_compute; reflexivity |].
  split; repeat constructor; vm_compute; congruence.
Qed.

(** ** Routing graph *)

(** X16.  The routing tables are closed and layered: widget names are
    distinct, every route joins declared widgets, and each TDM output of
    slot k is fed through exactly one mute switch, the one whose control
    is bit k of the mute register, by exactly one converter, the one
    powered by bit k/2 of the power-down register, which takes two
    analog inputs; nothing else lies upstream of it. *)
Theorem routing_graph_layers :
  NoDup widget_names /\
  Forall (fun r => r_sink r ∈ widget_names /\ r_source r ∈ widget_names)
         cs5368_dapm_routes /\
  forall w slot,
    w ∈ cs5368_dapm_widgets ->
    w_kind w = DapmAifOut slot ->
    exists sw adc in1 in2 ctl,
      upstream 3 (w_name w) = [w_name w; sw; adc; in1; in2] /\
      sources_of in1 = [] /\ sources_of in2 = [] /\
      widget_kind_of sw = Some (DapmSwitch ctl) /\
      kc_reg ctl = REG_MUTE /\ kc_shift ctl = slot /\
      widget_kind_of adc = Some DapmAdc /\
      widget_power_of adc = Some (REG_PDN, slot / 2, 1) /\
      widget_kind_of in1 = Some DapmInput /\
      widget_kind_of in2 = Some DapmInput.
Proof.
  split; [ apply (bool_decide_unpack _); vm_compute; reflexivity |].
  split.
  { repeat constructor; apply list_elem_of_In; vm_compute; tauto. }
  intros w slot Hin Hkind. unfold cs5368_dapm_widgets in Hin.
  each_member Hin; try discriminate Hkind;
    injection Hkind as <-; eexists _, _, _, _, _;
    (split; [ vm_compute; reflexivity |]);
    repeat split; vm_compute; reflexivity.
Qed.

(** ** The [tdm] flag is only recorded *)

Lemma regmap_update_bits_with_priv (reg mask val : Z) (v : cs5368_priv)
  (d : device) :
  regmap_update_bits reg mask val (with_priv d v)
  = (fst (regmap_update_bits reg mask val d),
     with_priv (snd (regmap_update_bits reg mask val d)) v).
Proof.
  unfold regmap_update_bits. cbn [rmap plat with_priv].
  now destruct (write_masked _ reg mask val (rmap d) (plat d)) as [[r m] p].
Qed.

Lemma regcache_sync_with_priv (v : cs5368_priv) (d : device) :
  regcache_sync (with_priv d v)
  = (fst (regcache_sync d), with_priv (snd (regcache_sync d)) v).
Proof.
  unfold regcache_sync. cbn [rmap plat with_priv].
  now destruct (resync _ (rmap d) (plat d)) as [[r m] p].
Qed.

(** X17.  No call reads [tdm]: on two devices that differ in that flag
    alone every call traps or not alike, returns the same code and
    leaves the same register store, platform and latched clock; what
    [set_tdm_slot] records has no effect within the driver. *)
Theorem tdm_never_read (c : call) (b : bool) (d : device) :
  match invoke c d, invoke c (with_priv d (set_tdm b (priv d))) with
  | Some (rc, d1), Some (rc', d1') =>
    rc' = rc /\ rmap d1' = rmap d1 /\ plat d1' = plat d1 /\
    mclk_freq (priv d1') = mclk_freq (priv d1)
  | None, None => True
  | _, _ => False
  end.
Proof.
  destruct c as [rate|fmt|tx rx slots width|clk_id source freq dir|drc|erc];
    cbn [invoke].
  - unfold cs5368_dai_hw_params. cbn [priv with_priv mclk_freq set_tdm].
    destruct (mclk_div_of _ _) as [mclk_div|]; [| exact I ].
    cbn [mbind option_bind].
    destruct (mdiv_of mclk_div) as [mdiv|]; [| now repeat split ].
    rewrite regmap_update_bits_with_priv.
    pose proof (regmap_update_bits_priv REG_GCTL REG_GCTL_MDIV_MASK
                  (Z.shiftl mdiv 4) d) as Hp.
    destruct (regmap_update_bits _ _ _ d) as [rc0 d0]. cbn [fst snd] in *.
    destruct (negb (rc0 =? 0)); cbn; rewrite Hp; now repeat split.
  - unfold cs5368_dai_set_fmt.
    repeat match goal with
           | |- context [if ?x then _ else _] => destruct x
           end; now repeat split.
  - unfold cs5368_dai_set_tdm_slot.
    repeat match goal with
           | |- context [if ?x then _ else _] => destruct x
           end; now repeat split.
  - unfold cs5368_codec_set_sysclk.
    destruct (negb (dir =? SND_SOC_CLOCK_IN)); now repeat split.
  - unfold cs5368_pm_runtime_suspend, regulator_bulk_disable.
    destruct (negb (drc =? 0)); now repeat split.
  - unfold cs5368_pm_runtime_resume, regulator_bulk_enable.
    destruct (negb (erc =? 0)); [ now repeat split |].
    change (regcache_mark_dirty
              (regcache_cache_only false
                 (gpiod_set_value_cansleep false
                    (with_plat (with_priv d (set_tdm b (priv d)))
                       (if erc =? 0
                        then set_supplies true
                               (emit (EvBulkEnable erc)
                                  (plat (with_priv d (set_tdm b (priv d)))))
                        else emit (EvBulkEnable erc)
                               (plat (with_priv d (set_tdm b (priv d)))))))))
      with (with_priv
              (regcache_mark_dirty
                 (regcache_cache_only false
                    (gpiod_set_value_cansleep false
                       (with_plat d
                          (if erc =? 0
                           then set_supplies true
                                  (emit (EvBulkEnable erc) (plat d))
                           else emit (EvBulkEnable erc) (plat d))))))
              (set_tdm b (priv d))).
    rewrite regcache_sync_with_priv.
    match goal with
    | |- context [regcache_sync ?x] =>
      pose proof (regcache_sync_priv x) as Hp;
      destruct (regcache_sync x) as [rc' d5]
    end.
    cbn [fst snd] in *. destruct (negb (rc' =? 0)); cbn; rewrite ?Hp;
      now repeat split.
Qed.

(** ** Instances *)

Lemma hw_params_traps_iff_witness :
  cs5368_dai_hw_params 0 clocked = None /\
  cs5368_dai_hw_params UINT_MOD clocked = None.
Proof.
  split.
  - apply (hw_params_traps_iff 0 clocked). reflexivity.
  - apply (hw_params_traps_iff UINT_MOD clocked). reflexivity.
Defined.

Lemma probe_error_precedence_witness :
  fst (cs5368_i2c_probe
         {| kzalloc_fails := false;
            regmap_init_rc := 0;
            regulator_bulk_get_rc := - EIO;
            gpiod_get_rc := - EINVAL;
            pm_runtime_enable_rc := 0;
            register_component_rc := 0 |} bare_client)
  = - EIO.
Proof.
  match goal with
  | |- fst (cs5368_i2c_probe ?env ?client) = _ =>
    destruct (probe_error_precedence env client) as [Hrc _]
  end.
  rewrite Hrc. reflexivity.
Defined.

Lemma control_fields_partition_witness :
  syncable cs5368 (kc_reg cs5368_snd_controls_mute_ain8) = true /\
  kc_shift cs5368_snd_controls_mute_ain8 = 7.
Proof.
  destruct control_fields_partition as (Hall & _).
  destruct (Hall cs5368_snd_controls_mute_ain8) as (Hs & _).
  { apply list_elem_of_In. vm_compute. tauto. }
  split; [ exact Hs | reflexivity ].
Defined.

Lemma register_tables_consistent_witness :
  readable cs5368 REG_REVI = true /\ readable cs5368 REG_RSVD2 = false.
Proof.
  destruct register_tables_consistent as (Hread & _).
  split.
  - apply Hread. apply list_elem_of_In. vm_compute. tauto.
  - destruct (readable cs5368 REG_RSVD2) eqn:H; [| reflexivity ].
    apply Hread in H. apply list_elem_of_In in H. vm_compute in H.
    intuition discriminate.
Defined.

Lemma routing_graph_layers_witness :
  exists sw adc in1 in2,
    upstream 3 "TDM6" = ["TDM6"; sw; adc; in1; in2] /\
    widget_power_of adc = Some (REG_PDN, 2, 1).
Proof.
  destruct routing_graph_layers as (_ & _ & Hpaths).
  destruct (Hpaths (SND_SOC_DAPM_AIF_OUT "TDM6" 5) 5)
    as (sw & adc & in1 & in2 & ctl & Hup & _ & _ & _ & _ & _ & _ & Hpow & _).
  { apply list_elem_of_In. vm_compute. tauto. }
  { reflexivity. }
  exists sw, adc, in1, in2. split; [ exact Hup | exact Hpow ].
Defined.

Lemma tdm_never_read_witness :
  fst <$> cs5368_dai_hw_params 96000
            (with_priv clocked (set_tdm true (priv clocked)))
  = fst <$> cs5368_dai_hw_params 96000 clocked.
Proof.
  pose proof (tdm_never_read (HwParams 96000) true clocked) as H.
  cbn [invoke] in H.
  destruct (cs5368_dai_hw_params 96000 clocked) as [[rc d1]|],
           (cs5368_dai_hw_params 96000
              (with_priv clocked (set_tdm true (priv clocked))))
             as [[rc' d1']|]; try contradiction; [| reflexivity ].
  destruct H as [-> _]. reflexivity.
Defined.

(** ** Power cycle: what a resume replays *)

Lemma mdiv_of_values (raw code : Z) :
  mdiv_of raw = Some code -> code = 0 \/ code = 1 \/ code = 3.
Proof.
  unfold mdiv_of.
  destruct (raw =? 4); [ intros [= <-]; lia |].
  destruct (raw =? 2); [ intros [= <-]; lia |].
  destruct (raw =? 1); [ intros [= <-]; lia | discriminate ].
Qed.

(** Every code a run accepted is one of the three of the divider
    table. *)
Lemma accepted_codes_values (cs : list call) (d : device) :
  Forall (fun code => code = 0 \/ code = 1 \/ code = 3) (accepted_codes cs d).
Proof.
  revert d. induction cs as [|c cs IH]; intros d; [ constructor |].
  cbn [accepted_codes].
  destruct (invoke c d) as [[rc d1]|]; [| constructor ].
  destruct c; try apply IH.
  destruct (rc =? 0); [| apply IH ].
  destruct (mclk_div_of _ _ ≫= mdiv_of) as [code|] eqn:Hcode; [| apply IH ].
  constructor; [| apply IH ].
  apply bind_Some in Hcode as (raw & _ & Hraw).
  exact (mdiv_of_values raw code Hraw).
Qed.

(** A run without stream configurations accepted none. *)
Lemma accepted_codes_no_stream_config (cs : list call) (d : device) :
  forallb (fun c => negb (is_stream_config c)) cs = true ->
  accepted_codes cs d = [].
Proof.
  revert d. induction cs as [|c cs IH]; intros d Hall; [ reflexivity |].
  cbn [forallb] in Hall. apply andb_true_iff in Hall as [Hc Hcs].
  cbn [accepted_codes].
  destruct (invoke c d) as [[rc d1]|]; [| reflexivity ].
  destruct c; try exact (IH d1 Hcs). discriminate Hc.
Qed.

(** A power cycle without a stream configuration replays 0x8B. *)
Example power_cycle_replays_reset_value :
  attach_accepted_codes kernel_ok chip_at_reset power_cycle_calls = [] /\
  replayed_gctl
    (attach_accepted_codes kernel_ok chip_at_reset power_cycle_calls) = 0x8B.
Proof. split; vm_compute; reflexivity. Qed.

(** The shadow of global control after one stream configuration: the
    old value with the new code when the call returned 0, the old value
    otherwise. *)
Lemma hw_params_gctl_step (rate rc g : Z) (d d' : device) :
  cs5368_dai_hw_params rate d = Some (rc, d') ->
  cache (rmap d) !! REG_GCTL = Some g ->
  cache (rmap d') !! REG_GCTL
  = Some (if rc =? 0
          then match mclk_div_of (mclk_freq (priv d)) (to_int rate)
                     ≫= mdiv_of with
               | Some code => gctl_with_mdiv g code
               | None => g
               end
          else g).
Proof.
  intros Hrun Hg. unfold cs5368_dai_hw_params in Hrun.
  destruct (mclk_div_of _ _) as [mclk_div|]; [| discriminate ].
  cbn [mbind option_bind] in Hrun |- *.
  destruct (mdiv_of mclk_div) as [mdiv|].
  2:{ injection Hrun as <- <-. rewrite Hg. now destruct (- EINVAL =? 0). }
  rewrite (update_mdiv_unfold g mdiv d Hg) in Hrun. cbn zeta in Hrun.
  destruct (cache_only (rmap d)).
  - cbn in Hrun. injection Hrun as <- <-. cbn. apply lookup_insert_eq.
  - destruct (Bus.i2c_write 0x80 REG_GCTL (gctl_with_mdiv g mdiv) (plat d))
      as [rc1 p1].
    destruct (Z.eqb_spec rc1 0) as [->|Hne]; cbn [negb Z.eqb] in Hrun.
    + injection Hrun as <- <-. cbn. apply lookup_insert_eq.
    + destruct (Z.eqb_spec rc1 0); [ contradiction |]. cbn [negb] in Hrun.
      injection Hrun as <- <-. destruct (Z.eqb_spec rc1 0); [ contradiction |].
      exact Hg.
Qed.

(** The shadow of global control after a run: the accepted codes
    applied in turn. *)
Lemma run_gctl (cs : list call) (g : Z) (d d' : device) :
  run cs d = Some d' ->
  cache (rmap d) !! REG_GCTL = Some g ->
  cache (rmap d') !! REG_GCTL
  = Some (fold_left gctl_with_mdiv (accepted_codes cs d) g).
Proof.
  revert g d. induction cs as [|c cs IH]; intros g d Hrun Hg.
  - injection Hrun as <-. exact Hg.
  - cbn [run accepted_codes] in Hrun |- *.
    destruct (invoke c d) as [[rc d1]|] eqn:Hi; [| discriminate ].
    destruct (is_stream_config c) eqn:Hc.
    + destruct c; try discriminate Hc. cbn [invoke] in Hi.
      pose proof (hw_params_gctl_step _ _ g _ _ Hi Hg) as Hstep.
      destruct (rc =? 0); [| exact (IH g d1 Hrun Hstep) ].
      destruct (mclk_div_of _ _ ≫= mdiv_of) as [code|];
        [| exact (IH g d1 Hrun Hstep) ].
      cbn [fold_left]. exact (IH _ d1 Hrun Hstep).
    + assert (Hg1 : cache (rmap d1) !! REG_GCTL = Some g).
      { now rewrite (invoke_keeps_cache c rc d d1 Hc Hi). }
      destruct c; try discriminate Hc; exact (IH g d1 Hrun Hg1).
Qed.

(** Only the last code counts: each write of the field replaces the
    one before. *)
Lemma fold_gctl_last (codes : list Z) (g : Z) :
  fold_left gctl_with_mdiv codes g
  = match last codes with
    | None => g
    | Some code => gctl_with_mdiv g code
    end.
Proof.
  induction codes as [|code codes IH] using rev_ind; [ reflexivity |].
  rewrite fold_left_app, last_snoc. cbn [fold_left]. rewrite IH.
  destruct (last codes); [| reflexivity ].
  unfold gctl_with_mdiv. apply masked_update_twice.
Qed.

Lemma replayed_gctl_fold (codes : list Z) :
  Forall (fun code => code = 0 \/ code = 1 \/ code = 3) codes ->
  fold_left gctl_with_mdiv codes 0x8B = replayed_gctl codes.
Proof.
  intros Hall. rewrite fold_gctl_last. unfold replayed_gctl.
  destruct (last codes) as [code|] eqn:Hlast; [| reflexivity ].
  apply last_Some_elem_of in Hlast.
  rewrite Forall_forall in Hall. apply Hall in Hlast.
  destruct Hlast as [->|[->| ->]]; reflexivity.
Qed.

(** The three bytes a resume can replay into global control. *)
Lemma replayed_gctl_values (codes : list Z) :
  Forall (fun code => code = 0 \/ code = 1 \/ code = 3) codes ->
  replayed_gctl codes = 0x8B \/ replayed_gctl codes = 0x9B
  \/ replayed_gctl codes = 0xBB.
Proof.
  intros Hall. unfold replayed_gctl.
  destruct (last codes) as [code|] eqn:Hlast; [| now left ].
  apply last_Some_elem_of in Hlast.
  rewrite Forall_forall in Hall. apply Hall in Hlast.
  destruct Hlast as [->|[->| ->]]; [ left | right; left | right; right ];
    reflexivity.
Qed.

(** The shadow of every device reached from an attach keeps the
    initialisation sequence but for the divider field. *)
Lemma attach_then_init_kept
  (env : probe_env) (client : platform) (cs : list call) (d : device) :
  attach_then env client cs = Some d -> init_kept (cache (rmap d)).
Proof.
  intros Hreach. unfold attach_then in Hreach.
  destruct (cs5368_i2c_probe env client) as [rc0 [d0|]] eqn:Hp;
    [| discriminate ].
  apply probe_store in Hp as [Hm0 _].
  assert (H0 : init_kept (cache (rmap d0))).
  { rewrite Hm0. split; [ reflexivity |]. split; [ reflexivity |].
    exists 0x8B. split; reflexivity. }
  clear Hm0. revert d0 H0 Hreach.
  induction cs as [|c cs IH]; intros d0 H0 Hrun.
  - now injection Hrun as <-.
  - cbn [run] in Hrun.
    destruct (invoke c d0) as [[rc d1]|] eqn:Hi; [| discriminate ].
    exact (IH d1 (invoke_init_kept c rc d0 d1 Hi H0) Hrun).
Qed.

(** The shadow of global control on every device reached from an
    attach: 0x8B with the last accepted code. *)
Lemma attach_then_gctl
  (env : probe_env) (client : platform) (cs : list call) (d : device) :
  attach_then env client cs = Some d ->
  cache (rmap d) !! REG_GCTL
  = Some (replayed_gctl (attach_accepted_codes env client cs)).
Proof.
  unfold attach_then, attach_accepted_codes. intros Hreach.
  destruct (cs5368_i2c_probe env client) as [rc0 [d0|]] eqn:Hp;
    [| discriminate ].
  apply probe_store in Hp as [Hm0 _].
  rewrite <- (replayed_gctl_fold _ (accepted_codes_values cs d0)).
  apply run_gctl; [ exact Hreach |]. rewrite Hm0. reflexivity.
Qed.

(** C4 (as amended).  A suspend followed by a resume, whatever the two
    return and on every device (whatever its shadow holds, control
    registers included), leaves the whole shadow, so every
    non-volatile, non-reserved register in it, as it was before the
    suspend.  A resume that returns 0 leaves the shadow alone and every
    cached, non-volatile register on the device as the shadow holds it.
    On a device reached from an attach by any calls of the host, a
    resume that returns 0, the first one included, leaves the overflow
    mask 0x00, the pin enable 0x0A and, in global control, 0x8B with
    bits 4-5 the divider code of the last stream configuration that
    returned 0 since the attach (one of 0, 1 and 3), on the device as in
    the shadow; when no stream configuration has returned 0, refused
    ones or none, global control is 0x8B exactly. *)
Theorem power_cycle_resync
  (env : probe_env) (client : platform) (cs : list call) (d : device)
  (disable_rc enable_rc : Z) :
  (forall any : device,
     cache (rmap (snd (cs5368_pm_runtime_resume enable_rc
                         (snd (cs5368_pm_runtime_suspend disable_rc any)))))
     = cache (rmap any)) /\
  (forall any d1 : device,
     cs5368_pm_runtime_resume enable_rc any = (0, d1) ->
     cache (rmap d1) = cache (rmap any) /\
     forall reg, syncable cs5368 reg = true ->
                 is_Some (cache (rmap d1) !! reg) ->
                 hw_regs (plat d1) !! reg = cache (rmap d1) !! reg) /\
  (attach_then env client cs = Some d ->
   forall d1,
     cs5368_pm_runtime_resume enable_rc d = (0, d1) ->
     let codes := attach_accepted_codes env client cs in
     Forall (fun code => code = 0 \/ code = 1 \/ code = 3) codes /\
     map (fun reg => hw_regs (plat d1) !! reg) [REG_GCTL; REG_OVFM; REG_SDEN]
     = [Some (replayed_gctl codes); Some 0x00; Some 0x0A] /\
     map (fun reg => cache (rmap d1) !! reg) [REG_GCTL; REG_OVFM; REG_SDEN]
     = [Some (replayed_gctl codes); Some 0x00; Some 0x0A] /\
     (codes = [] -> hw_regs (plat d1) !! REG_GCTL = Some 0x8B) /\
     (forallb (fun c => negb (is_stream_config c)) cs = true -> codes = [])).
Proof.
  split.
  { intros any. now rewrite resume_cache, suspend_cache. }
  split.
  { intros any d1 Hres.
    assert (Hc1 : cache (rmap d1) = cache (rmap any)).
    { rewrite <- (resume_cache enable_rc any), Hres. reflexivity. }
    split; [ exact Hc1 |].
    intros reg Hs [v Hv]. rewrite Hv. rewrite Hc1 in Hv.
    exact (resume_ok_syncs enable_rc reg v any d1 Hres Hs Hv). }
  intros Hreach d1 Hres codes.
  assert (Hc1 : cache (rmap d1) = cache (rmap d)).
  { rewrite <- (resume_cache enable_rc d), Hres. reflexivity. }
  pose proof (attach_then_gctl env client cs d Hreach) as Hg.
  fold codes in Hg.
  destruct (attach_then_init_kept env client cs d Hreach)
    as (Hovfm & Hsden & _).
  assert (Hvals : Forall (fun code => code = 0 \/ code = 1 \/ code = 3) codes).
  { unfold codes, attach_accepted_codes.
    destruct (cs5368_i2c_probe env client) as [rc0 [d0|]];
      [ apply accepted_codes_values | constructor ]. }
  assert (Hhw : hw_regs (plat d1) !! REG_GCTL = Some (replayed_gctl codes)).
  { exact (resume_ok_syncs enable_rc REG_GCTL _ d d1 Hres eq_refl Hg). }
  split; [ exact Hvals |].
  split.
  { cbn [map]. rewrite Hhw.
    rewrite (resume_ok_syncs enable_rc REG_OVFM _ d d1 Hres eq_refl Hovfm).
    rewrite (resume_ok_syncs enable_rc REG_SDEN _ d d1 Hres eq_refl Hsden).
    reflexivity. }
  split.
  { cbn [map]. rewrite Hc1, Hg, Hovfm, Hsden. reflexivity. }
  split.
  { intros Hnone. rewrite Hhw, Hnone. reflexivity. }
  intros Hcs. unfold codes, attach_accepted_codes.
  destruct (cs5368_i2c_probe env client) as [rc0 [d0|]]; [| reflexivity ].
  exact (accepted_codes_no_stream_config cs d0 Hcs).
Qed.

Lemma power_cycle_resync_witness :
  exists d d1,
    attach_then kernel_ok chip_at_reset mixed_stream_calls = Some d /\
    cs5368_pm_runtime_resume 0 d = (0, d1) /\
    attach_accepted_codes kernel_ok chip_at_reset mixed_stream_calls = [1; 3] /\
    map (fun reg => hw_regs (plat d1) !! reg) [REG_GCTL; REG_OVFM; REG_SDEN]
    = [Some 0xBB; Some 0x00; Some 0x0A] /\
    map (fun reg => cache (rmap toggled_chip) !! reg) [REG_HPF; REG_MUTE]
    = [Some 0x10; Some 0x04] /\
    cache (rmap (snd (cs5368_pm_runtime_resume 0
                        (snd (cs5368_pm_runtime_suspend 0 toggled_chip)))))
    = cache (rmap toggled_chip).
Proof.
  eexists _, _. split; [ vm_compute; reflexivity |].
  match goal with
  | |- cs5368_pm_runtime_resume 0 ?d = _ /\ _ =>
    destruct (power_cycle_resync kernel_ok chip_at_reset mixed_stream_calls
                d 0 0) as (Hkeep & _ & Hinit)
  end.
  split; [ vm_compute; reflexivity |].
  split; [ vm_compute; reflexivity |].
  split; [| split; [ vm_compute; reflexivity | apply Hkeep ] ].
  match goal with
  | |- context [hw_regs (plat ?d1)] =>
    destruct (Hinit ltac:(vm_compute; reflexivity) d1
                ltac:(vm_compute; reflexivity)) as (_ & Hhw & _)
  end.
  rewrite Hhw. vm_compute. reflexivity.
Defined.

(** C4, counterexample.  A stream configured before the first resume
    shows in the replay: with 24.576 MHz latched and 96 kHz configured
    on the attached, still unpowered device, the first resume succeeds
    and puts 0x9B, not 0x8B, into global control. *)
Lemma first_resume_after_stream_config :
  exists d d1,
    attach_then kernel_ok chip_at_reset
      [SetSysclk 0 0 24576000 SND_SOC_CLOCK_IN; HwParams 96000] = Some d /\
    power_state_of d = Unpowered /\
    cs5368_pm_runtime_resume 0 d = (0, d1) /\
    hw_regs (plat d1) !! REG_GCTL = Some 0x9B /\
    cache (rmap d1) !! REG_GCTL = Some 0x9B.
Proof.
  eexists _, _. split; [ vm_compute; reflexivity |].
  evaluate_all.
Qed.
